(** * Standby transfer-queue processing and the Elasticsearch bulk processor

    A shallow embedding of
    - [service/history/transferQueueStandbyProcessor.go] and
      [service/history/transferQueueProcessorBase.go] (module [Standby]), and
    - the indexer's [esProcessorImpl] (module [Indexer]),
    followed by the properties established about them.

    Go values are embedded as follows.  An [error] interface value is an
    [option error] ([None] is Go's [nil]); a pair [(v, err)] returned by a
    collaborator is a sum [error + V]; [int32]/[int64]/[time.Duration] are
    [Z]; a [time.Time] is its nanosecond count as a [Z]; optional thrift
    fields (pointers) are [option]s.  Calls to collaborators (matching,
    visibility store, message bus, history cache, domain cache) are recorded
    in a trace of events, and their answers are supplied by an environment
    record. *)

From Stdlib Require Import ZArith Lia Ascii String.
From stdpp Require Import base decidable option list strings gmap.

Local Open Scope string_scope.
Local Open Scope list_scope.
Local Open Scope Z_scope.

(** ** Values shared by both subsystems *)

(** Sentinel and collaborator errors.  [ErrTaskRetry], [ErrTaskDiscarded],
    [errUnknownTransferTask] and [errUnexpectedQueueTask] are the package
    level sentinels of [service/history]; [EntityNotExistsError] is the thrift
    [*workflow.EntityNotExistsError]; every other error is [OtherError]. *)
Inductive error : Type :=
| ErrTaskRetry
| ErrTaskDiscarded
| errUnknownTransferTask
| errUnexpectedQueueTask
| EntityNotExistsError (message : string)
| OtherError (message : string).

#[global] Instance error_eq_dec : EqDecision error.
Proof. solve_decision. Defined.

(** [indexer.thrift]: enum VisibilityMsgType. *)
Inductive VisibilityMsgType : Type :=
| VisibilityMsgTypeOpen
| VisibilityMsgTypeClosed
| VisibilityMsgTypeDelete.

(** The generated [String()] method of the enum. *)
Definition VisibilityMsgType_String (t : VisibilityMsgType) : string :=
  match t with
  | VisibilityMsgTypeOpen => "Open"
  | VisibilityMsgTypeClosed => "Closed"
  | VisibilityMsgTypeDelete => "Delete"
  end.

(** [shared.WorkflowExecutionCloseStatus]. *)
Inductive WorkflowExecutionCloseStatus : Type :=
| CloseStatusCompleted
| CloseStatusFailed
| CloseStatusCanceled
| CloseStatusTerminated
| CloseStatusContinuedAsNew
| CloseStatusTimedOut.

(** [indexer.thrift]: struct VisibilityMsg; every field is optional. *)
Record VisibilityMsg : Type := mkVisibilityMsg {
  MsgType : option VisibilityMsgType;
  DomainID : option string;
  WorkflowID : option string;
  RunID : option string;
  WorkflowType : option string;
  StartTime : option Z;
  CloseTime : option Z;
  CloseStatus : option WorkflowExecutionCloseStatus;
  HistoryLength : option Z
}.

(** Two's-complement wrap-around of a 64-bit signed integer. *)
Definition wrap64 (z : Z) : Z := (z + 2 ^ 63) mod 2 ^ 64 - 2 ^ 63.

Definition minInt64 : Z := - 2 ^ 63.
Definition maxInt64 : Z := 2 ^ 63 - 1.
Definition minInt32 : Z := - 2 ^ 31.
Definition maxInt32 : Z := 2 ^ 31 - 1.

Definition inInt32 (z : Z) : Prop := minInt32 <= z <= maxInt32.
Definition inInt64 (z : Z) : Prop := minInt64 <= z <= maxInt64.

(** [time.Time.Sub]: the difference as a [time.Duration], saturating at the
    extreme durations. *)
Definition Sub (t u : Z) : Z :=
  if t - u <? minInt64 then minInt64
  else if maxInt64 <? t - u then maxInt64
  else t - u.

(** [common.MinInt32]. *)
Definition MinInt32 (a b : Z) : Z := if a <? b then a else b.

(** ** The standby transfer-queue processor *)

Module Standby.

(** [persistence.TransferTaskType*]; the Go type is an integer, so values
    outside the six known task types exist. *)
Inductive TransferTaskType : Type :=
| TransferTaskTypeDecisionTask
| TransferTaskTypeActivityTask
| TransferTaskTypeCloseExecution
| TransferTaskTypeCancelExecution
| TransferTaskTypeStartChildExecution
| TransferTaskTypeSignalExecution
| TransferTaskTypeOther (n : Z).

#[global] Instance TransferTaskType_eq_dec : EqDecision TransferTaskType.
Proof. solve_decision. Defined.

(** [persistence.TransferTaskInfo], the fields read by the processor. *)
Record TransferTaskInfo : Type := mkTransferTaskInfo {
  task_DomainID : string;
  task_WorkflowID : string;
  task_RunID : string;
  task_TaskID : Z;
  task_TargetDomainID : string;
  task_TaskList : string;
  task_TaskType : TransferTaskType;
  task_ScheduleID : Z;
  task_Version : Z;
  task_VisibilityTimestamp : Z
}.

(** What the queue hands to [process]: any [queueTaskInfo]. *)
Inductive queueTaskInfo : Type :=
| QTransferTask (task : TransferTaskInfo)
| QOtherTask.

(** [workflow.WorkflowExecution] with its nil-safe getters. *)
Record WorkflowExecution : Type := mkWorkflowExecution {
  WorkflowId : option string;
  RunId : option string
}.

Definition GetWorkflowId (e : WorkflowExecution) : string := default "" (WorkflowId e).
Definition GetRunId (e : WorkflowExecution) : string := default "" (RunId e).

Record TaskList : Type := mkTaskList { tl_Name : option string }.

(** The infos kept in mutable state; each carries the version it was
    written with. *)
Record ActivityInfo : Type := mkActivityInfo {
  ai_Version : Z;
  ai_StartedID : Z;
  ai_ScheduleToStartTimeout : Z
}.

Record DecisionInfo : Type := mkDecisionInfo {
  di_Version : Z;
  di_StartedID : Z
}.

Record RequestCancelInfo : Type := mkRequestCancelInfo { rci_Version : Z }.

Record SignalInfo : Type := mkSignalInfo { si_Version : Z }.

Record ChildExecutionInfo : Type := mkChildExecutionInfo {
  ci_Version : Z;
  ci_StartedID : Z
}.

Record WorkflowExecutionInfo : Type := mkWorkflowExecutionInfo {
  WorkflowTypeName : string;
  WorkflowTimeout : Z;
  StartTimestamp : Z;          (* StartTimestamp.UnixNano() *)
  ei_CloseStatus : Z;          (* the persistence-level status code *)
  NextEventID : Z
}.

(** The [mutableState] interface, as far as the standby handlers use it.  A
    getter returning [(info, isPending)] is an [option]. *)
Record mutableState : Type := mkMutableState {
  IsWorkflowExecutionRunning : bool;
  GetExecutionInfo : WorkflowExecutionInfo;
  GetLastUpdatedTimestamp : Z;
  GetLastWriteVersion : Z;
  GetNextEventID : Z;
  GetActivityInfo : Z -> option ActivityInfo;
  GetPendingDecision : Z -> option DecisionInfo;
  GetRequestCancelInfo : Z -> option RequestCancelInfo;
  GetSignalInfo : Z -> option SignalInfo;
  GetChildExecutionInfo : Z -> option ChildExecutionInfo
}.

(** A domain cache entry: [GetInfo().Name] and the per-workflow policies. *)
Record DomainCacheEntry : Type := mkDomainCacheEntry {
  dce_Name : string;
  GetRetentionDays : string -> Z;
  IsSampledForLongerRetentionEnabled : string -> bool;
  IsSampledForLongerRetention : string -> bool
}.

(** Requests sent to the matching service and to the visibility store. *)
Record AddActivityTaskRequest : Type := mkAddActivityTaskRequest {
  aat_DomainUUID : option string;
  aat_SourceDomainUUID : option string;
  aat_Execution : WorkflowExecution;
  aat_TaskList : TaskList;
  aat_ScheduleId : option Z;
  aat_ScheduleToStartTimeoutSeconds : option Z
}.

Record AddDecisionTaskRequest : Type := mkAddDecisionTaskRequest {
  adt_DomainUUID : option string;
  adt_Execution : WorkflowExecution;
  adt_TaskList : option TaskList;
  adt_ScheduleId : option Z;
  adt_ScheduleToStartTimeoutSeconds : option Z
}.

Record RecordWorkflowExecutionStartedRequest : Type := mkRecordStarted {
  rs_DomainUUID : string;
  rs_Domain : string;
  rs_Execution : WorkflowExecution;
  rs_WorkflowTypeName : string;
  rs_StartTimestamp : Z;
  rs_WorkflowTimeout : Z
}.

Record RecordWorkflowExecutionClosedRequest : Type := mkRecordClosed {
  rc_DomainUUID : string;
  rc_Domain : string;
  rc_Execution : WorkflowExecution;
  rc_WorkflowTypeName : string;
  rc_StartTimestamp : Z;
  rc_CloseTimestamp : Z;
  rc_Status : WorkflowExecutionCloseStatus;
  rc_HistoryLength : Z;
  rc_RetentionSeconds : Z
}.

(** The key under which the history cache hands out a workflow context. *)
Record workflowExecutionContext : Type := mkContext {
  ctx_DomainID : string;
  ctx_Execution : WorkflowExecution
}.

(** *** Effects

    Every call that leaves the processor is recorded as an event, in the
    order in which the calls are made. *)
Inductive event : Type :=
| Release (err : option error)
| AddActivityTask (req : AddActivityTaskRequest)
| AddDecisionTask (req : AddDecisionTaskRequest)
| Publish (msg : VisibilityMsg)
| RecordWorkflowExecutionStarted (req : RecordWorkflowExecutionStartedRequest)
| RecordWorkflowExecutionClosed (req : RecordWorkflowExecutionClosedRequest)
| LogError (message : string)
| LogFatal (message : string).

(** A call either returns, or the process is ended by a fatal log. *)
Inductive outcome (A : Type) : Type :=
| Returned (a : A)
| Exited.

Arguments Returned {A} a.
Arguments Exited {A}.

Definition M (A : Type) : Type := outcome A * list event.

Definition ret {A : Type} (a : A) : M A := (Returned a, []).

Definition bind {A B : Type} (m : M A) (f : A -> M B) : M B :=
  match m with
  | (Returned a, tr) => let '(r, tr') := f a in (r, tr ++ tr')
  | (Exited, tr) => (Exited, tr)
  end.

Notation "x <- m ;; k" := (bind m (fun x => k))
  (at level 100, m at next level, right associativity).

Definition emit (e : event) : M unit := (Returned tt, [e]).

Definition fatal {A : Type} (message : string) : M A := (Exited, [LogFatal message]).

(** Go's [defer] with a named result: the deferred function runs when the
    body returns and reads the value being returned. *)
Definition defer {A : Type} (body : M A) (deferred : A -> M unit) : M A :=
  r <- body ;; _ <- deferred r ;; ret r.

(** The value a call returned, if it returned, and the calls it made. *)
Definition result {A : Type} (m : M A) : outcome A := fst m.
Definition trace {A : Type} (m : M A) : list event := snd m.

(** *** Collaborators

    The answers of the collaborators and the constants of package [common]
    that the two source files refer to. *)
Record Env : Type := mkEnv {
  clusterName : string;
  GetCurrentTime : string -> Z;                  (* shard.GetCurrentTime *)
  StandbyClusterDelay : Z;                       (* shard.GetConfig().StandbyClusterDelay() *)
  MaxTaskTimeout : Z;                            (* common.MaxTaskTimeout *)
  FirstEventID : Z;                              (* common.FirstEventID *)
  EmptyEventID : Z;                              (* common.EmptyEventID *)
  verifyStandbyTask : string -> string -> TransferTaskInfo -> error + bool;
  verifyTaskVersion : string -> Z -> Z -> TransferTaskInfo -> error + bool;
  getOrCreateWorkflowExecution : string -> WorkflowExecution -> error + workflowExecutionContext;
  loadMutableStateForTransferTask :
    workflowExecutionContext -> TransferTaskInfo -> error + option mutableState;
  getWorkflowExecutionCloseStatus : Z -> WorkflowExecutionCloseStatus;
  GetDomainByID : string -> error + DomainCacheEntry;
  matchingAddActivityTask : AddActivityTaskRequest -> option error;
  matchingAddDecisionTask : AddDecisionTaskRequest -> option error;
  visibilityProducer : option (VisibilityMsg -> option error);
  visibilityRecordStarted : RecordWorkflowExecutionStartedRequest -> option error;
  visibilityRecordClosed : RecordWorkflowExecutionClosedRequest -> option error
}.

(** Modelled from the spec: the constant [secondsInDay] of package [history]
    is declared outside the two source files; the retention is converted as
    days times 86400. *)
Definition secondsInDay : Z := 86400.

Definition defaultDomainName : string := "defaultDomainName".

Definition isEntityNotExistsError (err : error) : bool :=
  match err with
  | EntityNotExistsError _ => true
  | _ => false
  end.

(** The metric scopes returned by [process]. *)
Inductive metricScope : Type :=
| TransferStandbyQueueProcessorScope
| TransferStandbyTaskActivityScope
| TransferStandbyTaskDecisionScope
| TransferStandbyTaskCloseExecutionScope
| TransferStandbyTaskCancelExecutionScope
| TransferStandbyTaskSignalExecutionScope
| TransferStandbyTaskStartChildExecutionScope.

(** *** transferQueueProcessorBase.go *)

Section Base.
Variable env : Env.

Definition release (err : option error) : M unit := emit (Release err).

Definition pushActivity (task : TransferTaskInfo) (activityScheduleToStartTimeout : Z)
  : M (option error) :=
  _ <- (if decide (task_TaskType task = TransferTaskTypeActivityTask) then ret tt
        else fatal "Cannot process non activity task") ;;
  let req := {| aat_DomainUUID := Some (task_TargetDomainID task);
                aat_SourceDomainUUID := Some (task_DomainID task);
                aat_Execution := {| WorkflowId := Some (task_WorkflowID task);
                                    RunId := Some (task_RunID task) |};
                aat_TaskList := {| tl_Name := Some (task_TaskList task) |};
                aat_ScheduleId := Some (task_ScheduleID task);
                aat_ScheduleToStartTimeoutSeconds := Some activityScheduleToStartTimeout |} in
  _ <- emit (AddActivityTask req) ;;
  ret (matchingAddActivityTask env req).

Definition pushDecision (task : TransferTaskInfo) (tasklist : option TaskList)
    (decisionScheduleToStartTimeout : Z) : M (option error) :=
  _ <- (if decide (task_TaskType task = TransferTaskTypeDecisionTask) then ret tt
        else fatal "Cannot process non decision task") ;;
  let req := {| adt_DomainUUID := Some (task_DomainID task);
                adt_Execution := {| WorkflowId := Some (task_WorkflowID task);
                                    RunId := Some (task_RunID task) |};
                adt_TaskList := tasklist;
                adt_ScheduleId := Some (task_ScheduleID task);
                adt_ScheduleToStartTimeoutSeconds := Some decisionScheduleToStartTimeout |} in
  _ <- emit (AddDecisionTask req) ;;
  ret (matchingAddDecisionTask env req).

(** [t.visibilityProducer.Publish(msg)] when a producer is configured. *)
Definition publish (msg : VisibilityMsg) : M (option error) :=
  match visibilityProducer env with
  | None => ret None
  | Some producer => _ <- emit (Publish msg) ;; ret (producer msg)
  end.

Definition recordWorkflowStarted (domainID : string) (execution : WorkflowExecution)
    (workflowTypeName : string) (startTimeUnixNano : Z) (workflowTimeout : Z)
  : M (option error) :=
  let wid := GetWorkflowId execution in
  (* domain, isSampledEnabled and the entry they were read from *)
  let resolved : error + (string * bool * option DomainCacheEntry) :=
    match GetDomainByID env domainID with
    | inl err =>
        if isEntityNotExistsError err then inr (defaultDomainName, false, None)
        else inl err
    | inr domainEntry =>
        inr (dce_Name domainEntry,
             IsSampledForLongerRetentionEnabled domainEntry wid,
             Some domainEntry)
    end in
  match resolved with
  | inl err => ret (Some err)
  | inr (domain, isSampledEnabled, domainEntry) =>
    (* if sampled for longer retention is enabled, only record those sampled events *)
    if isSampledEnabled
       && negb (from_option (fun d => IsSampledForLongerRetention d wid) true domainEntry)
    then ret None
    else
      (* publish to kafka *)
      err <- publish {| MsgType := Some VisibilityMsgTypeOpen;
                        DomainID := Some domainID;
                        WorkflowID := Some wid;
                        RunID := Some (GetRunId execution);
                        WorkflowType := Some workflowTypeName;
                        StartTime := Some startTimeUnixNano;
                        CloseTime := None;
                        CloseStatus := None;
                        HistoryLength := None |} ;;
      match err with
      | Some e => ret (Some e)
      | None =>
        let req := {| rs_DomainUUID := domainID;
                      rs_Domain := domain;
                      rs_Execution := execution;
                      rs_WorkflowTypeName := workflowTypeName;
                      rs_StartTimestamp := startTimeUnixNano;
                      rs_WorkflowTimeout := workflowTimeout |} in
        _ <- emit (RecordWorkflowExecutionStarted req) ;;
        ret (visibilityRecordStarted env req)
      end
  end.

Definition recordWorkflowClosed (domainID : string) (execution : WorkflowExecution)
    (workflowTypeName : string) (startTimeUnixNano : Z) (endTimeUnixNano : Z)
    (closeStatus : WorkflowExecutionCloseStatus) (historyLength : Z)
  : M (option error) :=
  (* Record closing in visibility store *)
  let wid := GetWorkflowId execution in
  (* retentionSeconds, domain, isSampledEnabled and the entry they were read from *)
  let resolved : error + (Z * string * bool * option DomainCacheEntry) :=
    match GetDomainByID env domainID with
    | inl err =>
        (* it is possible that the domain got deleted. Use default retention. *)
        if isEntityNotExistsError err then inr (0, defaultDomainName, false, None)
        else inl err
    | inr domainEntry =>
        (* retention in domain config is in days, convert to seconds *)
        inr (wrap64 (GetRetentionDays domainEntry (GetWorkflowId execution) * secondsInDay),
             dce_Name domainEntry,
             IsSampledForLongerRetentionEnabled domainEntry wid,
             Some domainEntry)
    end in
  match resolved with
  | inl err => ret (Some err)
  | inr (retentionSeconds, domain, isSampledEnabled, domainEntry) =>
    (* if sampled for longer retention is enabled, only record those sampled events *)
    if isSampledEnabled
       && negb (from_option (fun d => IsSampledForLongerRetention d wid) true domainEntry)
    then ret None
    else
      (* publish to kafka *)
      err <- publish {| MsgType := Some VisibilityMsgTypeClosed;
                        DomainID := Some domainID;
                        WorkflowID := Some wid;
                        RunID := Some (GetRunId execution);
                        WorkflowType := Some workflowTypeName;
                        StartTime := Some startTimeUnixNano;
                        CloseTime := Some endTimeUnixNano;
                        CloseStatus := Some closeStatus;
                        HistoryLength := Some historyLength |} ;;
      match err with
      | Some e => ret (Some e)
      | None =>
        let req := {| rc_DomainUUID := domainID;
                      rc_Domain := domain;
                      rc_Execution := execution;
                      rc_WorkflowTypeName := workflowTypeName;
                      rc_StartTimestamp := startTimeUnixNano;
                      rc_CloseTimestamp := endTimeUnixNano;
                      rc_Status := closeStatus;
                      rc_HistoryLength := historyLength;
                      rc_RetentionSeconds := retentionSeconds |} in
        _ <- emit (RecordWorkflowExecutionClosed req) ;;
        ret (visibilityRecordClosed env req)
      end
  end.

End Base.

(** *** transferQueueStandbyProcessor.go *)

Section Processor.
Variable env : Env.

Definition postActionNoOp (_ : unit) : M (option error) := ret None.

Definition getDomainIDAndWorkflowExecution (transferTask : TransferTaskInfo)
  : string * WorkflowExecution :=
  (task_DomainID transferTask,
   {| WorkflowId := Some (task_WorkflowID transferTask);
      RunId := Some (task_RunID transferTask) |}).

(** [processTransfer].  The Go closures [action] and [postAction] share the
    variables they capture; here [action] returns, next to its error, the
    value [V] of the captured variables, and [postAction] receives it. *)
Definition processTransfer {V : Type} (processTaskIfClosed : bool)
    (transferTask : TransferTaskInfo)
    (action : mutableState -> M (option error * V))
    (postAction : V -> M (option error)) : M (option error) :=
  let '(domainID, execution) := getDomainIDAndWorkflowExecution transferTask in
  match getOrCreateWorkflowExecution env domainID execution with
  | inl err => ret (Some err)
  | inr context =>
    defer
      (match loadMutableStateForTransferTask env context transferTask with
       | inl err => ret (Some err)
       | inr None => ret None
       | inr (Some msBuilder) =>
         if negb processTaskIfClosed && negb (IsWorkflowExecutionRunning msBuilder)
         then (* workflow already finished, no need to process the timer *)
           ret None
         else
           r <- action msBuilder ;;
           match fst r with
           | Some err => ret (Some err)
           | None => _ <- release None ;; postAction (snd r)
           end
       end)
      (fun retError =>
         if decide (retError = Some ErrTaskRetry) then release None
         else release retError)
  end.

Definition discardTask (transferTask : TransferTaskInfo) : M bool :=
  (* the current time got from shard is already delayed by StandbyClusterDelay
     so discard will be true if task is delayed by 2*StandbyClusterDelay *)
  let now := GetCurrentTime env (clusterName env) in
  let discard :=
    StandbyClusterDelay env <? Sub now (task_VisibilityTimestamp transferTask) in
  _ <- (if discard
        then emit (LogError
               "Discarding standby transfer task due to task being pending for too long.")
        else ret tt) ;;
  ret discard.

Definition processActivityTask (transferTask : TransferTaskInfo) : M (option error) :=
  let processTaskIfClosed := false in
  processTransfer processTaskIfClosed transferTask
    (fun msBuilder =>
       match GetActivityInfo msBuilder (task_ScheduleID transferTask) with
       | None => ret (None, None)
       | Some activityInfo =>
         match verifyTaskVersion env (task_DomainID transferTask)
                 (ai_Version activityInfo) (task_Version transferTask) transferTask with
         | inl err => ret (Some err, None)
         | inr false => ret (None, None)
         | inr true =>
           let now := GetCurrentTime env (clusterName env) in
           let pushToMatching :=
             StandbyClusterDelay env <? Sub now (task_VisibilityTimestamp transferTask) in
           if decide (ai_StartedID activityInfo = EmptyEventID env) then
             if negb pushToMatching then ret (Some ErrTaskRetry, None)
             else ret (None, Some (MinInt32 (ai_ScheduleToStartTimeout activityInfo)
                                            (MaxTaskTimeout env)))
           else ret (None, None)
         end
       end)
    (fun activityScheduleToStartTimeout =>
       match activityScheduleToStartTimeout with
       | None => ret None
       | Some v =>
         let timeout := MinInt32 v (MaxTaskTimeout env) in
         pushActivity env transferTask timeout
       end).

(** The source calls [recordWorkflowStarted] with [executionInfo.NextEventID]
    as a sixth argument, which the five-parameter definition in
    [transferQueueProcessorBase.go] does not take; the call is embedded with
    the five arguments that the definition has. *)
Definition processDecisionTask (transferTask : TransferTaskInfo) : M (option error) :=
  let processTaskIfClosed := false in
  let execution := {| WorkflowId := Some (task_WorkflowID transferTask);
                      RunId := Some (task_RunID transferTask) |} in
  processTransfer processTaskIfClosed transferTask
    (fun msBuilder =>
       let executionInfo := GetExecutionInfo msBuilder in
       let workflowTimeout := WorkflowTimeout executionInfo in
       let decisionTimeout := MinInt32 workflowTimeout (MaxTaskTimeout env) in
       let wfTypeName := WorkflowTypeName executionInfo in
       let startTimestamp := StartTimestamp executionInfo in
       let markWorkflowAsOpen := task_ScheduleID transferTask <=? FirstEventID env + 2 in
       match GetPendingDecision msBuilder (task_ScheduleID transferTask) with
       | None =>
         if markWorkflowAsOpen then
           err <- recordWorkflowStarted env (task_DomainID transferTask) execution
                    wfTypeName startTimestamp workflowTimeout ;;
           match err with
           | Some e => ret (Some e, (None, None))
           | None => ret (None, (None, None))
           end
         else ret (None, (None, None))
       | Some decisionInfo =>
         match verifyTaskVersion env (task_DomainID transferTask)
                 (di_Version decisionInfo) (task_Version transferTask) transferTask with
         | inl err => ret (Some err, (None, None))
         | inr false => ret (None, (None, None))
         | inr true =>
           (* the error of this call is assigned and never read *)
           _ <- (if markWorkflowAsOpen then
                   recordWorkflowStarted env (task_DomainID transferTask) execution
                     wfTypeName startTimestamp workflowTimeout
                 else ret None) ;;
           let now := GetCurrentTime env (clusterName env) in
           let pushToMatching :=
             StandbyClusterDelay env <? Sub now (task_VisibilityTimestamp transferTask) in
           if decide (di_StartedID decisionInfo = EmptyEventID env) then
             if negb pushToMatching then ret (Some ErrTaskRetry, (None, None))
             else ret (None, (Some decisionTimeout,
                              Some {| tl_Name := Some (task_TaskList transferTask) |}))
           else ret (None, (None, None))
         end
       end)
    (fun '(decisionScheduleToStartTimeout, tasklist) =>
       match decisionScheduleToStartTimeout with
       | None => ret None
       | Some v =>
         let timeout := MinInt32 v (MaxTaskTimeout env) in
         pushDecision env transferTask tasklist timeout
       end).

(** The action closure of [processCloseExecution].  As for
    [recordWorkflowStarted], the trailing [executionInfo.NextEventID] of the
    source's call to [recordWorkflowClosed] has no parameter in the
    definition and is left out. *)
Definition closeExecutionAction (transferTask : TransferTaskInfo) (msBuilder : mutableState)
  : M (option error * unit) :=
  let execution := {| WorkflowId := Some (task_WorkflowID transferTask);
                      RunId := Some (task_RunID transferTask) |} in
  if IsWorkflowExecutionRunning msBuilder then
    (* this can happen if workflow is reset. *)
    ret (None, tt)
  else
    let executionInfo := GetExecutionInfo msBuilder in
    let workflowTypeName := WorkflowTypeName executionInfo in
    let workflowStartTimestamp := StartTimestamp executionInfo in
    let workflowCloseTimestamp := GetLastUpdatedTimestamp msBuilder in
    let workflowCloseStatus :=
      getWorkflowExecutionCloseStatus env (ei_CloseStatus executionInfo) in
    let workflowHistoryLength := GetNextEventID msBuilder in
    match verifyTaskVersion env (task_DomainID transferTask)
            (GetLastWriteVersion msBuilder) (task_Version transferTask) transferTask with
    | inl err => ret (Some err, tt)
    | inr false => ret (None, tt)
    | inr true =>
      (* DO NOT REPLY TO PARENT
         since event replication should be done by active cluster *)
      err <- recordWorkflowClosed env (task_DomainID transferTask) execution
               workflowTypeName workflowStartTimestamp workflowCloseTimestamp
               workflowCloseStatus workflowHistoryLength ;;
      ret (err, tt)
    end.

Definition processCloseExecution (transferTask : TransferTaskInfo) : M (option error) :=
  let processTaskIfClosed := true in
  processTransfer processTaskIfClosed transferTask
    (closeExecutionAction transferTask) postActionNoOp.

Definition processCancelExecution (transferTask : TransferTaskInfo) : M (option error) :=
  let processTaskIfClosed := false in
  processTransfer processTaskIfClosed transferTask
    (fun msBuilder =>
       match GetRequestCancelInfo msBuilder (task_ScheduleID transferTask) with
       | None => ret (None, tt)
       | Some requestCancelInfo =>
         match verifyTaskVersion env (task_DomainID transferTask)
                 (rci_Version requestCancelInfo) (task_Version transferTask) transferTask with
         | inl err => ret (Some err, tt)
         | inr false => ret (None, tt)
         | inr true =>
           discard <- discardTask transferTask ;;
           if discard then ret (Some ErrTaskDiscarded, tt)
           else ret (Some ErrTaskRetry, tt)
         end
       end)
    postActionNoOp.

Definition processSignalExecution (transferTask : TransferTaskInfo) : M (option error) :=
  let processTaskIfClosed := false in
  processTransfer processTaskIfClosed transferTask
    (fun msBuilder =>
       match GetSignalInfo msBuilder (task_ScheduleID transferTask) with
       | None => ret (None, tt)
       | Some signalInfo =>
         match verifyTaskVersion env (task_DomainID transferTask)
                 (si_Version signalInfo) (task_Version transferTask) transferTask with
         | inl err => ret (Some err, tt)
         | inr false => ret (None, tt)
         | inr true =>
           discard <- discardTask transferTask ;;
           if discard then ret (Some ErrTaskDiscarded, tt)
           else ret (Some ErrTaskRetry, tt)
         end
       end)
    postActionNoOp.

Definition processStartChildExecution (transferTask : TransferTaskInfo) : M (option error) :=
  let processTaskIfClosed := false in
  processTransfer processTaskIfClosed transferTask
    (fun msBuilder =>
       match GetChildExecutionInfo msBuilder (task_ScheduleID transferTask) with
       | None => ret (None, tt)
       | Some childWorkflowInfo =>
         match verifyTaskVersion env (task_DomainID transferTask)
                 (ci_Version childWorkflowInfo) (task_Version transferTask) transferTask with
         | inl err => ret (Some err, tt)
         | inr false => ret (None, tt)
         | inr true =>
           if decide (ci_StartedID childWorkflowInfo = EmptyEventID env) then
             discard <- discardTask transferTask ;;
             if discard then ret (Some ErrTaskDiscarded, tt)
             else ret (Some ErrTaskRetry, tt)
           else ret (None, tt)
         end
       end)
    postActionNoOp.

Definition transferTaskFilter (task : TransferTaskInfo) : error + bool :=
  verifyStandbyTask env (clusterName env) (task_DomainID task) task.

Definition process (qTask : queueTaskInfo) : M (metricScope * option error) :=
  match qTask with
  | QOtherTask => ret (TransferStandbyQueueProcessorScope, Some errUnexpectedQueueTask)
  | QTransferTask task =>
    match transferTaskFilter task with
    | inl err => ret (TransferStandbyQueueProcessorScope, Some err)
    | inr false => ret (TransferStandbyQueueProcessorScope, None)
    | inr true =>
      match task_TaskType task with
      | TransferTaskTypeActivityTask =>
          err <- processActivityTask task ;; ret (TransferStandbyTaskActivityScope, err)
      | TransferTaskTypeDecisionTask =>
          err <- processDecisionTask task ;; ret (TransferStandbyTaskDecisionScope, err)
      | TransferTaskTypeCloseExecution =>
          err <- processCloseExecution task ;;
          ret (TransferStandbyTaskCloseExecutionScope, err)
      | TransferTaskTypeCancelExecution =>
          err <- processCancelExecution task ;;
          ret (TransferStandbyTaskCancelExecutionScope, err)
      | TransferTaskTypeSignalExecution =>
          err <- processSignalExecution task ;;
          ret (TransferStandbyTaskSignalExecutionScope, err)
      | TransferTaskTypeStartChildExecution =>
          err <- processStartChildExecution task ;;
          ret (TransferStandbyTaskStartChildExecutionScope, err)
      | TransferTaskTypeOther _ =>
          ret (TransferStandbyQueueProcessorScope, Some errUnknownTransferTask)
      end
    end
  end.

(** The six per-type handlers, by the task type each one serves. *)
Inductive handler : Type :=
| ActivityHandler
| DecisionHandler
| CloseExecutionHandler
| CancelExecutionHandler
| SignalExecutionHandler
| StartChildExecutionHandler.

Definition runHandler (h : handler) (transferTask : TransferTaskInfo) : M (option error) :=
  match h with
  | ActivityHandler => processActivityTask transferTask
  | DecisionHandler => processDecisionTask transferTask
  | CloseExecutionHandler => processCloseExecution transferTask
  | CancelExecutionHandler => processCancelExecution transferTask
  | SignalExecutionHandler => processSignalExecution transferTask
  | StartChildExecutionHandler => processStartChildExecution transferTask
  end.

(** The [processTaskIfClosed] flag each handler passes to [processTransfer]. *)
Definition processTaskIfClosedOf (h : handler) : bool :=
  match h with
  | CloseExecutionHandler => true
  | _ => false
  end.

End Processor.

(** *** Sample collaborators

    A concrete environment, mutable state and task, used to run the
    handlers on explicit inputs. *)

(** Modelled from the spec: [verifyTaskVersion] is declared outside the two
    source files.  It compares [task.version] to the version on the
    corresponding info in mutable state: equal versions proceed, a mismatch
    is dropped silently. *)
Definition verifyTaskVersionBySpec (domainID : string) (version taskVersion : Z)
    (task : TransferTaskInfo) : error + bool :=
  inr (bool_decide (version = taskVersion)).

Definition sampleDomain (enabled sampled : bool) : DomainCacheEntry :=
  {| dce_Name := "orders";
     GetRetentionDays := fun _ => 7;
     IsSampledForLongerRetentionEnabled := fun _ => enabled;
     IsSampledForLongerRetention := fun _ => sampled |}.

Definition sampleState (running : bool) : mutableState :=
  {| IsWorkflowExecutionRunning := running;
     GetExecutionInfo := {| WorkflowTypeName := "checkout";
                            WorkflowTimeout := 3600;
                            StartTimestamp := 1000;
                            ei_CloseStatus := 1;
                            NextEventID := 12 |};
     GetLastUpdatedTimestamp := 5000;
     GetLastWriteVersion := 5;
     GetNextEventID := 12;
     GetActivityInfo := fun id =>
       if decide (id = 7) then Some {| ai_Version := 5; ai_StartedID := -23;
                                       ai_ScheduleToStartTimeout := 30 |}
       else None;
     GetPendingDecision := fun id =>
       if decide (id = 7) then Some {| di_Version := 5; di_StartedID := -23 |} else None;
     GetRequestCancelInfo := fun id =>
       if decide (id = 7) then Some {| rci_Version := 5 |} else None;
     GetSignalInfo := fun id =>
       if decide (id = 7) then Some {| si_Version := 5 |} else None;
     GetChildExecutionInfo := fun id =>
       if decide (id = 7) then Some {| ci_Version := 5; ci_StartedID := -23 |} else None |}.

(** The shard's clock reads [now]; the standby delay is 10; the history
    cache answers with [ms]; the domain cache with [domain]; matching with
    [matchingErr]; the bus producer with [publishErr]. *)
Definition sampleEnv (now : Z) (ms : mutableState) (domain : error + DomainCacheEntry)
    (matchingErr publishErr : option error) : Env :=
  {| clusterName := "standby";
     GetCurrentTime := fun _ => now;
     StandbyClusterDelay := 10;
     MaxTaskTimeout := 31622400;
     FirstEventID := 1;
     EmptyEventID := -23;
     verifyStandbyTask := fun _ _ _ => inr true;
     verifyTaskVersion := verifyTaskVersionBySpec;
     getOrCreateWorkflowExecution := fun d e => inr {| ctx_DomainID := d; ctx_Execution := e |};
     loadMutableStateForTransferTask := fun _ _ => inr (Some ms);
     getWorkflowExecutionCloseStatus := fun _ => CloseStatusCompleted;
     GetDomainByID := fun _ => domain;
     matchingAddActivityTask := fun _ => matchingErr;
     matchingAddDecisionTask := fun _ => matchingErr;
     visibilityProducer := Some (fun _ => publishErr);
     visibilityRecordStarted := fun _ => None;
     visibilityRecordClosed := fun _ => None |}.

Definition sampleTask (taskType : TransferTaskType) (version : Z) : TransferTaskInfo :=
  {| task_DomainID := "domain-1";
     task_WorkflowID := "wf-1";
     task_RunID := "run-1";
     task_TaskID := 100;
     task_TargetDomainID := "domain-1";
     task_TaskList := "tl";
     task_TaskType := taskType;
     task_ScheduleID := 7;
     task_Version := version;
     task_VisibilityTimestamp := 0 |}.

Definition sampleExecution : WorkflowExecution :=
  {| WorkflowId := Some "wf-1"; RunId := Some "run-1" |}.

(** The calls to [release] in a trace, in order, by their argument. *)
Definition releases (tr : list event) : list (option error) :=
  omap (fun e => match e with Release err => Some err | _ => None end) tr.

(** The version on the info that a handler passes to [verifyTaskVersion]. *)
Definition versionOnInfo (h : handler) (ms : mutableState) (task : TransferTaskInfo)
  : option Z :=
  match h with
  | ActivityHandler => ai_Version <$> GetActivityInfo ms (task_ScheduleID task)
  | DecisionHandler => di_Version <$> GetPendingDecision ms (task_ScheduleID task)
  | CloseExecutionHandler => Some (GetLastWriteVersion ms)
  | CancelExecutionHandler => rci_Version <$> GetRequestCancelInfo ms (task_ScheduleID task)
  | SignalExecutionHandler => si_Version <$> GetSignalInfo ms (task_ScheduleID task)
  | StartChildExecutionHandler =>
      ci_Version <$> GetChildExecutionInfo ms (task_ScheduleID task)
  end.

(** A pending task whose awaited event has not been replicated: a pending
    cancel or signal, or a pending child whose start has not been recorded. *)
Definition awaitsReplication (env : Env) (h : handler) (ms : mutableState)
    (task : TransferTaskInfo) : Prop :=
  match h with
  | CancelExecutionHandler =>
      is_Some (GetRequestCancelInfo ms (task_ScheduleID task))
  | SignalExecutionHandler =>
      is_Some (GetSignalInfo ms (task_ScheduleID task))
  | StartChildExecutionHandler =>
      exists info, GetChildExecutionInfo ms (task_ScheduleID task) = Some info
                   /\ ci_StartedID info = EmptyEventID env
  | _ => False
  end.

(** The time a task has been waiting, as the handlers compute it:
    [shard.GetCurrentTime(clusterName)] minus the task's visibility timestamp. *)
Definition elapsed (env : Env) (task : TransferTaskInfo) : Z :=
  Sub (GetCurrentTime env (clusterName env)) (task_VisibilityTimestamp task).

(** The visibility message that [recordWorkflowClosed] publishes. *)
Definition closedMsg (domainID : string) (execution : WorkflowExecution)
    (workflowTypeName : string) (startTimeUnixNano endTimeUnixNano : Z)
    (closeStatus : WorkflowExecutionCloseStatus) (historyLength : Z) : VisibilityMsg :=
  {| MsgType := Some VisibilityMsgTypeClosed;
     DomainID := Some domainID;
     WorkflowID := Some (GetWorkflowId execution);
     RunID := Some (GetRunId execution);
     WorkflowType := Some workflowTypeName;
     StartTime := Some startTimeUnixNano;
     CloseTime := Some endTimeUnixNano;
     CloseStatus := Some closeStatus;
     HistoryLength := Some historyLength |}.

(** The argument that the deferred call of [processTransfer] passes to
    [release] for the outcome [retError]. *)
Definition deferredArgument (retError : option error) : option error :=
  if decide (retError = Some ErrTaskRetry) then None else retError.

(** The request that [pushActivity] sends to matching. *)
Definition activityRequest (task : TransferTaskInfo) (timeout : Z) : AddActivityTaskRequest :=
  {| aat_DomainUUID := Some (task_TargetDomainID task);
     aat_SourceDomainUUID := Some (task_DomainID task);
     aat_Execution := {| WorkflowId := Some (task_WorkflowID task);
                         RunId := Some (task_RunID task) |};
     aat_TaskList := {| tl_Name := Some (task_TaskList task) |};
     aat_ScheduleId := Some (task_ScheduleID task);
     aat_ScheduleToStartTimeoutSeconds := Some timeout |}.


(** The request that [pushDecision] sends to matching. *)
Definition decisionRequest (task : TransferTaskInfo) (timeout : Z) : AddDecisionTaskRequest :=
  {| adt_DomainUUID := Some (task_DomainID task);
     adt_Execution := {| WorkflowId := Some (task_WorkflowID task);
                         RunId := Some (task_RunID task) |};
     adt_TaskList := Some {| tl_Name := Some (task_TaskList task) |};
     adt_ScheduleId := Some (task_ScheduleID task);
     adt_ScheduleToStartTimeoutSeconds := Some timeout |}.

(** The visibility message that [recordWorkflowStarted] publishes and the
    row it writes. *)
Definition openMsg (domainID : string) (execution : WorkflowExecution)
    (workflowTypeName : string) (startTimeUnixNano : Z) : VisibilityMsg :=
  {| MsgType := Some VisibilityMsgTypeOpen;
     DomainID := Some domainID;
     WorkflowID := Some (GetWorkflowId execution);
     RunID := Some (GetRunId execution);
     WorkflowType := Some workflowTypeName;
     StartTime := Some startTimeUnixNano;
     CloseTime := None;
     CloseStatus := None;
     HistoryLength := None |}.

(** Calls to the message bus and to the visibility store. *)
Definition isVisibilityCall (e : event) : Prop :=
  match e with
  | Publish _ | RecordWorkflowExecutionStarted _ | RecordWorkflowExecutionClosed _ => True
  | _ => False
  end.

(** Calls other than [release]. *)
Definition notRelease (e : event) : Prop :=
  match e with
  | Release _ => False
  | _ => True
  end.

(** The call returns to its caller: the process is not ended under it. *)
Definition returns {A : Type} (m : M A) : Prop := exists a, result m = Returned a.

(** The workflow execution that the handlers build from a task. *)
Definition executionOf (task : TransferTaskInfo) : WorkflowExecution :=
  {| WorkflowId := Some (task_WorkflowID task); RunId := Some (task_RunID task) |}.

(** The calls to [release] that end a run of [processTransfer] whose action
    returned [r]: the explicit [release(nil)] and the deferred one after a
    success, the deferred one alone after an error. *)
Definition closingReleases (r : option error) : list event :=
  match r with
  | None => [Release None; Release None]
  | Some _ => [Release (deferredArgument r)]
  end.

End Standby.

(** ** The Elasticsearch bulk processor of the indexer *)

Module Indexer.

(** A message handed out by the bus consumer ([messaging.Message]); the
    processor only ever calls [Ack] on it. *)
Record Message : Type := mkMessage { messageID : nat }.

#[global] Instance Message_eq_dec : EqDecision Message.
Proof. solve_decision. Defined.

(** What [mapToKafkaMsg] stores: the map's values have type [interface{}],
    and [ackKafkaMsg] asserts that the value it reads is a message. *)
Inductive mapValue : Type :=
| IsMessage (kafkaMsg : Message)
| NotMessage.

(** A decoded JSON value ([interface{}] as produced by [json.Unmarshal]).
    Numbers are decoded by Go as [float64]; they are embedded by their
    integer value, which covers the versions that the bulk headers carry. *)
Inductive jsonValue : Type :=
| JString (s : string)
| JNumber (n : Z)
| JBool (b : bool)
| JNull
| JComposite.

(** [map[string]map[string]interface{}]: the decoded header line.  The
    entries are listed in the order in which [range] visits them; Go fixes
    that order only for maps with at most one entry, which is what a header
    of the bulk framing is. *)
Definition requestHead : Type := list (string * gmap string jsonValue).

(** An [elastic.BulkableRequest]: either the index request that
    [getESRequest] builds with [elastic.NewBulkIndexRequest], or any other
    request that a caller has handed to [Add]. *)
Inductive BulkableRequest : Type :=
| BulkIndexRequest (index typ id versionType : string) (version : Z) (doc : VisibilityMsg)
| CallerRequest (n : nat).

(** One entry of [elastic.BulkResponse.Items]: a map from the operation name
    to the item's outcome, listed in iteration order. *)
Record BulkResponseItem : Type := mkBulkResponseItem {
  Id : string;
  Status : Z
}.

Definition responseItem : Type := list (string * BulkResponseItem).

Inductive metric : Type :=
| ESProcessorFailures
| ESProcessorCorruptedData.

(** The calls that leave the processor. *)
Inductive event : Type :=
| Ack (kafkaMsg : Message)
| ProcessorAdd (request : BulkableRequest)      (* p.processor.Add *)
| LogError (message : string)
| LogFatal (message : string)
| IncCounter (m : metric)
| Sleep (d : Z).

(** The library functions and the constants of package [indexer] that the
    source file uses and does not define. *)
Record Lib : Type := mkLib {
  Source : BulkableRequest -> error + list string;      (* request.Source() *)
  unmarshalRequestHead : string -> option requestHead;  (* json.Unmarshal into reqHead *)
  unmarshalVisibilityMsg : string -> option VisibilityMsg; (* json.Unmarshal into doc *)
  versionForOpen : Z;
  versionForClose : Z;
  versionForDelete : Z;
  ESProcessorRetryInterval : Z
}.

Definition esRequestTypeIndex : string := "index".
Definition esRequestTypeUpdate : string := "update".
Definition esRequestTypeDelete : string := "delete".

(** The processor: its in-flight map, together with the calls made so far.
    The sharded [collection.ConcurrentTxMap] is embedded as one finite map:
    the shard that [hashFn] picks for a key decides which lock is taken, not
    what [Contains], [Put], [Get] and [Remove] answer. *)
Record esProcessorImpl : Type := mkProcessor {
  mapToKafkaMsg : gmap string mapValue;
  calls : list event
}.

(** A call returns, ends the process with a fatal log, or panics (a failed
    type assertion or an index out of range). *)
Inductive outcome (A : Type) : Type :=
| Returned (a : A)
| Exited
| Panicked.

Arguments Returned {A} a.
Arguments Exited {A}.
Arguments Panicked {A}.

Definition M (A : Type) : Type := esProcessorImpl -> outcome A * esProcessorImpl.

Definition ret {A : Type} (a : A) : M A := fun p => (Returned a, p).

Definition bind {A B : Type} (m : M A) (f : A -> M B) : M B :=
  fun p =>
    match m p with
    | (Returned a, p') => f a p'
    | (Exited, p') => (Exited, p')
    | (Panicked, p') => (Panicked, p')
    end.

Notation "x <- m ;; k" := (bind m (fun x => k))
  (at level 100, m at next level, right associativity).

Definition emit (e : event) : M unit :=
  fun p => (Returned tt, {| mapToKafkaMsg := mapToKafkaMsg p; calls := calls p ++ [e] |}).

Definition panic {A : Type} : M A := fun p => (Panicked, p).

Definition fatal {A : Type} (message : string) : M A :=
  fun p => (Exited, {| mapToKafkaMsg := mapToKafkaMsg p;
                       calls := calls p ++ [LogFatal message] |}).

(** The four operations of [collection.ConcurrentTxMap] that are used. *)
Definition Contains (key : string) : M bool :=
  fun p => (Returned (bool_decide (is_Some (mapToKafkaMsg p !! key))), p).

Definition Put (key : string) (value : mapValue) : M unit :=
  fun p => (Returned tt, {| mapToKafkaMsg := <[key := value]> (mapToKafkaMsg p);
                            calls := calls p |}).

Definition Get (key : string) : M (option mapValue) :=
  fun p => (Returned (mapToKafkaMsg p !! key), p).

Definition Remove (key : string) : M unit :=
  fun p => (Returned tt, {| mapToKafkaMsg := delete key (mapToKafkaMsg p);
                            calls := calls p |}).

(** [for _, x := range l { body }], threading the variables [b] that the
    body assigns. *)
Fixpoint forRange {A B : Type} (l : list A) (body : A -> B -> M B) (b : B) : M B :=
  match l with
  | [] => ret b
  | x :: l' => b' <- body x b ;; forRange l' body b'
  end.

(** Type assertions [v.(string)] and [v.(float64)] on a map lookup; a
    missing key yields the nil interface, on which both assertions panic. *)
Definition assertString (v : option jsonValue) : M string :=
  match v with
  | Some (JString s) => ret s
  | _ => panic
  end.

Definition assertFloat64 (v : option jsonValue) : M Z :=
  match v with
  | Some (JNumber n) => ret n
  | _ => panic
  end.

(** [input[i]] on a slice. *)
Definition sliceAt {A : Type} (l : list A) (i : nat) : M A :=
  match l !! i with
  | Some x => ret x
  | None => panic
  end.

Section Processor.
Variable lib : Lib.

(** Add an ES request, and a map item for the kafka message. *)
Definition Add (request : BulkableRequest) (key : string) (kafkaMsg : Message) : M unit :=
  present <- Contains key ;;
  if (present : bool) then
    emit (Ack kafkaMsg)  (* duplicate message *)
  else
    _ <- Put key (IsMessage kafkaMsg) ;;
    emit (ProcessorAdd request).

Definition ackKafkaMsg (key : string) : M unit :=
  msg <- Get key ;;
  match msg with
  | None => ret tt  (* duplicate kafka message *)
  | Some NotMessage =>
      (* must be bug in code and bad deployment *)
      fatal "Message is not kafka message."
  | Some (IsMessage kafkaMsg) =>
      _ <- emit (Ack kafkaMsg) ;;
      Remove key
  end.

Definition getReqType (input : requestHead) : string :=
  match input with
  | (k, _) :: _ => k
  | [] => ""
  end.

Definition convertESVersionToVisibilityMsgType (version : Z) : string :=
  if decide (version = versionForOpen lib) then
    VisibilityMsgType_String VisibilityMsgTypeOpen
  else if decide (version = versionForClose lib) then
    VisibilityMsgType_String VisibilityMsgTypeClosed
  else if decide (version = versionForDelete lib) then
    VisibilityMsgType_String VisibilityMsgTypeDelete
  else "".

(** The zero value of [indexer.VisibilityMsg]. *)
Definition emptyVisibilityMsg : VisibilityMsg :=
  {| MsgType := None; DomainID := None; WorkflowID := None; RunID := None;
     WorkflowType := None; StartTime := None; CloseTime := None;
     CloseStatus := None; HistoryLength := None |}.

(** getESRequest from [elastic.BulkableRequest.Source()]; [None] is the nil
    request. *)
Definition getESRequest (input : list string) : M (option BulkableRequest) :=
  line0 <- sliceAt input 0 ;;
  match unmarshalRequestHead lib line0 with
  | None =>
      _ <- emit (LogError "Unmarshal request err.") ;;
      _ <- emit (IncCounter ESProcessorCorruptedData) ;;
      ret None
  | Some reqHead =>
      fields <- forRange reqHead
                  (fun '(_, m) (_ : string * string * string * Z * string) =>
                     index <- assertString (m !! "_index") ;;
                     id <- assertString (m !! "_id") ;;
                     typ <- assertString (m !! "_type") ;;
                     version <- assertFloat64 (m !! "version") ;;
                     versionType <- assertString (m !! "version_type") ;;
                     ret (index, id, typ, version, versionType))
                  ("", "", "", 0, "") ;;
      let '(index, id, typ, version, versionType) := fields in
      doc <- (if decide (length input = 2%nat) then
                line1 <- sliceAt input 1 ;;
                ret (unmarshalVisibilityMsg lib line1)
              else ret (Some emptyVisibilityMsg)) ;;
      match doc with
      | None =>
          _ <- emit (LogError "Unmarshal request body err.") ;;
          ret None
      | Some doc =>
          let reqType := getReqType reqHead in
          if decide (reqType = esRequestTypeIndex) then
            ret (Some (BulkIndexRequest index typ id versionType version doc))
          else if decide (reqType = esRequestTypeDelete) then
            ret None  (* the case has no statements *)
          else
            ret None
      end
  end.

(** Re-enqueue the request rebuilt from [req], when there is one. *)
Definition resubmit (req : list string) : M unit :=
  r <- getESRequest req ;;
  match r with
  | Some r => emit (ProcessorAdd r)
  | None => ret tt
  end.

(** The reconciliation of one response entry of item [i]. *)
Definition reconcileResult (req : list string) (head : string) (res : BulkResponseItem)
  : M unit :=
  let key := String.append (Id res) head in
  if (200 <=? Status res) && (Status res <? 300) then
    (* success, ack kafka msg *)
    ackKafkaMsg key
  else if decide (Status res = 409) then
    (* version conflict, discard *)
    ackKafkaMsg key
  else
    (* re-enqueue error request to retry until success *)
    resubmit req.

(** The body of the loop over the requests of a committed bulk. *)
Definition reconcileItem (responseItems : list responseItem) (i : nat)
    (request : BulkableRequest) : M unit :=
  match Source lib request with
  | inl err =>
      _ <- emit (LogError "Get request source err.") ;;
      emit (IncCounter ESProcessorCorruptedData)
  | inr req =>
      line0 <- sliceAt req 0 ;;
      match unmarshalRequestHead lib line0 with
      | None =>
          _ <- emit (LogError "Unmarshal request err.") ;;
          emit (IncCounter ESProcessorCorruptedData)
      | Some reqHead =>
          head <- forRange reqHead
                    (fun '(_, header) (_ : string) =>
                       version <- assertFloat64 (header !! "version") ;;
                       ret (convertESVersionToVisibilityMsgType version))
                    "" ;;
          responseItem <- sliceAt responseItems i ;;
          forRange responseItem
            (fun '(_, res) (_ : unit) => reconcileResult req head res) tt
      end
  end.

Fixpoint reconcileFrom (responseItems : list responseItem) (i : nat)
    (requests : list BulkableRequest) : M unit :=
  match requests with
  | [] => ret tt
  | request :: rest =>
      _ <- reconcileItem responseItems i request ;;
      reconcileFrom responseItems (S i) rest
  end.

(** The body of the loop that follows a failed flush. *)
Definition retryItem (request : BulkableRequest) : M unit :=
  match Source lib request with
  | inl err =>
      _ <- emit (LogError "Get request source err.") ;;
      emit (IncCounter ESProcessorCorruptedData)
  | inr req => resubmit req
  end.

(** bulkAfterAction is triggered after bulk processor commit.  [response] is
    the [Items] of the bulk response and [err] the flush error. *)
Definition bulkAfterAction (id : Z) (requests : list BulkableRequest)
    (response : list responseItem) (err : option error) : M unit :=
  match err with
  | Some _ =>
      (* This happens after configured retry, which means something bad
         happens on cluster or index *)
      _ <- emit (LogError "Error commit bulk request.") ;;
      _ <- emit (IncCounter ESProcessorFailures) ;;
      _ <- emit (Sleep (ESProcessorRetryInterval lib)) ;;
      forRange requests (fun request (_ : unit) => retryItem request) tt
  | None => reconcileFrom response 0 requests
  end.

End Processor.

(** The document that [getESRequest] attaches to a rebuilt request: the
    decoded second line when the input has exactly two lines, the zero
    value otherwise; [None] when the second line does not decode. *)
Definition bodyDoc (lib : Lib) (rest : list string) : option VisibilityMsg :=
  match rest with
  | [line1] => unmarshalVisibilityMsg lib line1
  | _ => Some emptyVisibilityMsg
  end.

(** The five entries of a header that [getESRequest] reads. *)
Definition headerFields (index id typ : string) (version : Z) (versionType : string)
  : gmap string jsonValue :=
  <["_index" := JString index]>
    (<["_id" := JString id]>
       (<["_type" := JString typ]>
          (<["version" := JNumber version]>
             (<["version_type" := JString versionType]> ∅)))).

(** A header with a single key and the five entries read from it. *)
Definition wellFormedHead (lib : Lib) (line0 op : string) (m : gmap string jsonValue)
    (index id typ : string) (version : Z) (versionType : string) : Prop :=
  unmarshalRequestHead lib line0 = Some [(op, m)]
  /\ m !! "_index" = Some (JString index)
  /\ m !! "_id" = Some (JString id)
  /\ m !! "_type" = Some (JString typ)
  /\ m !! "version" = Some (JNumber version)
  /\ m !! "version_type" = Some (JString versionType).

(** *** Sample requests

    Bulk framings for the document [runA] and a decoder that knows them. *)
Definition dq : string := String "034"%char "".

Definition quoted (s : string) : string := String.append dq (String.append s dq).

Definition textOf (parts : list string) : string := foldr String.append "" parts.

(** The header line [{"<op>":{"_index":"visibility","_id":"runA",
    "_type":"_doc","version":<version>,"version_type":"external"}}]. *)
Definition headerLine (op version : string) : string :=
  textOf ["{"; quoted op; ":{";
          quoted "_index"; ":"; quoted "visibility"; ",";
          quoted "_id"; ":"; quoted "runA"; ",";
          quoted "_type"; ":"; quoted "_doc"; ",";
          quoted "version"; ":"; version; ",";
          quoted "version_type"; ":"; quoted "external"; "}}"].

(** The body line [{"runID":"runA"}]. *)
Definition docLine : string := textOf ["{"; quoted "runID"; ":"; quoted "runA"; "}"].

Definition sampleDoc : VisibilityMsg :=
  {| MsgType := None; DomainID := None; WorkflowID := None; RunID := Some "runA";
     WorkflowType := None; StartTime := None; CloseTime := None;
     CloseStatus := None; HistoryLength := None |}.

Definition sampleUnmarshalRequestHead (line : string) : option requestHead :=
  if decide (line = headerLine "index" "10") then
    Some [("index", headerFields "visibility" "runA" "_doc" 10 "external")]
  else if decide (line = headerLine "delete" "30") then
    Some [("delete", headerFields "visibility" "runA" "_doc" 30 "external")]
  else if decide (line = headerLine "update" "10") then
    Some [("update", headerFields "visibility" "runA" "_doc" 10 "external")]
  else None.

Definition sampleUnmarshalVisibilityMsg (line : string) : option VisibilityMsg :=
  if decide (line = docLine) then Some sampleDoc else None.

(** Caller request 1 indexes [runA], 2 deletes it, 3 updates it. *)
Definition sampleSource (request : BulkableRequest) : error + list string :=
  match request with
  | BulkIndexRequest _ _ _ _ _ _ => inr [headerLine "index" "10"; docLine]
  | CallerRequest 1 => inr [headerLine "index" "10"; docLine]
  | CallerRequest 2 => inr [headerLine "delete" "30"]
  | CallerRequest 3 => inr [headerLine "update" "10"; docLine]
  | CallerRequest _ => inl (OtherError "no source")
  end.

Definition sampleLib : Lib :=
  {| Source := sampleSource;
     unmarshalRequestHead := sampleUnmarshalRequestHead;
     unmarshalVisibilityMsg := sampleUnmarshalVisibilityMsg;
     versionForOpen := 10;
     versionForClose := 20;
     versionForDelete := 30;
     ESProcessorRetryInterval := 1000 |}.

(** A processor with the message 1 in flight under the key [runAOpen]. *)
Definition sampleProcessor : esProcessorImpl :=
  {| mapToKafkaMsg := {[ "runAOpen" := IsMessage {| messageID := 1 |} ]};
     calls := [] |}.


(** A processor with the message 3 in flight for the Delete record of
    [runA], added with caller request 2. *)
Definition deleteInFlight : esProcessorImpl :=
  {| mapToKafkaMsg := {[ "runADelete" := IsMessage {| messageID := 3 |} ]};
     calls := [] |}.


(** *** Observations on a processor *)

(** Every value stored in the in-flight map is a message. *)
Definition allMessages (p : esProcessorImpl) : Prop :=
  forall key value, mapToKafkaMsg p !! key = Some value -> exists kafkaMsg, value = IsMessage kafkaMsg.

(** The messages acked and the requests handed to the bulk processor, in
    the order of the calls. *)
Definition acked (es : list event) : list Message :=
  omap (fun e => match e with Ack kafkaMsg => Some kafkaMsg | _ => None end) es.

Definition submitted (es : list event) : list BulkableRequest :=
  omap (fun e => match e with ProcessorAdd request => Some request | _ => None end) es.

(** Calls that only report: an error log or a counter. *)
Definition isReport (e : event) : Prop :=
  match e with
  | LogError _ | IncCounter _ => True
  | _ => False
  end.

(** Calls other than an ack and a fatal log. *)
Definition notAck (e : event) : Prop :=
  match e with
  | Ack _ | LogFatal _ => False
  | _ => True
  end.

(** A call that leaves the in-flight map as it is and only adds calls that
    satisfy [P] to the calls made so far. *)
Definition adds {A : Type} (P : event -> Prop) (m : M A) : Prop :=
  forall p, mapToKafkaMsg (snd (m p)) = mapToKafkaMsg p
            /\ exists es, calls (snd (m p)) = calls p ++ es /\ Forall P es.

(** A call that keeps [allMessages] and does not end the process. *)
Definition safe {A : Type} (m : M A) : Prop :=
  forall p, allMessages p -> allMessages (snd (m p)) /\ fst (m p) <> Exited.

(** A message in flight: the request it was added with, its key, and the
    response entry that the bulk processor reports for it. *)
Record inFlight : Type := mkInFlight {
  if_request : BulkableRequest;
  if_key : string;
  if_msg : Message;
  if_op : string;
  if_res : BulkResponseItem
}.

(** [Add] called for each message in turn. *)
Definition addAll (items : list inFlight) : M unit :=
  forRange items (fun it (_ : unit) => Add (if_request it) (if_key it) (if_msg it)) tt.

(** The response entry of an in-flight message reports a success or a
    version conflict for the key the message was added under. *)
Definition settled (lib : Lib) (it : inFlight) : Prop :=
  exists line0 rest op m version,
    Source lib (if_request it) = inr (line0 :: rest)
    /\ unmarshalRequestHead lib line0 = Some [(op, m)]
    /\ m !! "version" = Some (JNumber version)
    /\ String.append (Id (if_res it)) (convertESVersionToVisibilityMsgType lib version)
       = if_key it
    /\ (200 <= Status (if_res it) < 300 \/ Status (if_res it) = 409).


(** A call that never ends the process with a fatal log. *)
Definition alive {A : Type} (m : M A) : Prop := forall p, fst (m p) <> Exited.


(** The in-flight map after the messages have been added, and after their
    keys have been removed again. *)
Definition withAdded (items : list inFlight) (m : gmap string mapValue)
  : gmap string mapValue :=
  foldl (fun m it => <[if_key it := IsMessage (if_msg it)]> m) m items.

Definition withRemoved (items : list inFlight) (m : gmap string mapValue)
  : gmap string mapValue :=
  foldl (fun m it => delete (if_key it) m) m items.

(** The response of a bulk in which every request has one entry. *)
Definition responseOf (items : list inFlight) : list responseItem :=
  (fun it => [(if_op it, if_res it)]) <$> items.

(** [request] is an index request that [getESRequest] rebuilds as [rebuilt]. *)
Definition rebuildsTo (lib : Lib) (request rebuilt : BulkableRequest) : Prop :=
  exists line0 rest m index id typ version versionType doc,
    Source lib request = inr (line0 :: rest)
    /\ wellFormedHead lib line0 esRequestTypeIndex m index id typ version versionType
    /\ bodyDoc lib rest = Some doc
    /\ rebuilt = BulkIndexRequest index typ id versionType version doc.


(** A processor with nothing in flight, and the message 2 for the Open
    record of [runA], added with caller request 1. *)
Definition emptyProcessor : esProcessorImpl := {| mapToKafkaMsg := ∅; calls := [] |}.

Definition sampleInFlight : inFlight :=
  {| if_request := CallerRequest 1; if_key := "runAOpen";
     if_msg := {| messageID := 2 |}; if_op := "index";
     if_res := {| Id := "runA"; Status := 201 |} |}.


(** A call that only removes entries from the in-flight map, and acks one
    message for every entry it removes. *)
Definition conserves {A : Type} (m : M A) : Prop :=
  forall p, mapToKafkaMsg (snd (m p)) ⊆ mapToKafkaMsg p
            /\ exists es, calls (snd (m p)) = calls p ++ es
                          /\ size (mapToKafkaMsg p)
                             = (size (mapToKafkaMsg (snd (m p))) + length (acked es))%nat.


(** What the loop that follows a failed flush does with one request: the
    request it hands to the bulk processor again, if any, and the calls it
    makes.  An index request is rebuilt and resubmitted; a request whose
    source cannot be produced, or whose header or body does not decode, is
    reported; a request whose header names another operation is passed
    over. *)
Inductive retryOutcome (lib : Lib) (request : BulkableRequest)
  : option BulkableRequest -> list event -> Prop :=
| retry_rebuilt (rebuilt : BulkableRequest) :
    rebuildsTo lib request rebuilt ->
    retryOutcome lib request (Some rebuilt) [ProcessorAdd rebuilt]
| retry_no_source (err : error) :
    Source lib request = inl err ->
    retryOutcome lib request None
      [LogError "Get request source err."; IncCounter ESProcessorCorruptedData]
| retry_bad_head (line0 : string) (rest : list string) :
    Source lib request = inr (line0 :: rest) ->
    unmarshalRequestHead lib line0 = None ->
    retryOutcome lib request None
      [LogError "Unmarshal request err."; IncCounter ESProcessorCorruptedData]
| retry_other_operation (line0 : string) (rest : list string) (op : string)
    (m : gmap string jsonValue) (index id typ : string) (version : Z)
    (versionType : string) (doc : VisibilityMsg) :
    Source lib request = inr (line0 :: rest) ->
    wellFormedHead lib line0 op m index id typ version versionType ->
    op <> esRequestTypeIndex ->
    bodyDoc lib rest = Some doc ->
    retryOutcome lib request None []
| retry_bad_body (line0 : string) (rest : list string) (op : string)
    (m : gmap string jsonValue) (index id typ : string) (version : Z)
    (versionType : string) :
    Source lib request = inr (line0 :: rest) ->
    wellFormedHead lib line0 op m index id typ version versionType ->
    bodyDoc lib rest = None ->
    retryOutcome lib request None [LogError "Unmarshal request body err."].

(** *** A sample batch

    Framings for the documents [runA] and [runB]: caller request 1 indexes
    [runA], 2 deletes it, 4 indexes [runB]; any other request has no
    source. *)
Definition headerLineOf (op id version : string) : string :=
  textOf ["{"; quoted op; ":{";
          quoted "_index"; ":"; quoted "visibility"; ",";
          quoted "_id"; ":"; quoted id; ",";
          quoted "_type"; ":"; quoted "_doc"; ",";
          quoted "version"; ":"; version; ",";
          quoted "version_type"; ":"; quoted "external"; "}}"].

Definition docLineOf (id : string) : string :=
  textOf ["{"; quoted "runID"; ":"; quoted id; "}"].

Definition docOf (id : string) : VisibilityMsg :=
  {| MsgType := None; DomainID := None; WorkflowID := None; RunID := Some id;
     WorkflowType := None; StartTime := None; CloseTime := None;
     CloseStatus := None; HistoryLength := None |}.

Definition batchLib : Lib :=
  {| Source := fun request =>
       match request with
       | CallerRequest 1 => inr [headerLineOf "index" "runA" "10"; docLineOf "runA"]
       | CallerRequest 2 => inr [headerLineOf "delete" "runA" "30"]
       | CallerRequest 4 => inr [headerLineOf "index" "runB" "20"; docLineOf "runB"]
       | _ => inl (OtherError "no source")
       end;
     unmarshalRequestHead := fun line =>
       if decide (line = headerLineOf "index" "runA" "10") then
         Some [("index", headerFields "visibility" "runA" "_doc" 10 "external")]
       else if decide (line = headerLineOf "delete" "runA" "30") then
         Some [("delete", headerFields "visibility" "runA" "_doc" 30 "external")]
       else if decide (line = headerLineOf "index" "runB" "20") then
         Some [("index", headerFields "visibility" "runB" "_doc" 20 "external")]
       else None;
     unmarshalVisibilityMsg := fun line =>
       if decide (line = docLineOf "runA") then Some (docOf "runA")
       else if decide (line = docLineOf "runB") then Some (docOf "runB")
       else None;
     versionForOpen := 10;
     versionForClose := 20;
     versionForDelete := 30;
     ESProcessorRetryInterval := 1000 |}.

End Indexer.

(** * Properties of the standby processor *)

Module StandbyProperties.
Import Standby.

(** Unfolding the handlers down to [processTransfer]. *)
Ltac unfold_handlers :=
  unfold runHandler, processActivityTask, processDecisionTask, processCloseExecution,
    processCancelExecution, processSignalExecution, processStartChildExecution,
    closeExecutionAction.

(** Running the monad on explicit traces. *)
Ltac run_m :=
  unfold defer, bind, ret, release, emit; cbn;
  rewrite <- ?app_assoc, ?app_nil_r; cbn; try reflexivity.

Section ProcessTransfer.
Context (env : Env) (task : TransferTaskInfo)
        (ctx : workflowExecutionContext) (ms : mutableState).
Hypothesis acquired :
  getOrCreateWorkflowExecution env (task_DomainID task)
    {| WorkflowId := Some (task_WorkflowID task); RunId := Some (task_RunID task) |}
  = inr ctx.
Hypothesis loaded : loadMutableStateForTransferTask env ctx task = inr (Some ms).

(** With the workflow loaded, [processTransfer] either stops at the closed
    workflow or runs the action under the deferred release. *)
Lemma processTransfer_loaded {V : Type} (flag : bool)
    (action : mutableState -> M (option error * V)) (postAction : V -> M (option error)) :
  processTransfer env flag task action postAction =
  defer
    (if negb flag && negb (IsWorkflowExecutionRunning ms) then ret None
     else r <- action ms ;;
          match fst r with
          | Some err => ret (Some err)
          | None => _ <- release None ;; postAction (snd r)
          end)
    (fun retError =>
       if decide (retError = Some ErrTaskRetry) then release None else release retError).
Proof.
  unfold processTransfer, getDomainIDAndWorkflowExecution.
  rewrite acquired, loaded. reflexivity.
Qed.

Lemma processTransfer_closed {V : Type}
    (action : mutableState -> M (option error * V)) (postAction : V -> M (option error)) :
  IsWorkflowExecutionRunning ms = false ->
  processTransfer env false task action postAction = (Returned None, [Release None]).
Proof.
  intros Hclosed. rewrite processTransfer_loaded, Hclosed. reflexivity.
Qed.

End ProcessTransfer.

(** C7.  When the mutable state of the task's workflow reports that the
    workflow is not running, [processTransfer] called with
    [processTaskIfClosed = false] returns nil at once: whatever the action
    and the post-action are, neither is invoked, and the only call made is
    the deferred [release(nil)].  That is the case of the activity, decision,
    cancel, signal and start-child handlers.  The close-execution handler is
    the only one passing [processTaskIfClosed = true], and with that flag
    the action is run on the closed workflow. *)
Theorem closed_workflow_is_skipped (env : Env) (task : TransferTaskInfo)
    (ctx : workflowExecutionContext) (ms : mutableState) (h : handler) :
  getOrCreateWorkflowExecution env (task_DomainID task)
    {| WorkflowId := Some (task_WorkflowID task); RunId := Some (task_RunID task) |}
  = inr ctx ->
  loadMutableStateForTransferTask env ctx task = inr (Some ms) ->
  IsWorkflowExecutionRunning ms = false ->
  (forall (V : Type) (action : mutableState -> M (option error * V))
          (postAction : V -> M (option error)),
      processTransfer env false task action postAction = (Returned None, [Release None]))
  /\ (processTaskIfClosedOf h = false ->
      runHandler env h task = (Returned None, [Release None]))
  /\ (processTaskIfClosedOf h = true <-> h = CloseExecutionHandler)
  /\ (forall (V : Type) (action : mutableState -> M (option error * V))
             (postAction : V -> M (option error)),
      processTransfer env true task action postAction =
      defer
        (r <- action ms ;;
         match fst r with
         | Some err => ret (Some err)
         | None => _ <- release None ;; postAction (snd r)
         end)
        (fun retError =>
           if decide (retError = Some ErrTaskRetry) then release None
           else release retError))
  /\ runHandler env CloseExecutionHandler task =
     defer
       (r <- closeExecutionAction env task ms ;;
        match fst r with
        | Some err => ret (Some err)
        | None => _ <- release None ;; postActionNoOp (snd r)
        end)
       (fun retError =>
          if decide (retError = Some ErrTaskRetry) then release None
          else release retError).
Proof.
  intros Hacq Hload Hclosed. repeat split.
  - intros V action postAction. by eapply processTransfer_closed.
  - intros Hflag. destruct h; try discriminate Hflag; unfold_handlers;
      by eapply processTransfer_closed.
  - by destruct h.
  - by intros ->.
  - intros V action postAction.
    by rewrite (processTransfer_loaded env task ctx ms Hacq Hload).
  - unfold_handlers. by rewrite (processTransfer_loaded env task ctx ms Hacq Hload).
Qed.

Lemma closed_workflow_is_skipped_witness :
  runHandler (sampleEnv 0 (sampleState false) (inr (sampleDomain false false)) None None)
    SignalExecutionHandler (sampleTask TransferTaskTypeSignalExecution 5)
  = (Returned None, [Release None]).
Proof.
  apply (closed_workflow_is_skipped
           (sampleEnv 0 (sampleState false) (inr (sampleDomain false false)) None None)
           (sampleTask TransferTaskTypeSignalExecution 5)
           {| ctx_DomainID := "domain-1"; ctx_Execution := sampleExecution |}
           (sampleState false) SignalExecutionHandler);
    reflexivity.
Defined.

(** C6.  When [verifyTaskVersion] answers that the version of the task
    differs from the version on the info the handler looked up (the
    activity, decision, cancel, signal or child info, or the last-write
    version for close-execution), each of the six handlers returns nil, and
    the only calls it makes are [release(nil)]: nothing is pushed to
    matching, no visibility record is written, and neither [ErrTaskRetry]
    nor [ErrTaskDiscarded] is returned. *)
Theorem version_mismatch_is_dropped (env : Env) (task : TransferTaskInfo)
    (ctx : workflowExecutionContext) (ms : mutableState) (h : handler) (version : Z) :
  getOrCreateWorkflowExecution env (task_DomainID task)
    {| WorkflowId := Some (task_WorkflowID task); RunId := Some (task_RunID task) |}
  = inr ctx ->
  loadMutableStateForTransferTask env ctx task = inr (Some ms) ->
  versionOnInfo h ms task = Some version ->
  verifyTaskVersion env (task_DomainID task) version (task_Version task) task = inr false ->
  result (runHandler env h task) = Returned None
  /\ trace (runHandler env h task) =
     (if processTaskIfClosedOf h || IsWorkflowExecutionRunning ms
      then [Release None; Release None] else [Release None]).
Proof.
  intros Hacq Hload Hinfo Hverify.
  destruct h; unfold_handlers;
    rewrite (processTransfer_loaded env task ctx ms Hacq Hload);
    cbn [processTaskIfClosedOf negb andb orb];
    destruct (IsWorkflowExecutionRunning ms) eqn:Hrun; cbn [negb andb orb];
    try (split; reflexivity);
    cbn [versionOnInfo] in Hinfo;
    try (match type of Hinfo with
         | _ <$> ?o = _ => destruct o as [info|] eqn:Hinfo'; [|discriminate Hinfo]
         end);
    cbn in Hinfo; injection Hinfo as Hinfo; rewrite ?Hrun, ?Hinfo, ?Hverify;
    split; reflexivity.
Qed.

Lemma version_mismatch_is_dropped_witness :
  result (runHandler (sampleEnv 100 (sampleState true) (inr (sampleDomain false false))
                        None None)
            ActivityHandler (sampleTask TransferTaskTypeActivityTask 6)) = Returned None
  /\ trace (runHandler (sampleEnv 100 (sampleState true) (inr (sampleDomain false false))
                          None None)
              ActivityHandler (sampleTask TransferTaskTypeActivityTask 6))
     = [Release None; Release None].
Proof.
  apply (version_mismatch_is_dropped
           (sampleEnv 100 (sampleState true) (inr (sampleDomain false false)) None None)
           (sampleTask TransferTaskTypeActivityTask 6)
           {| ctx_DomainID := "domain-1"; ctx_Execution := sampleExecution |}
           (sampleState true) ActivityHandler 5);
    reflexivity.
Defined.

Lemma discardTask_false (env : Env) (task : TransferTaskInfo) :
  elapsed env task <= StandbyClusterDelay env ->
  discardTask env task = (Returned false, []).
Proof.
  intros Hle. unfold discardTask. fold (elapsed env task).
  destruct (Z.ltb_spec (StandbyClusterDelay env) (elapsed env task)); [lia|reflexivity].
Qed.

Lemma discardTask_true (env : Env) (task : TransferTaskInfo) :
  StandbyClusterDelay env < elapsed env task ->
  discardTask env task =
  (Returned true,
   [LogError "Discarding standby transfer task due to task being pending for too long."]).
Proof.
  intros Hlt. unfold discardTask. fold (elapsed env task).
  destruct (Z.ltb_spec (StandbyClusterDelay env) (elapsed env task)); [reflexivity|lia].
Qed.

(** C1, as stated, fails: with a standby delay of 10 and a pending signal
    task that has waited 15 on the shard's clock, the elapsed time is within
    twice the delay, yet [discardTask] answers true and the signal handler
    returns [ErrTaskDiscarded], not [ErrTaskRetry]. *)
Lemma signal_discarded_within_twice_the_delay :
  let env := sampleEnv 15 (sampleState true) (inr (sampleDomain false false)) None None in
  let task := sampleTask TransferTaskTypeSignalExecution 5 in
  awaitsReplication env SignalExecutionHandler (sampleState true) task
  /\ elapsed env task = 15
  /\ elapsed env task <= 2 * StandbyClusterDelay env
  /\ result (discardTask env task) = Returned true
  /\ result (processSignalExecution env task) = Returned (Some ErrTaskDiscarded)
  /\ result (processSignalExecution env task) <> Returned (Some ErrTaskRetry).
Proof.
  cbv zeta. split; [by eexists|].
  split; [reflexivity|]. split; [by vm_compute|].
  split; [reflexivity|]. split; [reflexivity|discriminate].
Qed.

(** C1, amended.  For a pending cancel or signal task, or a pending
    start-child task whose child has not started, on a running workflow and
    with the version check passed, the handler compares the elapsed time
    (shard time minus visibility timestamp) with [StandbyClusterDelay]
    itself, the shard's time being already delayed by that amount: while
    elapsed <= StandbyClusterDelay, [discardTask] answers false and the
    handler returns [ErrTaskRetry]; [discardTask] answers true and the
    handler returns [ErrTaskDiscarded] exactly when
    elapsed > StandbyClusterDelay. *)
Theorem pending_task_retried_then_discarded (env : Env) (task : TransferTaskInfo)
    (ctx : workflowExecutionContext) (ms : mutableState) (h : handler) (version : Z) :
  getOrCreateWorkflowExecution env (task_DomainID task)
    {| WorkflowId := Some (task_WorkflowID task); RunId := Some (task_RunID task) |}
  = inr ctx ->
  loadMutableStateForTransferTask env ctx task = inr (Some ms) ->
  IsWorkflowExecutionRunning ms = true ->
  awaitsReplication env h ms task ->
  versionOnInfo h ms task = Some version ->
  verifyTaskVersion env (task_DomainID task) version (task_Version task) task = inr true ->
  (elapsed env task <= StandbyClusterDelay env ->
   result (discardTask env task) = Returned false
   /\ runHandler env h task = (Returned (Some ErrTaskRetry), [Release None]))
  /\ (result (discardTask env task) = Returned true
      <-> StandbyClusterDelay env < elapsed env task)
  /\ (result (runHandler env h task) = Returned (Some ErrTaskDiscarded)
      <-> StandbyClusterDelay env < elapsed env task).
Proof.
  intros Hacq Hload Hrun Hawait Hinfo Hverify.
  assert (Hrunh : runHandler env h task =
                  defer (discard <- discardTask env task ;;
                         if (discard : bool) then ret (Some ErrTaskDiscarded)
                         else ret (Some ErrTaskRetry))
                    (fun retError =>
                       if decide (retError = Some ErrTaskRetry) then release None
                       else release retError)).
  { destruct h; try contradiction Hawait; unfold_handlers;
      rewrite (processTransfer_loaded env task ctx ms Hacq Hload), Hrun;
      cbn [negb andb]; cbn [versionOnInfo awaitsReplication] in Hinfo, Hawait.
    - destruct (GetRequestCancelInfo ms (task_ScheduleID task)) as [info|];
        [|discriminate Hinfo].
      cbn in Hinfo; injection Hinfo as Hinfo; rewrite Hinfo, Hverify.
      destruct (discardTask env task) as [[[]|] tr]; run_m.
    - destruct (GetSignalInfo ms (task_ScheduleID task)) as [info|];
        [|discriminate Hinfo].
      cbn in Hinfo; injection Hinfo as Hinfo; rewrite Hinfo, Hverify.
      destruct (discardTask env task) as [[[]|] tr]; run_m.
    - destruct Hawait as (info & Hchild & Hstarted). rewrite Hchild in Hinfo |- *.
      cbn in Hinfo; injection Hinfo as Hinfo; rewrite Hinfo, Hverify.
      rewrite decide_True by exact Hstarted.
      destruct (discardTask env task) as [[[]|] tr]; run_m. }
  rewrite Hrunh.
  destruct (Z.le_gt_cases (elapsed env task) (StandbyClusterDelay env)) as [Hle|Hgt].
  - rewrite (discardTask_false env task Hle). cbn.
    repeat split; try reflexivity; try (intros; lia); try discriminate.
  - rewrite (discardTask_true env task Hgt). cbn.
    repeat split; try reflexivity; try (intros; lia); try discriminate.
Qed.

Lemma pending_task_retried_then_discarded_witness :
  let env := sampleEnv 5 (sampleState true) (inr (sampleDomain false false)) None None in
  let task := sampleTask TransferTaskTypeStartChildExecution 5 in
  runHandler env StartChildExecutionHandler task
  = (Returned (Some ErrTaskRetry), [Release None]).
Proof.
  cbv zeta.
  apply (pending_task_retried_then_discarded
           (sampleEnv 5 (sampleState true) (inr (sampleDomain false false)) None None)
           (sampleTask TransferTaskTypeStartChildExecution 5)
           {| ctx_DomainID := "domain-1"; ctx_Execution := sampleExecution |}
           (sampleState true) StartChildExecutionHandler 5);
    try reflexivity.
  - by eexists.
  - by vm_compute.
Defined.

(** C8, as stated, fails: an admitted activity task whose push to matching
    fails returns the matching error, yet [release] has been called with nil
    (before the push) as well as with that error (by the deferred call). *)
Lemma release_nil_before_failed_push :
  let failure := OtherError "matching unavailable" in
  let env := sampleEnv 100 (sampleState true) (inr (sampleDomain false false))
               (Some failure) None in
  let run := processActivityTask env (sampleTask TransferTaskTypeActivityTask 5) in
  result run = Returned (Some failure)
  /\ Some failure <> Some ErrTaskRetry
  /\ releases (trace run) = [None; Some failure]
  /\ ~ (forall arg, arg ∈ releases (trace run) ->
          (arg = None <-> result run = Returned (Some ErrTaskRetry)
                          \/ result run = Returned None)).
Proof.
  cbv zeta. split; [reflexivity|]. split; [discriminate|]. split; [reflexivity|].
  intros Hall. destruct (Hall None) as [Hnil _].
  - change (None ∈ [None; Some (OtherError "matching unavailable")]). left.
  - destruct (Hnil eq_refl) as [Hretry|Hok]; discriminate.
Qed.

(** C8, amended.  Once the acquisition has succeeded, the last call that
    [processTransfer] makes on every return path is the deferred [release],
    whose argument is nil exactly when the outcome is [ErrTaskRetry] or
    success and is the returned error otherwise.  In addition, when the
    action succeeds, [release(nil)] is called before the post-action,
    whatever the post-action then returns. *)
Theorem release_follows_outcome (V : Type) (env : Env) (flag : bool)
    (task : TransferTaskInfo) (action : mutableState -> M (option error * V))
    (postAction : V -> M (option error)) (ctx : workflowExecutionContext)
    (retError : option error) :
  getOrCreateWorkflowExecution env (task_DomainID task)
    {| WorkflowId := Some (task_WorkflowID task); RunId := Some (task_RunID task) |}
  = inr ctx ->
  result (processTransfer env flag task action postAction) = Returned retError ->
  (exists tr,
      trace (processTransfer env flag task action postAction) =
      tr ++ [Release (if decide (retError = Some ErrTaskRetry) then None else retError)])
  /\ ((if decide (retError = Some ErrTaskRetry) then None else retError) = None
      <-> retError = Some ErrTaskRetry \/ retError = None)
  /\ (forall (ms : mutableState) (v : V) (tr_action tr_post : list event),
         loadMutableStateForTransferTask env ctx task = inr (Some ms) ->
         negb flag && negb (IsWorkflowExecutionRunning ms) = false ->
         action ms = (Returned (None, v), tr_action) ->
         trace (postAction v) = tr_post ->
         trace (processTransfer env flag task action postAction) =
         tr_action ++ [Release None] ++ tr_post
           ++ [Release (if decide (retError = Some ErrTaskRetry) then None else retError)]).
Proof.
  intros Hacq Hres.
  unfold processTransfer, getDomainIDAndWorkflowExecution in *. rewrite Hacq in *.
  split; [|split].
  - unfold defer at 1. unfold defer at 1 in Hres. unfold bind at 1. unfold bind at 1 in Hres.
    match goal with
    | |- context [match ?body with _ => _ end] => destruct body as [[r|] tr] eqn:Hbody
    end; [|discriminate Hres].
    exists tr. revert Hres. unfold result, trace.
    destruct (decide (r = Some ErrTaskRetry)) as [->|Hne]; cbn; intros [= <-].
    + by rewrite decide_True.
    + by rewrite decide_False.
  - destruct (decide (retError = Some ErrTaskRetry)) as [->|Hne].
    + split; [by left | done].
    + split; [by right | intros [?|?]; done].
  - intros ms v tr_action tr_post Hload Hflag Haction Hpost.
    rewrite Hload, Hflag in *. unfold defer at 1. unfold defer at 1 in Hres.
    unfold bind at 1 2. unfold bind at 1 2 in Hres. rewrite Haction in *. cbn [fst snd] in *.
    unfold bind at 1. unfold bind at 1 in Hres. cbn in Hres |- *.
    unfold trace in Hpost.
    destruct (postAction v) as [[r|] tr] eqn:Hpa; cbn in Hpost; subst tr;
      cbn in Hres |- *.
    + destruct (decide (r = Some ErrTaskRetry)) as [->|Hne]; cbn in Hres |- *;
        injection Hres as <-.
      * rewrite decide_True by done. cbn. by rewrite <- !app_assoc.
      * rewrite decide_False by done. cbn. by rewrite <- !app_assoc.
    + discriminate Hres.
Qed.

Lemma release_follows_outcome_witness :
  let failure := OtherError "push failed" in
  let env := sampleEnv 100 (sampleState true) (inr (sampleDomain false false)) None None in
  trace (processTransfer env false (sampleTask TransferTaskTypeActivityTask 5)
           (fun _ => ret (None, tt)) (fun _ => ret (Some failure)))
  = [Release None; Release (Some failure)].
Proof.
  cbv zeta.
  destruct (release_follows_outcome unit
              (sampleEnv 100 (sampleState true) (inr (sampleDomain false false)) None None)
              false (sampleTask TransferTaskTypeActivityTask 5)
              (fun _ => ret (None, tt)) (fun _ => ret (Some (OtherError "push failed")))
              {| ctx_DomainID := "domain-1"; ctx_Execution := sampleExecution |}
              (Some (OtherError "push failed")) eq_refl eq_refl) as (_ & _ & Hexplicit).
  exact (Hexplicit (sampleState true) tt [] [] eq_refl eq_refl eq_refl eq_refl).
Defined.

Lemma wrap64_retention (days : Z) :
  inInt32 days -> wrap64 (days * secondsInDay) = days * 86400.
Proof.
  unfold inInt32, minInt32, maxInt32, wrap64, secondsInDay. intros Hdays.
  rewrite Z.mod_small by lia. lia.
Qed.

(** C5, as stated, fails: for a resolved domain with sampling enabled and a
    workflow outside the sample, and with a producer configured,
    [recordWorkflowClosed] returns nil having published nothing and written
    nothing. *)
Lemma closed_not_published_when_sampled_out :
  let env := sampleEnv 100 (sampleState false) (inr (sampleDomain true false)) None None in
  is_Some (visibilityProducer env)
  /\ GetDomainByID env "domain-1" = inr (sampleDomain true false)
  /\ recordWorkflowClosed env "domain-1" sampleExecution "checkout" 1000 5000
       CloseStatusCompleted 12
     = (Returned None, []).
Proof. cbv zeta. split; [by eexists|]. split; reflexivity. Qed.

(** C5, amended.  When the domain is resolved (or degraded to the defaults
    on not-found), the workflow is not excluded by the
    sampled-for-longer-retention filter and a visibility producer is
    configured, [recordWorkflowClosed] publishes exactly one [VisibilityMsg]
    of type Closed carrying the identity triple, workflowType, startTime,
    closeTime, closeStatus and historyLength; if the publish succeeds it then
    writes [RecordWorkflowExecutionClosed] to the visibility store, with
    RetentionSeconds equal to the domain's retention in days times 86400
    (0 when the domain is not found) and returns the store's answer; if the
    publish fails, its error is returned and nothing is written. *)
Theorem closed_published_then_recorded (env : Env) (domainID : string)
    (execution : WorkflowExecution) (workflowTypeName : string)
    (startTimeUnixNano endTimeUnixNano : Z) (closeStatus : WorkflowExecutionCloseStatus)
    (historyLength : Z) (producer : VisibilityMsg -> option error) :
  visibilityProducer env = Some producer ->
  match GetDomainByID env domainID with
  | inr entry =>
      IsSampledForLongerRetentionEnabled entry (GetWorkflowId execution)
      && negb (IsSampledForLongerRetention entry (GetWorkflowId execution)) = false
      /\ inInt32 (GetRetentionDays entry (GetWorkflowId execution))
  | inl err => isEntityNotExistsError err = true
  end ->
  let msg := closedMsg domainID execution workflowTypeName startTimeUnixNano
               endTimeUnixNano closeStatus historyLength in
  let req :=
    {| rc_DomainUUID := domainID;
       rc_Domain := match GetDomainByID env domainID with
                    | inr entry => dce_Name entry
                    | inl _ => defaultDomainName
                    end;
       rc_Execution := execution;
       rc_WorkflowTypeName := workflowTypeName;
       rc_StartTimestamp := startTimeUnixNano;
       rc_CloseTimestamp := endTimeUnixNano;
       rc_Status := closeStatus;
       rc_HistoryLength := historyLength;
       rc_RetentionSeconds :=
         match GetDomainByID env domainID with
         | inr entry => GetRetentionDays entry (GetWorkflowId execution) * 86400
         | inl _ => 0
         end |} in
  recordWorkflowClosed env domainID execution workflowTypeName startTimeUnixNano
    endTimeUnixNano closeStatus historyLength
  = match producer msg with
    | Some err => (Returned (Some err), [Publish msg])
    | None => (Returned (visibilityRecordClosed env req),
               [Publish msg; RecordWorkflowExecutionClosed req])
    end.
Proof.
  intros Hproducer Hdomain msg req. subst msg req.
  unfold recordWorkflowClosed, publish, closedMsg. rewrite Hproducer.
  destruct (GetDomainByID env domainID) as [err|entry].
  - rewrite Hdomain. cbn.
    destruct (producer _); reflexivity.
  - destruct Hdomain as [Hsample Hdays]. cbn [from_option].
    rewrite Hsample, (wrap64_retention _ Hdays).
    destruct (producer _) eqn:Hpub; run_m; rewrite Hpub; reflexivity.
Qed.

Lemma closed_published_then_recorded_witness :
  let env := sampleEnv 100 (sampleState false) (inr (sampleDomain false false)) None None in
  let msg := closedMsg "domain-1" sampleExecution "checkout" 1000 5000
               CloseStatusCompleted 12 in
  trace (recordWorkflowClosed env "domain-1" sampleExecution "checkout" 1000 5000
           CloseStatusCompleted 12)
  = [Publish msg;
     RecordWorkflowExecutionClosed
       {| rc_DomainUUID := "domain-1"; rc_Domain := "orders";
          rc_Execution := sampleExecution; rc_WorkflowTypeName := "checkout";
          rc_StartTimestamp := 1000; rc_CloseTimestamp := 5000;
          rc_Status := CloseStatusCompleted; rc_HistoryLength := 12;
          rc_RetentionSeconds := 604800 |}].
Proof.
  cbv zeta.
  rewrite (closed_published_then_recorded
             (sampleEnv 100 (sampleState false) (inr (sampleDomain false false)) None None)
             "domain-1" sampleExecution "checkout" 1000 5000 CloseStatusCompleted 12
             (fun _ => None) eq_refl).
  - reflexivity.
  - split; [reflexivity | by vm_compute].
Defined.

(** C9.  [recordWorkflowClosed] applies the sampling filter of
    [recordWorkflowStarted]: when the resolved domain has
    sampled-for-longer-retention enabled for the workflow and the workflow is
    not in the sample, it returns nil, publishes no visibility message and
    writes nothing to the visibility store. *)
Theorem closed_skipped_when_sampled_out (env : Env) (domainID : string)
    (execution : WorkflowExecution) (workflowTypeName : string)
    (startTimeUnixNano endTimeUnixNano : Z) (closeStatus : WorkflowExecutionCloseStatus)
    (historyLength : Z) (entry : DomainCacheEntry) :
  GetDomainByID env domainID = inr entry ->
  IsSampledForLongerRetentionEnabled entry (GetWorkflowId execution) = true ->
  IsSampledForLongerRetention entry (GetWorkflowId execution) = false ->
  recordWorkflowClosed env domainID execution workflowTypeName startTimeUnixNano
    endTimeUnixNano closeStatus historyLength
  = (Returned None, []).
Proof.
  intros Hdomain Henabled Hsampled. unfold recordWorkflowClosed.
  rewrite Hdomain. cbn [from_option]. by rewrite Henabled, Hsampled.
Qed.

Lemma closed_skipped_when_sampled_out_witness :
  recordWorkflowClosed
    (sampleEnv 100 (sampleState false) (inr (sampleDomain true false)) None None)
    "domain-1" sampleExecution "checkout" 1000 5000 CloseStatusCompleted 12
  = (Returned None, []).
Proof.
  apply (closed_skipped_when_sampled_out
           (sampleEnv 100 (sampleState false) (inr (sampleDomain true false)) None None)
           "domain-1" sampleExecution "checkout" 1000 5000 CloseStatusCompleted 12
           (sampleDomain true false));
    reflexivity.
Defined.

End StandbyProperties.

(** * Properties of the bulk processor *)

Module IndexerProperties.
Import Indexer.

(** A processor is determined by its map and its calls. *)
Lemma processor_eta (p : esProcessorImpl) :
  {| mapToKafkaMsg := mapToKafkaMsg p; calls := calls p |} = p.
Proof. by destruct p. Qed.

Lemma Add_present (request : BulkableRequest) (key : string) (kafkaMsg : Message)
    (p : esProcessorImpl) :
  is_Some (mapToKafkaMsg p !! key) ->
  Add request key kafkaMsg p =
  (Returned tt, {| mapToKafkaMsg := mapToKafkaMsg p; calls := calls p ++ [Ack kafkaMsg] |}).
Proof.
  intros Hin. unfold Add, bind, Contains. by rewrite bool_decide_eq_true_2.
Qed.

Lemma Add_absent (request : BulkableRequest) (key : string) (kafkaMsg : Message)
    (p : esProcessorImpl) :
  mapToKafkaMsg p !! key = None ->
  Add request key kafkaMsg p =
  (Returned tt, {| mapToKafkaMsg := <[key := IsMessage kafkaMsg]> (mapToKafkaMsg p);
                   calls := calls p ++ [ProcessorAdd request] |}).
Proof.
  intros Hout. unfold Add, bind, Contains.
  rewrite bool_decide_eq_false_2; [reflexivity|].
  rewrite Hout. by intros [? ?].
Qed.

(** C4.  [Add(request, key, kafkaMsg)]: if [key] is in the in-flight map,
    the new message is acked at once and the request is not submitted;
    otherwise [key -> kafkaMsg] is inserted and the request is submitted to
    the bulk processor.  Hence a second [Add] with the same key only acks
    its message: of the two requests at most the first is submitted, and
    when the key was free the first message is the one left in flight. *)
Theorem Add_deduplicates (request1 request2 : BulkableRequest) (key : string)
    (msg1 msg2 : Message) (p : esProcessorImpl) :
  let p1 := snd (Add request1 key msg1 p) in
  let p2 := snd (Add request2 key msg2 p1) in
  Add request1 key msg1 p =
    (Returned tt,
     if decide (is_Some (mapToKafkaMsg p !! key))
     then {| mapToKafkaMsg := mapToKafkaMsg p; calls := calls p ++ [Ack msg1] |}
     else {| mapToKafkaMsg := <[key := IsMessage msg1]> (mapToKafkaMsg p);
             calls := calls p ++ [ProcessorAdd request1] |})
  /\ Add request2 key msg2 p1 =
       (Returned tt, {| mapToKafkaMsg := mapToKafkaMsg p1;
                        calls := calls p1 ++ [Ack msg2] |})
  /\ calls p2 = calls p ++ (if decide (is_Some (mapToKafkaMsg p !! key))
                            then [Ack msg1; Ack msg2]
                            else [ProcessorAdd request1; Ack msg2])
  /\ mapToKafkaMsg p2 !! key =
       (if decide (is_Some (mapToKafkaMsg p !! key)) then mapToKafkaMsg p !! key
        else Some (IsMessage msg1)).
Proof.
  intros p1 p2. subst p2 p1.
  destruct (decide (is_Some (mapToKafkaMsg p !! key))) as [Hin|Hout].
  - rewrite (Add_present request1 key msg1 p Hin). cbn [snd].
    rewrite Add_present by exact Hin. cbn.
    rewrite <- app_assoc. done.
  - assert (Hnone : mapToKafkaMsg p !! key = None).
    { destruct (mapToKafkaMsg p !! key) eqn:E; [|done]. exfalso. apply Hout. by eexists. }
    rewrite (Add_absent request1 key msg1 p Hnone). cbn [snd].
    rewrite Add_present by (cbn; rewrite lookup_insert_eq; by eexists). cbn.
    rewrite <- app_assoc, lookup_insert_eq. done.
Qed.

Lemma ackKafkaMsg_absent (key : string) (p : esProcessorImpl) :
  mapToKafkaMsg p !! key = None -> ackKafkaMsg key p = (Returned tt, p).
Proof. intros Hout. unfold ackKafkaMsg, bind, Get. by rewrite Hout. Qed.

Lemma ackKafkaMsg_message (key : string) (kafkaMsg : Message) (p : esProcessorImpl) :
  mapToKafkaMsg p !! key = Some (IsMessage kafkaMsg) ->
  ackKafkaMsg key p =
  (Returned tt, {| mapToKafkaMsg := delete key (mapToKafkaMsg p);
                   calls := calls p ++ [Ack kafkaMsg] |}).
Proof. intros Hin. unfold ackKafkaMsg, bind, Get. by rewrite Hin. Qed.

(** C10.  For a key that is not in the in-flight map, [ackKafkaMsg] does
    nothing: it returns without acking any message, without a fatal log and
    with the map unchanged.  Hence a response entry with a success or a
    conflict status whose key is no longer (or never was) in the map leaves
    the processor as it was. *)
Theorem ackKafkaMsg_missing_key_is_noop (lib : Lib) (key : string) (p : esProcessorImpl) :
  mapToKafkaMsg p !! key = None ->
  ackKafkaMsg key p = (Returned tt, p)
  /\ (forall (req : list string) (head : string) (res : BulkResponseItem),
         String.append (Id res) head = key ->
         200 <= Status res < 300 \/ Status res = 409 ->
         reconcileResult lib req head res p = (Returned tt, p)).
Proof.
  intros Hout. split; [by apply ackKafkaMsg_absent|].
  intros req head res Hkey Hstatus. unfold reconcileResult. rewrite Hkey.
  destruct Hstatus as [[Hlo Hhi]|H409].
  - apply Z.leb_le in Hlo. apply Z.ltb_lt in Hhi. rewrite Hlo, Hhi. cbn.
    by apply ackKafkaMsg_absent.
  - rewrite H409. cbn. by apply ackKafkaMsg_absent.
Qed.

Lemma ackKafkaMsg_missing_key_is_noop_witness :
  ackKafkaMsg "runAClosed" sampleProcessor = (Returned tt, sampleProcessor)
  /\ reconcileResult sampleLib [headerLine "index" "10"; docLine] "Closed"
       {| Id := "runA"; Status := 409 |} sampleProcessor
     = (Returned tt, sampleProcessor).
Proof.
  destruct (ackKafkaMsg_missing_key_is_noop sampleLib "runAClosed" sampleProcessor eq_refl)
    as [Hack Hitem].
  split; [exact Hack|].
  apply Hitem; [reflexivity | right; reflexivity].
Defined.

(** What [getESRequest] returns on a framing whose header is well formed. *)
Lemma getESRequest_wellFormed (lib : Lib) (line0 : string) (rest : list string)
    (op : string) (m : gmap string jsonValue) (index id typ : string) (version : Z)
    (versionType : string) (p : esProcessorImpl) :
  wellFormedHead lib line0 op m index id typ version versionType ->
  getESRequest lib (line0 :: rest) p =
  match bodyDoc lib rest with
  | None =>
      (Returned None,
       {| mapToKafkaMsg := mapToKafkaMsg p;
          calls := calls p ++ [LogError "Unmarshal request body err."] |})
  | Some doc =>
      (Returned (if decide (op = esRequestTypeIndex)
                 then Some (BulkIndexRequest index typ id versionType version doc)
                 else None), p)
  end.
Proof.
  intros (Hhead & Hindex & Hid & Htyp & Hversion & HversionType).
  unfold getESRequest, bind, sliceAt. cbn [lookup list_lookup]. cbn.
  rewrite Hhead. cbn. unfold bind. rewrite Hindex, Hid, Htyp, Hversion, HversionType. cbn.
  destruct rest as [|line1 [|line2 rest]]; cbn.
  - destruct (decide (op = esRequestTypeIndex)); [reflexivity|].
    destruct (decide (op = esRequestTypeDelete)); reflexivity.
  - destruct (unmarshalVisibilityMsg lib line1); cbn; [|reflexivity].
    destruct (decide (op = esRequestTypeIndex)); [reflexivity|].
    destruct (decide (op = esRequestTypeDelete)); reflexivity.
  - destruct (decide (op = esRequestTypeIndex)); [reflexivity|].
    destruct (decide (op = esRequestTypeDelete)); reflexivity.
Qed.

(** C3.  On a well-formed bulk framing whose single-key header names the
    delete operation, [getESRequest] returns nil: the [delete] case of its
    switch has no statements, so no delete request is rebuilt and the
    processor is left as it was. *)
Theorem getESRequest_delete_returns_nil (lib : Lib) (line0 : string)
    (rest : list string) (m : gmap string jsonValue) (index id typ : string)
    (version : Z) (versionType : string) (doc : VisibilityMsg) (p : esProcessorImpl) :
  wellFormedHead lib line0 esRequestTypeDelete m index id typ version versionType ->
  bodyDoc lib rest = Some doc ->
  getESRequest lib (line0 :: rest) p = (Returned None, p)
  /\ resubmit lib (line0 :: rest) p = (Returned tt, p).
Proof.
  intros Hhead Hbody.
  pose proof (getESRequest_wellFormed lib line0 rest _ _ _ _ _ _ _ p Hhead) as Hget.
  rewrite Hbody in Hget. rewrite decide_False in Hget by discriminate.
  split; [exact Hget|]. unfold resubmit, bind. by rewrite Hget.
Qed.

Lemma getESRequest_delete_returns_nil_witness :
  getESRequest sampleLib [headerLine "delete" "30"] sampleProcessor
  = (Returned None, sampleProcessor).
Proof.
  apply (getESRequest_delete_returns_nil sampleLib (headerLine "delete" "30") []
           (headerFields "visibility" "runA" "_doc" 30 "external")
           "visibility" "runA" "_doc" 30 "external" emptyVisibilityMsg sampleProcessor).
  - repeat split; reflexivity.
  - reflexivity.
Defined.

Lemma bind_ret_r {A : Type} (m : M A) (p : esProcessorImpl) :
  bind m (fun a => ret a) p = m p.
Proof. unfold bind, ret. by destruct (m p) as [[a| |] p']. Qed.

(** After a successful flush, [bulkAfterAction] runs [reconcileItem] on the
    requests in order, item [i] against [response.Items[i]]. *)
Lemma bulkAfterAction_committed (lib : Lib) (id : Z) (requests : list BulkableRequest)
    (response : list responseItem) :
  bulkAfterAction lib id requests response None = reconcileFrom lib response 0 requests.
Proof. reflexivity. Qed.

Lemma reconcileFrom_cons (lib : Lib) (response : list responseItem) (i : nat)
    (request : BulkableRequest) (rest : list BulkableRequest) :
  reconcileFrom lib response i (request :: rest) =
  (_ <- reconcileItem lib response i request ;; reconcileFrom lib response (S i) rest).
Proof. reflexivity. Qed.

(** Item [i] with a single-key header and a single response entry is
    reconciled under the key made of the entry's document id and the tag of
    the header's version. *)
Lemma reconcileItem_entry (lib : Lib) (responseItems : list responseItem) (i : nat)
    (request : BulkableRequest) (line0 : string) (rest : list string) (op : string)
    (m : gmap string jsonValue) (version : Z) (opName : string)
    (res : BulkResponseItem) (p : esProcessorImpl) :
  Source lib request = inr (line0 :: rest) ->
  unmarshalRequestHead lib line0 = Some [(op, m)] ->
  m !! "version" = Some (JNumber version) ->
  responseItems !! i = Some [(opName, res)] ->
  reconcileItem lib responseItems i request p =
  reconcileResult lib (line0 :: rest) (convertESVersionToVisibilityMsgType lib version) res p.
Proof.
  intros Hsource Hhead Hversion Hitem.
  unfold reconcileItem. rewrite Hsource. unfold bind, sliceAt, ret.
  cbn -[reconcileResult convertESVersionToVisibilityMsgType]. rewrite Hhead.
  cbn -[reconcileResult convertESVersionToVisibilityMsgType]. rewrite Hversion.
  cbn -[reconcileResult convertESVersionToVisibilityMsgType].
  unfold responseItem in *. rewrite Hitem.
  cbn -[reconcileResult convertESVersionToVisibilityMsgType].
  apply bind_ret_r.
Qed.

(** C2.  The reconciliation of item [i] after a successful flush, for a
    well-formed single-key header and the key made of the response entry's
    document id and the message-type tag of the header's version.  A status
    in [200,300) acks the message stored under the key and removes the key
    from the in-flight map; status 409 does the same, and nothing is
    resubmitted.  Any other status acks no message and leaves the in-flight
    map as it is, whatever the operation and the body are, and resubmits the
    rebuilt request when the header names the index operation.  When the
    header names the delete operation, however, nothing is resubmitted,
    where C2 has the rebuilt request resubmitted: [getESRequest] rebuilds
    nothing for a delete (see C3), so the failed delete is dropped and its
    message stays in flight. *)
Theorem reconcile_by_status (lib : Lib) (responseItems : list responseItem) (i : nat)
    (request : BulkableRequest) (line0 : string) (rest : list string) (op : string)
    (m : gmap string jsonValue) (index id typ : string) (version : Z)
    (versionType : string) (opName : string) (res : BulkResponseItem)
    (p : esProcessorImpl) :
  Source lib request = inr (line0 :: rest) ->
  wellFormedHead lib line0 op m index id typ version versionType ->
  responseItems !! i = Some [(opName, res)] ->
  let key := String.append (Id res) (convertESVersionToVisibilityMsgType lib version) in
  let run := reconcileItem lib responseItems i request p in
  (forall kafkaMsg,
      mapToKafkaMsg p !! key = Some (IsMessage kafkaMsg) ->
      200 <= Status res < 300 \/ Status res = 409 ->
      run = (Returned tt, {| mapToKafkaMsg := delete key (mapToKafkaMsg p);
                             calls := calls p ++ [Ack kafkaMsg] |}))
  /\ (~ 200 <= Status res < 300 -> Status res <> 409 ->
      fst run = Returned tt
      /\ mapToKafkaMsg (snd run) = mapToKafkaMsg p
      /\ exists es, calls (snd run) = calls p ++ es /\ acked es = [])
  /\ (forall doc,
         ~ 200 <= Status res < 300 -> Status res <> 409 ->
         bodyDoc lib rest = Some doc ->
         (op = esRequestTypeIndex ->
          run = (Returned tt,
                 {| mapToKafkaMsg := mapToKafkaMsg p;
                    calls := calls p ++ [ProcessorAdd (BulkIndexRequest index typ id
                                                         versionType version doc)] |}))
         /\ (op = esRequestTypeDelete -> run = (Returned tt, p))
         /\ (op <> esRequestTypeIndex -> run = (Returned tt, p)))
  /\ (~ 200 <= Status res < 300 -> Status res <> 409 ->
      bodyDoc lib rest = None ->
      run = (Returned tt,
             {| mapToKafkaMsg := mapToKafkaMsg p;
                calls := calls p ++ [LogError "Unmarshal request body err."] |})).
Proof.
  intros Hsource Hhead Hitem key run. subst run.
  pose proof Hhead as (Hunmarshal & _ & _ & _ & Hversion & _).
  rewrite (reconcileItem_entry lib responseItems i request line0 rest op m version
             opName res p Hsource Hunmarshal Hversion Hitem).
  fold key. unfold reconcileResult. fold key.
  pose proof (getESRequest_wellFormed lib line0 rest _ _ _ _ _ _ _ p Hhead) as Hget.
  assert (Hother : ~ 200 <= Status res < 300 -> Status res <> 409 ->
                   ((200 <=? Status res) && (Status res <? 300) = false)
                   /\ forall (X : Type) (a b : X),
                        (if decide (Status res = 409) then a else b) = b).
  { intros Hrange H409. split.
    - apply andb_false_iff.
      destruct (Z.leb_spec 200 (Status res)); [right|by left].
      apply Z.ltb_ge. lia.
    - intros X a b. by rewrite decide_False. }
  split; [|split; [|split]].
  - intros kafkaMsg Hstored [[Hlo Hhi]|H409].
    + apply Z.leb_le in Hlo. apply Z.ltb_lt in Hhi. rewrite Hlo, Hhi. cbn [andb].
      by apply ackKafkaMsg_message.
    + rewrite H409. cbn. by apply ackKafkaMsg_message.
  - intros Hrange H409. destruct (Hother Hrange H409) as [-> Hif].
    rewrite Hif. unfold resubmit, bind. rewrite Hget.
    destruct (bodyDoc lib rest) as [doc|].
    + destruct (decide (op = esRequestTypeIndex)); cbn.
      * repeat split. by eexists.
      * repeat split. exists []. by rewrite app_nil_r.
    + cbn. repeat split. by eexists.
  - intros doc Hrange H409 Hbody. destruct (Hother Hrange H409) as [-> Hif].
    rewrite Hif, Hbody in *. unfold resubmit, bind. rewrite Hget. split; [|split].
    + intros Hop. by rewrite decide_True.
    + intros ->. by rewrite decide_False.
    + intros Hop. by rewrite decide_False.
  - intros Hrange H409 Hbody. destruct (Hother Hrange H409) as [-> Hif].
    rewrite Hif, Hbody in *. unfold resubmit, bind. by rewrite Hget.
Qed.

Lemma reconcile_by_status_witness :
  bulkAfterAction sampleLib 1 [CallerRequest 2]
    [[("delete", {| Id := "runA"; Status := 500 |})]] None deleteInFlight
  = (Returned tt, deleteInFlight).
Proof.
  destruct (reconcile_by_status sampleLib
              [[("delete", {| Id := "runA"; Status := 500 |})]] 0 (CallerRequest 2)
              (headerLine "delete" "30") [] "delete"
              (headerFields "visibility" "runA" "_doc" 30 "external")
              "visibility" "runA" "_doc" 30 "external" "delete"
              {| Id := "runA"; Status := 500 |} deleteInFlight)
    as (_ & _ & Hrebuild & _).
  - reflexivity.
  - repeat split; reflexivity.
  - reflexivity.
  - destruct (Hrebuild emptyVisibilityMsg) as (_ & Hdelete & _);
      [cbn; lia | discriminate | reflexivity |].
    rewrite bulkAfterAction_committed. cbn [reconcileFrom]. unfold bind.
    by rewrite (Hdelete eq_refl).
Defined.

End IndexerProperties.

(** * Further behaviour of the standby processor *)

Module StandbyBehaviour.
Import Standby StandbyProperties.

Lemma deferredArgument_None : deferredArgument None = None.
Proof. reflexivity. Qed.

Lemma deferredArgument_retry : deferredArgument (Some ErrTaskRetry) = None.
Proof. reflexivity. Qed.

(** Running the monad while keeping the deferred argument folded. *)
Ltac run_d :=
  unfold defer, bind, ret, release, emit; cbn -[deferredArgument];
  rewrite <- ?app_assoc, ?app_nil_r, ?deferredArgument_None, ?deferredArgument_retry;
  cbn -[deferredArgument]; try reflexivity.

Section Acquired.
Context (env : Env) (task : TransferTaskInfo)
        (ctx : workflowExecutionContext) (ms : mutableState).
Hypothesis acquired :
  getOrCreateWorkflowExecution env (task_DomainID task)
    {| WorkflowId := Some (task_WorkflowID task); RunId := Some (task_RunID task) |}
  = inr ctx.
Hypothesis loaded : loadMutableStateForTransferTask env ctx task = inr (Some ms).

(** [processTransfer] on a loaded workflow, with the argument of the
    deferred [release] folded. *)
Lemma processTransfer_deferred {V : Type} (flag : bool)
    (action : mutableState -> M (option error * V)) (postAction : V -> M (option error)) :
  processTransfer env flag task action postAction =
  defer
    (if negb flag && negb (IsWorkflowExecutionRunning ms) then ret None
     else r <- action ms ;;
          match fst r with
          | Some err => ret (Some err)
          | None => _ <- release None ;; postAction (snd r)
          end)
    (fun retError => release (deferredArgument retError)).
Proof.
  rewrite (processTransfer_loaded env task ctx ms acquired loaded).
  unfold defer, deferredArgument.
  match goal with
  | |- bind ?body _ = bind ?body _ => destruct body as [[r|] tr]
  end; cbn; [|reflexivity].
  by destruct (decide (r = Some ErrTaskRetry)).
Qed.

Hypothesis running : IsWorkflowExecutionRunning ms = true.

(** On a running, loaded workflow a handler that passes
    [processTaskIfClosed = false] runs its action. *)
Lemma processTransfer_running {V : Type}
    (action : mutableState -> M (option error * V)) (postAction : V -> M (option error)) :
  processTransfer env false task action postAction =
  defer
    (r <- action ms ;;
     match fst r with
     | Some err => ret (Some err)
     | None => _ <- release None ;; postAction (snd r)
     end)
    (fun retError => release (deferredArgument retError)).
Proof. by rewrite processTransfer_deferred, running. Qed.

End Acquired.

(** X1.  An error of the history cache, or of loading the mutable state,
    is the outcome of every handler whatever the task is.  When the cache
    cannot hand out the workflow context nothing is called, not even
    [release]; when loading fails, [release] is called once, with nil for
    [ErrTaskRetry] and with the error otherwise; when there is no mutable
    state to load the handler returns nil after [release(nil)]. *)
Theorem cache_errors_surface (env : Env) (h : handler) (task : TransferTaskInfo) :
  let acquire :=
    getOrCreateWorkflowExecution env (task_DomainID task)
      {| WorkflowId := Some (task_WorkflowID task); RunId := Some (task_RunID task) |} in
  (forall err, acquire = inl err -> runHandler env h task = (Returned (Some err), []))
  /\ (forall ctx err,
         acquire = inr ctx ->
         loadMutableStateForTransferTask env ctx task = inl err ->
         runHandler env h task =
         (Returned (Some err), [Release (deferredArgument (Some err))]))
  /\ (forall ctx,
         acquire = inr ctx ->
         loadMutableStateForTransferTask env ctx task = inr None ->
         runHandler env h task = (Returned None, [Release None])).
Proof.
  cbv zeta. repeat split.
  - intros err Hacq. destruct h; unfold_handlers;
      unfold processTransfer, getDomainIDAndWorkflowExecution; by rewrite Hacq.
  - intros ctx err Hacq Hload. destruct h; unfold_handlers;
      unfold processTransfer, getDomainIDAndWorkflowExecution, deferredArgument;
      rewrite Hacq, Hload; run_m; by destruct (decide (Some err = Some ErrTaskRetry)).
  - intros ctx Hacq Hload. destruct h; unfold_handlers;
      unfold processTransfer, getDomainIDAndWorkflowExecution; by rewrite Hacq, Hload.
Qed.

Lemma cache_errors_surface_witness :
  let env := sampleEnv 100 (sampleState true) (inr (sampleDomain false false)) None None in
  let failing :=
    {| clusterName := clusterName env; GetCurrentTime := GetCurrentTime env;
       StandbyClusterDelay := StandbyClusterDelay env;
       MaxTaskTimeout := MaxTaskTimeout env; FirstEventID := FirstEventID env;
       EmptyEventID := EmptyEventID env; verifyStandbyTask := verifyStandbyTask env;
       verifyTaskVersion := verifyTaskVersion env;
       getOrCreateWorkflowExecution := getOrCreateWorkflowExecution env;
       loadMutableStateForTransferTask := fun _ _ => inl (OtherError "shard closed");
       getWorkflowExecutionCloseStatus := getWorkflowExecutionCloseStatus env;
       GetDomainByID := GetDomainByID env;
       matchingAddActivityTask := matchingAddActivityTask env;
       matchingAddDecisionTask := matchingAddDecisionTask env;
       visibilityProducer := visibilityProducer env;
       visibilityRecordStarted := visibilityRecordStarted env;
       visibilityRecordClosed := visibilityRecordClosed env |} in
  runHandler failing CloseExecutionHandler (sampleTask TransferTaskTypeCloseExecution 5)
  = (Returned (Some (OtherError "shard closed")),
     [Release (Some (OtherError "shard closed"))]).
Proof.
  cbv zeta.
  match goal with
  | |- runHandler ?e ?h ?t = _ =>
      destruct (cache_errors_surface e h t) as (_ & Hload & _);
      exact (Hload {| ctx_DomainID := "domain-1"; ctx_Execution := sampleExecution |}
               (OtherError "shard closed") eq_refl eq_refl)
  end.
Defined.


Lemma MinInt32_le_r (a b : Z) : MinInt32 a b <= b.
Proof. unfold MinInt32. destruct (Z.ltb_spec a b); lia. Qed.

Lemma MinInt32_le_l (a b : Z) : MinInt32 a b <= a.
Proof. unfold MinInt32. destruct (Z.ltb_spec a b); lia. Qed.

Lemma MinInt32_idem (a b : Z) : MinInt32 (MinInt32 a b) b = MinInt32 a b.
Proof.
  unfold MinInt32. destruct (Z.ltb_spec a b) as [Hlt|Hge].
  - by rewrite (proj2 (Z.ltb_lt a b) Hlt).
  - by rewrite Z.ltb_irrefl.
Qed.

Lemma admitted_iff (env : Env) (task : TransferTaskInfo) :
  (StandbyClusterDelay env
   <? Sub (GetCurrentTime env (clusterName env)) (task_VisibilityTimestamp task)) = true
  <-> StandbyClusterDelay env < elapsed env task.
Proof. unfold elapsed. apply Z.ltb_lt. Qed.

(** X2.  A pending activity task whose version is verified, whose activity
    has not started and that has waited longer than [StandbyClusterDelay] is
    pushed to matching exactly once, after [release(nil)], with the target
    domain, the task list and the schedule id of the task and a
    schedule-to-start timeout that is the activity's own timeout capped at
    [MaxTaskTimeout]; the handler returns what matching answers, and the
    deferred [release] receives that answer. *)
Theorem admitted_activity_is_pushed (env : Env) (task : TransferTaskInfo)
    (ctx : workflowExecutionContext) (ms : mutableState) (info : ActivityInfo) :
  getOrCreateWorkflowExecution env (task_DomainID task)
    {| WorkflowId := Some (task_WorkflowID task); RunId := Some (task_RunID task) |}
  = inr ctx ->
  loadMutableStateForTransferTask env ctx task = inr (Some ms) ->
  IsWorkflowExecutionRunning ms = true ->
  task_TaskType task = TransferTaskTypeActivityTask ->
  GetActivityInfo ms (task_ScheduleID task) = Some info ->
  verifyTaskVersion env (task_DomainID task) (ai_Version info) (task_Version task) task
  = inr true ->
  ai_StartedID info = EmptyEventID env ->
  StandbyClusterDelay env < elapsed env task ->
  let timeout := MinInt32 (ai_ScheduleToStartTimeout info) (MaxTaskTimeout env) in
  let answer := matchingAddActivityTask env (activityRequest task timeout) in
  processActivityTask env task =
  (Returned answer,
   [Release None; AddActivityTask (activityRequest task timeout);
    Release (deferredArgument answer)])
  /\ timeout <= MaxTaskTimeout env
  /\ timeout <= ai_ScheduleToStartTimeout info.
Proof.
  intros Hacq Hload Hrun Htype Hinfo Hverify Hstarted Hadmit timeout answer.
  split; [|split; [apply MinInt32_le_r | apply MinInt32_le_l]].
  unfold processActivityTask.
  rewrite (processTransfer_running env task ctx ms Hacq Hload Hrun).
  rewrite Hinfo, Hverify, decide_True by exact Hstarted.
  rewrite (proj2 (admitted_iff env task) Hadmit). cbn [negb].
  unfold pushActivity. rewrite decide_True by exact Htype.
  unfold defer, bind, ret, release, emit. cbn -[MinInt32 deferredArgument].
  rewrite MinInt32_idem. reflexivity.
Qed.

Lemma admitted_activity_is_pushed_witness :
  let env := sampleEnv 11 (sampleState true) (inr (sampleDomain false false)) None None in
  let task := sampleTask TransferTaskTypeActivityTask 5 in
  processActivityTask env task =
  (Returned None, [Release None; AddActivityTask (activityRequest task 30); Release None]).
Proof.
  cbv zeta.
  apply (admitted_activity_is_pushed
           (sampleEnv 11 (sampleState true) (inr (sampleDomain false false)) None None)
           (sampleTask TransferTaskTypeActivityTask 5)
           {| ctx_DomainID := "domain-1"; ctx_Execution := sampleExecution |}
           (sampleState true)
           {| ai_Version := 5; ai_StartedID := -23; ai_ScheduleToStartTimeout := 30 |});
    try reflexivity.
Defined.

(** X3.  An activity task is never pushed early or twice: while the task has
    waited no longer than [StandbyClusterDelay] and the activity has not
    started, the handler returns [ErrTaskRetry] and only calls
    [release(nil)]; once the activity has started, or when it is no longer
    pending, the handler returns nil; in none of these cases is matching
    called. *)
Theorem activity_not_pushed (env : Env) (task : TransferTaskInfo)
    (ctx : workflowExecutionContext) (ms : mutableState) :
  getOrCreateWorkflowExecution env (task_DomainID task)
    {| WorkflowId := Some (task_WorkflowID task); RunId := Some (task_RunID task) |}
  = inr ctx ->
  loadMutableStateForTransferTask env ctx task = inr (Some ms) ->
  IsWorkflowExecutionRunning ms = true ->
  (GetActivityInfo ms (task_ScheduleID task) = None ->
   processActivityTask env task = (Returned None, [Release None; Release None]))
  /\ (forall info,
         GetActivityInfo ms (task_ScheduleID task) = Some info ->
         verifyTaskVersion env (task_DomainID task) (ai_Version info) (task_Version task)
           task = inr true ->
         (ai_StartedID info <> EmptyEventID env ->
          processActivityTask env task = (Returned None, [Release None; Release None]))
         /\ (ai_StartedID info = EmptyEventID env ->
             elapsed env task <= StandbyClusterDelay env ->
             processActivityTask env task = (Returned (Some ErrTaskRetry), [Release None]))).
Proof.
  intros Hacq Hload Hrun. unfold processActivityTask.
  rewrite (processTransfer_running env task ctx ms Hacq Hload Hrun). split.
  - by intros ->.
  - intros info Hinfo Hverify. rewrite Hinfo, Hverify. split.
    + intros Hstarted. by rewrite decide_False.
    + intros Hstarted Hwait. rewrite decide_True by exact Hstarted.
      destruct (Z.ltb_spec (StandbyClusterDelay env)
                  (Sub (GetCurrentTime env (clusterName env))
                     (task_VisibilityTimestamp task))) as [Hlt|_]; [|reflexivity].
      unfold elapsed in Hwait. lia.
Qed.

Lemma activity_not_pushed_witness :
  let env := sampleEnv 10 (sampleState true) (inr (sampleDomain false false)) None None in
  processActivityTask env (sampleTask TransferTaskTypeActivityTask 5)
  = (Returned (Some ErrTaskRetry), [Release None]).
Proof.
  cbv zeta.
  destruct (activity_not_pushed
              (sampleEnv 10 (sampleState true) (inr (sampleDomain false false)) None None)
              (sampleTask TransferTaskTypeActivityTask 5)
              {| ctx_DomainID := "domain-1"; ctx_Execution := sampleExecution |}
              (sampleState true) eq_refl eq_refl eq_refl) as (_ & Hpending).
  destruct (Hpending {| ai_Version := 5; ai_StartedID := -23;
                        ai_ScheduleToStartTimeout := 30 |} eq_refl eq_refl)
    as (_ & Hretry).
  apply Hretry; [reflexivity | by vm_compute].
Defined.


(** *** Traces of composed calls *)

Lemma returns_ret {A : Type} (a : A) : returns (ret a).
Proof. by exists a. Qed.

Lemma returns_emit (e : event) : returns (emit e).
Proof. by exists tt. Qed.

Lemma returns_bind {A B : Type} (m : M A) (f : A -> M B) :
  returns m -> (forall a, returns (f a)) -> returns (bind m f).
Proof.
  intros [a Ha] Hf. destruct m as [[a'|] tr]; cbn in Ha; [|discriminate Ha].
  injection Ha as ->. destruct (Hf a) as [b Hb]. unfold bind.
  destruct (f a) as [[b'|] tr']; cbn in Hb; [|discriminate Hb]. by exists b'.
Qed.

Lemma trace_bind {A B : Type} (P : event -> Prop) (m : M A) (f : A -> M B) :
  Forall P (trace m) -> (forall a, Forall P (trace (f a))) -> Forall P (trace (bind m f)).
Proof.
  intros Hm Hf. destruct m as [[a|] tr]; cbn in Hm; [|exact Hm].
  unfold bind. specialize (Hf a). destruct (f a) as [r tr']; cbn in Hf |- *.
  by apply Forall_app.
Qed.

Lemma releases_app (tr1 tr2 : list event) :
  releases (tr1 ++ tr2) = releases tr1 ++ releases tr2.
Proof. apply omap_app. Qed.

Lemma releases_quiet (tr : list event) : Forall notRelease tr -> releases tr = [].
Proof.
  induction 1 as [|e tr He _ IH]; [reflexivity|].
  unfold releases in *. cbn. destruct e; cbn in He; try contradiction; exact IH.
Qed.

Lemma visibility_call_not_release (tr : list event) :
  Forall isVisibilityCall tr -> Forall notRelease tr.
Proof. intros Hcalls. eapply Forall_impl; [exact Hcalls|]. by intros []. Qed.

Lemma publish_returns (env : Env) (msg : VisibilityMsg) :
  returns (publish env msg) /\ Forall isVisibilityCall (trace (publish env msg)).
Proof.
  unfold publish. destruct (visibilityProducer env); split;
    try (by eexists); cbn; by repeat constructor.
Qed.

Lemma recordWorkflowStarted_calls (env : Env) (domainID : string)
    (execution : WorkflowExecution) (workflowTypeName : string)
    (startTimeUnixNano workflowTimeout : Z) :
  let m := recordWorkflowStarted env domainID execution workflowTypeName
             startTimeUnixNano workflowTimeout in
  returns m /\ Forall isVisibilityCall (trace m).
Proof.
  cbv zeta. unfold recordWorkflowStarted.
  destruct (GetDomainByID env domainID) as [err|entry];
    [destruct (isEntityNotExistsError err)|];
    try (split; [by eexists | by constructor]);
    match goal with
    | |- context [if ?c then _ else _] => destruct c
    end;
    try (split; [by eexists | by constructor]);
    (split;
     [ apply returns_bind; [apply publish_returns|];
       intros [e|]; [by eexists|]; by eexists
     | apply trace_bind; [apply publish_returns|];
       intros [e|]; cbn; by repeat constructor ]).
Qed.

Lemma recordWorkflowClosed_calls (env : Env) (domainID : string)
    (execution : WorkflowExecution) (workflowTypeName : string)
    (startTimeUnixNano endTimeUnixNano : Z) (closeStatus : WorkflowExecutionCloseStatus)
    (historyLength : Z) :
  let m := recordWorkflowClosed env domainID execution workflowTypeName
             startTimeUnixNano endTimeUnixNano closeStatus historyLength in
  returns m /\ Forall isVisibilityCall (trace m).
Proof.
  cbv zeta. unfold recordWorkflowClosed.
  destruct (GetDomainByID env domainID) as [err|entry];
    [destruct (isEntityNotExistsError err)|];
    try (split; [by eexists | by constructor]);
    match goal with
    | |- context [if ?c then _ else _] => destruct c
    end;
    try (split; [by eexists | by constructor]);
    (split;
     [ apply returns_bind; [apply publish_returns|];
       intros [e|]; [by eexists|]; by eexists
     | apply trace_bind; [apply publish_returns|];
       intros [e|]; cbn; by repeat constructor ]).
Qed.


(** X4.  The close-execution handler on a closed workflow whose last-write
    version is verified does what [recordWorkflowClosed] does, called with
    the workflow type and start time of the execution info, the last-updated
    timestamp as close time, the converted close status and the next event
    id as history length: it returns the same outcome, makes the same calls
    (all of them to the bus or the visibility store, none to matching) and
    then releases.  On a workflow that is running again it records nothing
    and returns nil. *)
Theorem close_execution_records_visibility (env : Env) (task : TransferTaskInfo)
    (ctx : workflowExecutionContext) (ms : mutableState) :
  getOrCreateWorkflowExecution env (task_DomainID task)
    {| WorkflowId := Some (task_WorkflowID task); RunId := Some (task_RunID task) |}
  = inr ctx ->
  loadMutableStateForTransferTask env ctx task = inr (Some ms) ->
  (IsWorkflowExecutionRunning ms = true ->
   processCloseExecution env task = (Returned None, [Release None; Release None]))
  /\ (IsWorkflowExecutionRunning ms = false ->
      verifyTaskVersion env (task_DomainID task) (GetLastWriteVersion ms)
        (task_Version task) task = inr true ->
      let info := GetExecutionInfo ms in
      let m := recordWorkflowClosed env (task_DomainID task) (executionOf task)
                 (WorkflowTypeName info) (StartTimestamp info)
                 (GetLastUpdatedTimestamp ms)
                 (getWorkflowExecutionCloseStatus env (ei_CloseStatus info))
                 (GetNextEventID ms) in
      exists r, result m = Returned r
                /\ processCloseExecution env task = (Returned r, trace m ++ closingReleases r)
                /\ Forall isVisibilityCall (trace m)).
Proof.
  intros Hacq Hload. split.
  - intros Hrun. unfold processCloseExecution.
    rewrite (processTransfer_deferred env task ctx ms Hacq Hload). cbn [negb andb].
    unfold closeExecutionAction. by rewrite Hrun.
  - intros Hclosed Hverify info m. unfold processCloseExecution.
    rewrite (processTransfer_deferred env task ctx ms Hacq Hload). cbn [negb andb].
    unfold closeExecutionAction. rewrite Hclosed, Hverify.
    destruct (recordWorkflowClosed_calls env (task_DomainID task) (executionOf task)
                (WorkflowTypeName info) (StartTimestamp info) (GetLastUpdatedTimestamp ms)
                (getWorkflowExecutionCloseStatus env (ei_CloseStatus info))
                (GetNextEventID ms)) as [[r Hr] Hcalls].
    fold m in Hr, Hcalls. exists r. split; [exact Hr|]. split; [|exact Hcalls].
    change (recordWorkflowClosed env _ _ _ _ _ _ _) with m.
    destruct m as [[r'|] tr]; cbn in Hr; [|discriminate Hr]. injection Hr as ->.
    unfold closingReleases, postActionNoOp. destruct r as [e|]; run_d.
Qed.

Lemma close_execution_records_visibility_witness :
  let env := sampleEnv 100 (sampleState false) (inr (sampleDomain false false)) None None in
  let task := sampleTask TransferTaskTypeCloseExecution 5 in
  exists r,
    result (recordWorkflowClosed env "domain-1" sampleExecution "checkout" 1000 5000
              CloseStatusCompleted 12) = Returned r
    /\ processCloseExecution env task =
       (Returned r,
        trace (recordWorkflowClosed env "domain-1" sampleExecution "checkout" 1000 5000
                 CloseStatusCompleted 12) ++ closingReleases r)
    /\ Forall isVisibilityCall
         (trace (recordWorkflowClosed env "domain-1" sampleExecution "checkout" 1000 5000
                   CloseStatusCompleted 12)).
Proof.
  cbv zeta.
  destruct (close_execution_records_visibility
              (sampleEnv 100 (sampleState false) (inr (sampleDomain false false)) None None)
              (sampleTask TransferTaskTypeCloseExecution 5)
              {| ctx_DomainID := "domain-1"; ctx_Execution := sampleExecution |}
              (sampleState false) eq_refl eq_refl) as (_ & Hclosed).
  exact (Hclosed eq_refl eq_refl).
Defined.

(** X5.  For a decision task scheduled at one of the first events
    (scheduleID <= FirstEventID + 2) the handler records the workflow start
    before anything else.  When the decision is no longer pending, the
    outcome of [recordWorkflowStarted] is the outcome of the handler.  When
    the decision is pending, verified, not started and has waited no longer
    than [StandbyClusterDelay], the start is recorded all the same, whatever
    [recordWorkflowStarted] returns is dropped, and the handler returns
    [ErrTaskRetry]: the start is recorded again on every retry. *)
Theorem first_decision_records_start (env : Env) (task : TransferTaskInfo)
    (ctx : workflowExecutionContext) (ms : mutableState) :
  getOrCreateWorkflowExecution env (task_DomainID task)
    {| WorkflowId := Some (task_WorkflowID task); RunId := Some (task_RunID task) |}
  = inr ctx ->
  loadMutableStateForTransferTask env ctx task = inr (Some ms) ->
  IsWorkflowExecutionRunning ms = true ->
  task_ScheduleID task <= FirstEventID env + 2 ->
  let info := GetExecutionInfo ms in
  let m := recordWorkflowStarted env (task_DomainID task) (executionOf task)
             (WorkflowTypeName info) (StartTimestamp info) (WorkflowTimeout info) in
  (GetPendingDecision ms (task_ScheduleID task) = None ->
   exists r, result m = Returned r
             /\ processDecisionTask env task = (Returned r, trace m ++ closingReleases r))
  /\ (forall decision,
         GetPendingDecision ms (task_ScheduleID task) = Some decision ->
         verifyTaskVersion env (task_DomainID task) (di_Version decision)
           (task_Version task) task = inr true ->
         di_StartedID decision = EmptyEventID env ->
         elapsed env task <= StandbyClusterDelay env ->
         processDecisionTask env task =
         (Returned (Some ErrTaskRetry), trace m ++ [Release None])).
Proof.
  intros Hacq Hload Hrun Hfirst info m.
  destruct (recordWorkflowStarted_calls env (task_DomainID task) (executionOf task)
              (WorkflowTypeName info) (StartTimestamp info) (WorkflowTimeout info))
    as [[r Hr] _].
  fold m in Hr. unfold processDecisionTask.
  rewrite (processTransfer_running env task ctx ms Hacq Hload Hrun).
  rewrite (proj2 (Z.leb_le _ _) Hfirst).
  change (recordWorkflowStarted env _ _ _ _ _) with m.
  destruct m as [[r'|] tr]; cbn in Hr; [|discriminate Hr]. injection Hr as ->. split.
  - intros ->. exists r. split; [reflexivity|].
    unfold closingReleases. destruct r as [e|]; run_d.
  - intros decision -> Hverify Hstarted Hwait. rewrite Hverify.
    rewrite decide_True by exact Hstarted.
    destruct (Z.ltb_spec (StandbyClusterDelay env)
                (Sub (GetCurrentTime env (clusterName env))
                   (task_VisibilityTimestamp task))) as [Hlt|_];
      [unfold elapsed in Hwait; lia|].
    run_d.
Qed.


Lemma first_decision_records_start_witness :
  let env := sampleEnv 10 (sampleState true) (inr (sampleDomain false false)) None None in
  let task :=
    {| task_DomainID := "domain-1"; task_WorkflowID := "wf-1"; task_RunID := "run-1";
       task_TaskID := 100; task_TargetDomainID := "domain-1"; task_TaskList := "tl";
       task_TaskType := TransferTaskTypeDecisionTask; task_ScheduleID := 2;
       task_Version := 5; task_VisibilityTimestamp := 0 |} in
  exists r,
    result (recordWorkflowStarted env "domain-1" sampleExecution "checkout" 1000 3600)
    = Returned r
    /\ processDecisionTask env task =
       (Returned r,
        trace (recordWorkflowStarted env "domain-1" sampleExecution "checkout" 1000 3600)
        ++ closingReleases r).
Proof.
  cbv zeta.
  match goal with
  | |- exists r, _ /\ processDecisionTask ?e ?t = _ =>
      destruct (first_decision_records_start e t
                  {| ctx_DomainID := "domain-1"; ctx_Execution := sampleExecution |}
                  (sampleState true) eq_refl eq_refl eq_refl) as (Hdone & _);
        [by vm_compute | exact (Hdone eq_refl)]
  end.
Defined.

(** X6.  A pending decision task whose version is verified, whose decision
    has not started and that has waited longer than [StandbyClusterDelay] is
    pushed to matching exactly once, after the start record (for a first
    decision) and after [release(nil)], on the task list of the task and
    with the workflow timeout capped at [MaxTaskTimeout] as schedule-to-start
    timeout; the handler returns what matching answers. *)
Theorem admitted_decision_is_pushed (env : Env) (task : TransferTaskInfo)
    (ctx : workflowExecutionContext) (ms : mutableState) (decision : DecisionInfo) :
  getOrCreateWorkflowExecution env (task_DomainID task)
    {| WorkflowId := Some (task_WorkflowID task); RunId := Some (task_RunID task) |}
  = inr ctx ->
  loadMutableStateForTransferTask env ctx task = inr (Some ms) ->
  IsWorkflowExecutionRunning ms = true ->
  task_TaskType task = TransferTaskTypeDecisionTask ->
  GetPendingDecision ms (task_ScheduleID task) = Some decision ->
  verifyTaskVersion env (task_DomainID task) (di_Version decision) (task_Version task) task
  = inr true ->
  di_StartedID decision = EmptyEventID env ->
  StandbyClusterDelay env < elapsed env task ->
  let info := GetExecutionInfo ms in
  let started :=
    if task_ScheduleID task <=? FirstEventID env + 2
    then trace (recordWorkflowStarted env (task_DomainID task) (executionOf task)
                  (WorkflowTypeName info) (StartTimestamp info) (WorkflowTimeout info))
    else [] in
  let timeout := MinInt32 (WorkflowTimeout info) (MaxTaskTimeout env) in
  let answer := matchingAddDecisionTask env (decisionRequest task timeout) in
  processDecisionTask env task =
  (Returned answer,
   started ++ [Release None; AddDecisionTask (decisionRequest task timeout);
               Release (deferredArgument answer)])
  /\ timeout <= MaxTaskTimeout env.
Proof.
  intros Hacq Hload Hrun Htype Hpending Hverify Hstarted Hadmit info started timeout answer.
  split; [|apply MinInt32_le_r].
  unfold processDecisionTask.
  rewrite (processTransfer_running env task ctx ms Hacq Hload Hrun).
  rewrite Hpending, Hverify, decide_True by exact Hstarted.
  rewrite (proj2 (admitted_iff env task) Hadmit). cbn [negb].
  unfold pushDecision. rewrite decide_True by exact Htype.
  subst started.
  destruct (task_ScheduleID task <=? FirstEventID env + 2).
  - destruct (recordWorkflowStarted_calls env (task_DomainID task) (executionOf task)
                (WorkflowTypeName info) (StartTimestamp info) (WorkflowTimeout info))
      as [[r Hr] _].
    change (recordWorkflowStarted env _ _ _ _ _)
      with (recordWorkflowStarted env (task_DomainID task) (executionOf task)
              (WorkflowTypeName info) (StartTimestamp info) (WorkflowTimeout info)).
    destruct (recordWorkflowStarted env _ _ _ _ _) as [[r'|] tr];
      cbn in Hr; [|discriminate Hr].
    unfold defer, bind, ret, release, emit. cbn -[MinInt32 deferredArgument].
    rewrite MinInt32_idem, <- ?app_assoc. reflexivity.
  - unfold defer, bind, ret, release, emit. cbn -[MinInt32 deferredArgument].
    rewrite MinInt32_idem. reflexivity.
Qed.

Lemma admitted_decision_is_pushed_witness :
  let env := sampleEnv 11 (sampleState true) (inr (sampleDomain false false)) None None in
  let task := sampleTask TransferTaskTypeDecisionTask 5 in
  processDecisionTask env task =
  (Returned None, [Release None; AddDecisionTask (decisionRequest task 3600); Release None]).
Proof.
  cbv zeta.
  apply (admitted_decision_is_pushed
           (sampleEnv 11 (sampleState true) (inr (sampleDomain false false)) None None)
           (sampleTask TransferTaskTypeDecisionTask 5)
           {| ctx_DomainID := "domain-1"; ctx_Execution := sampleExecution |}
           (sampleState true) {| di_Version := 5; di_StartedID := -23 |});
    try reflexivity.
Defined.

(** X7.  A cancel, signal or start-child task that has nothing left to wait
    for is done: when its info is no longer in mutable state, or when the
    verified child info shows that the child has started, the handler returns
    nil without consulting [discardTask] (no discard is logged) and only
    calls [release(nil)]. *)
Theorem settled_task_is_done (env : Env) (task : TransferTaskInfo)
    (ctx : workflowExecutionContext) (ms : mutableState) (h : handler) :
  getOrCreateWorkflowExecution env (task_DomainID task)
    {| WorkflowId := Some (task_WorkflowID task); RunId := Some (task_RunID task) |}
  = inr ctx ->
  loadMutableStateForTransferTask env ctx task = inr (Some ms) ->
  IsWorkflowExecutionRunning ms = true ->
  h = CancelExecutionHandler \/ h = SignalExecutionHandler
  \/ h = StartChildExecutionHandler ->
  (versionOnInfo h ms task = None ->
   runHandler env h task = (Returned None, [Release None; Release None]))
  /\ (forall child,
         h = StartChildExecutionHandler ->
         GetChildExecutionInfo ms (task_ScheduleID task) = Some child ->
         verifyTaskVersion env (task_DomainID task) (ci_Version child)
           (task_Version task) task = inr true ->
         ci_StartedID child <> EmptyEventID env ->
         runHandler env h task = (Returned None, [Release None; Release None])).
Proof.
  intros Hacq Hload Hrun Hh. split.
  - intros Hgone. destruct Hh as [-> | [-> | ->]]; unfold_handlers;
      rewrite (processTransfer_running env task ctx ms Hacq Hload Hrun);
      cbn [versionOnInfo] in Hgone;
      match type of Hgone with
      | _ <$> ?o = None => destruct o; [discriminate Hgone|]
      end; run_d.
  - intros child -> Hchild Hverify Hstarted. unfold_handlers.
    rewrite (processTransfer_running env task ctx ms Hacq Hload Hrun).
    rewrite Hchild, Hverify, decide_False by exact Hstarted. run_d.
Qed.

Lemma settled_task_is_done_witness :
  let env := sampleEnv 100 (sampleState true) (inr (sampleDomain false false)) None None in
  let task :=
    {| task_DomainID := "domain-1"; task_WorkflowID := "wf-1"; task_RunID := "run-1";
       task_TaskID := 100; task_TargetDomainID := "domain-1"; task_TaskList := "tl";
       task_TaskType := TransferTaskTypeCancelExecution; task_ScheduleID := 8;
       task_Version := 5; task_VisibilityTimestamp := 0 |} in
  runHandler env CancelExecutionHandler task = (Returned None, [Release None; Release None]).
Proof.
  cbv zeta.
  match goal with
  | |- runHandler ?e ?h ?t = _ =>
      destruct (settled_task_is_done e t
                  {| ctx_DomainID := "domain-1"; ctx_Execution := sampleExecution |}
                  (sampleState true) h eq_refl eq_refl eq_refl) as (Hgone & _);
        [by left | exact (Hgone eq_refl)]
  end.
Defined.


(** *** What every handler does *)

Lemma discardTask_calls (env : Env) (task : TransferTaskInfo) :
  returns (discardTask env task) /\ Forall notRelease (trace (discardTask env task)).
Proof.
  unfold discardTask.
  destruct (StandbyClusterDelay env <? _); split; try (by eexists);
    cbn; by repeat constructor.
Qed.

Lemma pushActivity_calls (env : Env) (task : TransferTaskInfo) (timeout : Z) :
  Forall notRelease (trace (pushActivity env task timeout))
  /\ (task_TaskType task = TransferTaskTypeActivityTask ->
      returns (pushActivity env task timeout)).
Proof.
  unfold pushActivity.
  destruct (decide (task_TaskType task = TransferTaskTypeActivityTask)) as [Htype|Htype]; split.
  - cbn. repeat constructor.
  - intros _. by eexists.
  - cbn. repeat constructor.
  - intros Heq. contradiction.
Qed.

Lemma pushDecision_calls (env : Env) (task : TransferTaskInfo) (tasklist : option TaskList)
    (timeout : Z) :
  Forall notRelease (trace (pushDecision env task tasklist timeout))
  /\ (task_TaskType task = TransferTaskTypeDecisionTask ->
      returns (pushDecision env task tasklist timeout)).
Proof.
  unfold pushDecision.
  destruct (decide (task_TaskType task = TransferTaskTypeDecisionTask)) as [Htype|Htype]; split.
  - cbn. repeat constructor.
  - intros _. by eexists.
  - cbn. repeat constructor.
  - intros Heq. contradiction.
Qed.

(** Closing goals about a composed call by following its structure. *)
Ltac follow_calls :=
  repeat first
    [ apply returns_ret
    | apply returns_emit
    | apply Forall_nil_2
    | apply (proj1 (discardTask_calls _ _))
    | apply (proj2 (discardTask_calls _ _))
    | apply (proj1 (recordWorkflowStarted_calls _ _ _ _ _ _))
    | apply (proj1 (recordWorkflowClosed_calls _ _ _ _ _ _ _ _))
    | apply visibility_call_not_release;
      apply (proj2 (recordWorkflowStarted_calls _ _ _ _ _ _))
    | apply visibility_call_not_release;
      apply (proj2 (recordWorkflowClosed_calls _ _ _ _ _ _ _ _))
    | apply (proj1 (pushActivity_calls _ _ _))
    | apply (proj1 (pushDecision_calls _ _ _ _))
    | apply (proj2 (pushActivity_calls _ _ _)); assumption
    | apply (proj2 (pushDecision_calls _ _ _ _)); assumption
    | apply returns_bind; [|intros ?]
    | apply trace_bind; [|intros ?]
    | match goal with
      | |- returns (match ?x with _ => _ end) => destruct x
      | |- Forall _ (trace (match ?x with _ => _ end)) => destruct x
      end ].

Lemma processTransfer_returns {V : Type} (env : Env) (flag : bool) (task : TransferTaskInfo)
    (action : mutableState -> M (option error * V)) (postAction : V -> M (option error)) :
  (forall ms, returns (action ms)) ->
  (forall v, returns (postAction v)) ->
  returns (processTransfer env flag task action postAction).
Proof.
  intros Haction Hpost. unfold processTransfer, getDomainIDAndWorkflowExecution, defer.
  destruct (getOrCreateWorkflowExecution env _ _) as [err|ctx]; [apply returns_ret|].
  apply returns_bind.
  - destruct (loadMutableStateForTransferTask env ctx task) as [err|[ms|]];
      try apply returns_ret.
    destruct (negb flag && negb (IsWorkflowExecutionRunning ms)); [apply returns_ret|].
    apply returns_bind; [apply Haction|]. intros [[err|] v]; cbn [fst snd].
    + apply returns_ret.
    + apply returns_bind; [apply returns_emit | intros _; apply Hpost].
  - intros r. apply returns_bind; [|intros _; apply returns_ret].
    destruct (decide (r = Some ErrTaskRetry)); apply returns_emit.
Qed.

Lemma defer_release (body : M (option error)) (r : option error) :
  result (defer body (fun retError => release (deferredArgument retError))) = Returned r ->
  result body = Returned r
  /\ trace (defer body (fun retError => release (deferredArgument retError)))
     = trace body ++ [Release (deferredArgument r)].
Proof.
  unfold defer, bind, release, emit, ret. destruct body as [[r'|] tr]; cbn; [|discriminate].
  intros [= <-]. by rewrite ?app_nil_r.
Qed.

Lemma processTransfer_acquired {V : Type} (env : Env) (flag : bool)
    (task : TransferTaskInfo) (action : mutableState -> M (option error * V))
    (postAction : V -> M (option error)) (ctx : workflowExecutionContext) :
  getOrCreateWorkflowExecution env (task_DomainID task)
    {| WorkflowId := Some (task_WorkflowID task); RunId := Some (task_RunID task) |}
  = inr ctx ->
  processTransfer env flag task action postAction =
  defer
    (match loadMutableStateForTransferTask env ctx task with
     | inl err => ret (Some err)
     | inr None => ret None
     | inr (Some msBuilder) =>
         if negb flag && negb (IsWorkflowExecutionRunning msBuilder) then ret None
         else r <- action msBuilder ;;
              match fst r with
              | Some err => ret (Some err)
              | None => _ <- release None ;; postAction (snd r)
              end
     end)
    (fun retError => release (deferredArgument retError)).
Proof.
  intros Hacq. unfold processTransfer, getDomainIDAndWorkflowExecution. rewrite Hacq.
  unfold defer, deferredArgument.
  match goal with
  | |- bind ?body _ = bind ?body _ => destruct body as [[r|] tr]
  end; cbn; [|reflexivity].
  by destruct (decide (r = Some ErrTaskRetry)).
Qed.

Lemma processTransfer_releases {V : Type} (env : Env) (flag : bool) (task : TransferTaskInfo)
    (action : mutableState -> M (option error * V)) (postAction : V -> M (option error))
    (ctx : workflowExecutionContext) (r : option error) :
  getOrCreateWorkflowExecution env (task_DomainID task)
    {| WorkflowId := Some (task_WorkflowID task); RunId := Some (task_RunID task) |}
  = inr ctx ->
  (forall ms, Forall notRelease (trace (action ms))) ->
  (forall v, Forall notRelease (trace (postAction v))) ->
  result (processTransfer env flag task action postAction) = Returned r ->
  releases (trace (processTransfer env flag task action postAction))
  = [deferredArgument r]
  \/ releases (trace (processTransfer env flag task action postAction))
     = [None; deferredArgument r].
Proof.
  intros Hacq Haction Hpost.
  rewrite (processTransfer_acquired env flag task action postAction ctx Hacq).
  intros Hres. apply defer_release in Hres as [Hbody ->]. rewrite releases_app.
  change (releases [Release (deferredArgument r)]) with [deferredArgument r].
  destruct (loadMutableStateForTransferTask env ctx task) as [err|[ms|]];
    [by left | | by left].
  destruct (negb flag && negb (IsWorkflowExecutionRunning ms)); [by left|].
  specialize (Haction ms). unfold bind at 1. unfold bind at 1 in Hbody.
  destruct (action ms) as [[[[err|] v]|] tra]; cbn [fst snd trace] in *.
  - left. cbn -[releases]. by rewrite ?app_nil_r, (releases_quiet _ Haction).
  - right. specialize (Hpost v). unfold bind, release, emit. cbn -[releases].
    destruct (postAction v) as [r' trp]; cbn -[releases] in *.
    rewrite releases_app, (releases_quiet _ Haction).
    change (releases (Release None :: trp)) with (None :: releases trp).
    by rewrite (releases_quiet _ Hpost).
  - discriminate Hbody.
Qed.


(** The handler that [process] runs for a task type. *)
Lemma handler_returns (env : Env) (h : handler) (task : TransferTaskInfo) :
  (h = ActivityHandler -> task_TaskType task = TransferTaskTypeActivityTask) ->
  (h = DecisionHandler -> task_TaskType task = TransferTaskTypeDecisionTask) ->
  returns (runHandler env h task).
Proof.
  intros Hactivity Hdecision.
  destruct h;
    try specialize (Hactivity eq_refl); try specialize (Hdecision eq_refl);
    unfold_handlers; apply processTransfer_returns; intros; follow_calls.
Qed.

(** X8.  [process] never ends the process: whatever the task and whatever
    the collaborators answer, it returns, because it hands a task only to
    the handler of its own type.  The fatal log of [pushActivity] is reached
    only when the activity handler is called directly on a task of another
    type that is admitted: the handler then stops after [release(nil)],
    without calling matching and without the deferred [release]. *)
Theorem process_always_returns (env : Env) (qTask : queueTaskInfo) :
  returns (process env qTask)
  /\ (forall (task : TransferTaskInfo) (ctx : workflowExecutionContext)
             (ms : mutableState) (info : ActivityInfo),
         getOrCreateWorkflowExecution env (task_DomainID task)
           {| WorkflowId := Some (task_WorkflowID task); RunId := Some (task_RunID task) |}
         = inr ctx ->
         loadMutableStateForTransferTask env ctx task = inr (Some ms) ->
         IsWorkflowExecutionRunning ms = true ->
         GetActivityInfo ms (task_ScheduleID task) = Some info ->
         verifyTaskVersion env (task_DomainID task) (ai_Version info) (task_Version task)
           task = inr true ->
         ai_StartedID info = EmptyEventID env ->
         StandbyClusterDelay env < elapsed env task ->
         task_TaskType task <> TransferTaskTypeActivityTask ->
         processActivityTask env task =
         (Exited, [Release None; LogFatal "Cannot process non activity task"])).
Proof.
  split.
  - destruct qTask as [task|]; unfold process; [|apply returns_ret].
    destruct (transferTaskFilter env task) as [err|[]]; try apply returns_ret.
    destruct (task_TaskType task) eqn:Htype; try apply returns_ret;
      (apply returns_bind; [|intros ?; apply returns_ret]).
    + apply (handler_returns env DecisionHandler); [discriminate | done].
    + apply (handler_returns env ActivityHandler); [done | discriminate].
    + apply (handler_returns env CloseExecutionHandler); discriminate.
    + apply (handler_returns env CancelExecutionHandler); discriminate.
    + apply (handler_returns env StartChildExecutionHandler); discriminate.
    + apply (handler_returns env SignalExecutionHandler); discriminate.
  - intros task ctx ms info Hacq Hload Hrun Hinfo Hverify Hstarted Hadmit Htype.
    unfold processActivityTask.
    rewrite (processTransfer_running env task ctx ms Hacq Hload Hrun).
    rewrite Hinfo, Hverify, decide_True by exact Hstarted.
    rewrite (proj2 (admitted_iff env task) Hadmit). cbn [negb].
    unfold pushActivity. rewrite decide_False by exact Htype. reflexivity.
Qed.

Lemma process_always_returns_witness :
  let env := sampleEnv 11 (sampleState true) (inr (sampleDomain false false)) None None in
  processActivityTask env (sampleTask TransferTaskTypeSignalExecution 5)
  = (Exited, [Release None; LogFatal "Cannot process non activity task"]).
Proof.
  cbv zeta.
  destruct (process_always_returns
              (sampleEnv 11 (sampleState true) (inr (sampleDomain false false)) None None)
              QOtherTask) as (_ & Hdirect).
  apply (Hdirect (sampleTask TransferTaskTypeSignalExecution 5)
           {| ctx_DomainID := "domain-1"; ctx_Execution := sampleExecution |}
           (sampleState true)
           {| ai_Version := 5; ai_StartedID := -23; ai_ScheduleToStartTimeout := 30 |});
    try reflexivity; discriminate.
Defined.

Lemma handler_quiet (env : Env) (h : handler) (task : TransferTaskInfo)
    (ctx : workflowExecutionContext) (r : option error) :
  getOrCreateWorkflowExecution env (task_DomainID task)
    {| WorkflowId := Some (task_WorkflowID task); RunId := Some (task_RunID task) |}
  = inr ctx ->
  result (runHandler env h task) = Returned r ->
  releases (trace (runHandler env h task)) = [deferredArgument r]
  \/ releases (trace (runHandler env h task)) = [None; deferredArgument r].
Proof.
  intros Hacq.
  destruct h; unfold_handlers; apply (processTransfer_releases _ _ _ _ _ ctx r Hacq);
    intros; follow_calls.
Qed.

(** X9.  Every handler releases the workflow context it was given: when
    the history cache has handed out the context and the handler returns,
    [release] has been called once or twice, never more; the last call
    carries nil for [ErrTaskRetry] and for success and the returned error
    otherwise, and an earlier call, if any, carries nil.  No call made by
    the actions themselves is a [release]. *)
Theorem handlers_release_the_context (env : Env) (h : handler) (task : TransferTaskInfo)
    (ctx : workflowExecutionContext) (r : option error) :
  getOrCreateWorkflowExecution env (task_DomainID task)
    {| WorkflowId := Some (task_WorkflowID task); RunId := Some (task_RunID task) |}
  = inr ctx ->
  result (runHandler env h task) = Returned r ->
  (releases (trace (runHandler env h task)) = [deferredArgument r]
   \/ releases (trace (runHandler env h task)) = [None; deferredArgument r])
  /\ last (releases (trace (runHandler env h task))) = Some (deferredArgument r)
  /\ (1 <= length (releases (trace (runHandler env h task))) <= 2)%nat.
Proof.
  intros Hacq Hres.
  destruct (handler_quiet env h task ctx r Hacq Hres) as [Hone|Htwo].
  - rewrite Hone. split; [by left|]. split; [reflexivity | cbn; lia].
  - rewrite Htwo. split; [by right|]. split; [reflexivity | cbn; lia].
Qed.

Lemma handlers_release_the_context_witness :
  let env := sampleEnv 100 (sampleState true) (inr (sampleDomain false false)) None None in
  last (releases (trace (runHandler env SignalExecutionHandler
                           (sampleTask TransferTaskTypeSignalExecution 5))))
  = Some (Some ErrTaskDiscarded).
Proof.
  cbv zeta.
  apply (handlers_release_the_context
           (sampleEnv 100 (sampleState true) (inr (sampleDomain false false)) None None)
           SignalExecutionHandler (sampleTask TransferTaskTypeSignalExecution 5)
           {| ctx_DomainID := "domain-1"; ctx_Execution := sampleExecution |}
           (Some ErrTaskDiscarded));
    reflexivity.
Defined.


(** X10.  [recordWorkflowStarted], when the domain is resolved (or not
    found, which degrades to the default domain name) and the workflow is
    not excluded by the sampling filter, publishes one message of type Open
    carrying the identity triple, the workflow type and the start time, with
    no close fields, and, only if that publish succeeded, writes one
    started row with the domain name and the workflow timeout; without a
    producer it writes the row alone.  A publish error is returned and
    nothing is written. *)
Theorem started_published_then_recorded (env : Env) (domainID : string)
    (execution : WorkflowExecution) (workflowTypeName : string)
    (startTimeUnixNano workflowTimeout : Z) :
  match GetDomainByID env domainID with
  | inr entry =>
      IsSampledForLongerRetentionEnabled entry (GetWorkflowId execution)
      && negb (IsSampledForLongerRetention entry (GetWorkflowId execution)) = false
  | inl err => isEntityNotExistsError err = true
  end ->
  let msg := openMsg domainID execution workflowTypeName startTimeUnixNano in
  let req :=
    {| rs_DomainUUID := domainID;
       rs_Domain := match GetDomainByID env domainID with
                    | inr entry => dce_Name entry
                    | inl _ => defaultDomainName
                    end;
       rs_Execution := execution;
       rs_WorkflowTypeName := workflowTypeName;
       rs_StartTimestamp := startTimeUnixNano;
       rs_WorkflowTimeout := workflowTimeout |} in
  recordWorkflowStarted env domainID execution workflowTypeName startTimeUnixNano
    workflowTimeout
  = match visibilityProducer env with
    | None => (Returned (visibilityRecordStarted env req),
               [RecordWorkflowExecutionStarted req])
    | Some producer =>
        match producer msg with
        | Some err => (Returned (Some err), [Publish msg])
        | None => (Returned (visibilityRecordStarted env req),
                   [Publish msg; RecordWorkflowExecutionStarted req])
        end
    end.
Proof.
  intros Hdomain msg req. subst msg req.
  unfold recordWorkflowStarted, publish, openMsg.
  destruct (GetDomainByID env domainID) as [err|entry].
  - rewrite Hdomain. cbn.
    destruct (visibilityProducer env) as [producer|]; [|reflexivity].
    destruct (producer _); reflexivity.
  - cbn [from_option]. rewrite Hdomain.
    destruct (visibilityProducer env) as [producer|]; [|reflexivity].
    destruct (producer _) eqn:Hpub; run_m; rewrite Hpub; reflexivity.
Qed.

Lemma started_published_then_recorded_witness :
  let env := sampleEnv 100 (sampleState true) (inl (EntityNotExistsError "gone"))
               None (Some (OtherError "bus down")) in
  recordWorkflowStarted env "domain-1" sampleExecution "checkout" 1000 3600
  = (Returned (Some (OtherError "bus down")),
     [Publish (openMsg "domain-1" sampleExecution "checkout" 1000)]).
Proof.
  cbv zeta.
  rewrite (started_published_then_recorded
             (sampleEnv 100 (sampleState true) (inl (EntityNotExistsError "gone"))
                None (Some (OtherError "bus down")))
             "domain-1" sampleExecution "checkout" 1000 3600 eq_refl).
  reflexivity.
Defined.

(** X11.  When the domain cache fails with an error other than
    entity-not-exists, [recordWorkflowStarted] and [recordWorkflowClosed]
    return that error and call neither the bus nor the visibility store;
    and [recordWorkflowStarted] returns nil, equally without any call, for a
    workflow that the sampling filter of its domain excludes. *)
Theorem visibility_skipped (env : Env) (domainID : string)
    (execution : WorkflowExecution) (workflowTypeName : string)
    (startTimeUnixNano endTimeUnixNano workflowTimeout : Z)
    (closeStatus : WorkflowExecutionCloseStatus) (historyLength : Z) :
  (forall err,
      GetDomainByID env domainID = inl err ->
      isEntityNotExistsError err = false ->
      recordWorkflowStarted env domainID execution workflowTypeName startTimeUnixNano
        workflowTimeout = (Returned (Some err), [])
      /\ recordWorkflowClosed env domainID execution workflowTypeName startTimeUnixNano
           endTimeUnixNano closeStatus historyLength = (Returned (Some err), []))
  /\ (forall entry,
         GetDomainByID env domainID = inr entry ->
         IsSampledForLongerRetentionEnabled entry (GetWorkflowId execution) = true ->
         IsSampledForLongerRetention entry (GetWorkflowId execution) = false ->
         recordWorkflowStarted env domainID execution workflowTypeName startTimeUnixNano
           workflowTimeout = (Returned None, [])).
Proof.
  split.
  - intros err Hdomain Hkind. unfold recordWorkflowStarted, recordWorkflowClosed.
    by rewrite Hdomain, Hkind.
  - intros entry Hdomain Henabled Hsampled. unfold recordWorkflowStarted.
    rewrite Hdomain. cbn [from_option]. by rewrite Henabled, Hsampled.
Qed.

Lemma visibility_skipped_witness :
  let env := sampleEnv 100 (sampleState true) (inl (OtherError "cache unavailable"))
               None None in
  recordWorkflowClosed env "domain-1" sampleExecution "checkout" 1000 5000
    CloseStatusCompleted 12
  = (Returned (Some (OtherError "cache unavailable")), []).
Proof.
  cbv zeta.
  destruct (visibility_skipped
              (sampleEnv 100 (sampleState true) (inl (OtherError "cache unavailable"))
                 None None)
              "domain-1" sampleExecution "checkout" 1000 5000 3600
              CloseStatusCompleted 12) as (Herror & _).
  by destruct (Herror (OtherError "cache unavailable") eq_refl eq_refl) as (_ & Hclosed).
Defined.

Lemma Sub_monotone (t t' u : Z) : t <= t' -> Sub t u <= Sub t' u.
Proof.
  unfold Sub, minInt64, maxInt64. intros Hle.
  repeat match goal with
         | |- context [?a <? ?b] => destruct (Z.ltb_spec a b)
         end; lia.
Qed.

Lemma Sub_bounds (t u : Z) : inInt64 (Sub t u).
Proof.
  unfold Sub, inInt64, minInt64, maxInt64.
  repeat match goal with
         | |- context [?a <? ?b] => destruct (Z.ltb_spec a b)
         end; lia.
Qed.

(** X12.  The waiting time that the handlers compare with
    [StandbyClusterDelay] always fits a 64-bit duration, and the decision of
    [discardTask] is monotone in the shard's time: a task that is discarded
    at one reading of the clock is discarded at every later reading, and a
    task that is kept is also kept at every earlier reading.  With a delay
    of the largest duration nothing is ever discarded. *)
Theorem discard_is_monotone (env env' : Env) (task : TransferTaskInfo) :
  StandbyClusterDelay env' = StandbyClusterDelay env ->
  GetCurrentTime env (clusterName env) <= GetCurrentTime env' (clusterName env') ->
  inInt64 (elapsed env task)
  /\ (result (discardTask env task) = Returned true ->
      result (discardTask env' task) = Returned true)
  /\ (result (discardTask env' task) = Returned false ->
      result (discardTask env task) = Returned false)
  /\ (StandbyClusterDelay env = maxInt64 ->
      result (discardTask env task) = Returned false).
Proof.
  intros Hdelay Hclock.
  pose proof (Sub_monotone _ _ (task_VisibilityTimestamp task) Hclock) as Hmono.
  pose proof (Sub_bounds (GetCurrentTime env (clusterName env))
                (task_VisibilityTimestamp task)) as Hbound.
  fold (elapsed env task) in Hmono, Hbound. fold (elapsed env' task) in Hmono.
  split; [exact Hbound|].
  destruct (Z.le_gt_cases (elapsed env task) (StandbyClusterDelay env)) as [Hle|Hgt];
    destruct (Z.le_gt_cases (elapsed env' task) (StandbyClusterDelay env')) as [Hle'|Hgt'];
    rewrite ?(discardTask_false env task Hle), ?(discardTask_true env task Hgt),
      ?(discardTask_false env' task Hle'), ?(discardTask_true env' task Hgt');
    cbn; repeat split; try done; try lia;
    intros Hmax; destruct Hbound as [_ Hmax']; lia.
Qed.

Lemma discard_is_monotone_witness :
  let late := sampleEnv 500 (sampleState true) (inr (sampleDomain false false)) None None in
  result (discardTask late (sampleTask TransferTaskTypeSignalExecution 5)) = Returned true.
Proof.
  cbv zeta.
  apply (discard_is_monotone
           (sampleEnv 11 (sampleState true) (inr (sampleDomain false false)) None None)
           (sampleEnv 500 (sampleState true) (inr (sampleDomain false false)) None None)
           (sampleTask TransferTaskTypeSignalExecution 5));
    [reflexivity | by vm_compute | reflexivity].
Defined.

End StandbyBehaviour.

(** * Further behaviour of the bulk processor *)

Module IndexerBehaviour.
Import Indexer IndexerProperties.

(** *** Calls that leave the in-flight map alone *)

Lemma adds_ret {A : Type} (P : event -> Prop) (a : A) : adds P (ret a).
Proof. intros p. split; [reflexivity|]. exists []. by rewrite app_nil_r. Qed.

Lemma adds_panic {A : Type} (P : event -> Prop) : adds P (@panic A).
Proof. intros p. split; [reflexivity|]. exists []. by rewrite app_nil_r. Qed.

Lemma adds_emit (P : event -> Prop) (e : event) : P e -> adds P (emit e).
Proof. intros He p. split; [reflexivity|]. exists [e]. by repeat constructor. Qed.

Lemma adds_bind {A B : Type} (P : event -> Prop) (m : M A) (f : A -> M B) :
  adds P m -> (forall a, adds P (f a)) -> adds P (bind m f).
Proof.
  intros Hm Hf p. specialize (Hm p). unfold bind.
  destruct (m p) as [[a| |] p']; cbn [snd] in Hm; try exact Hm.
  destruct Hm as (Hmap & es & Hcalls & Hes).
  destruct (Hf a p') as (Hmap' & es' & Hcalls' & Hes').
  split; [congruence|]. exists (es ++ es'). split.
  - by rewrite Hcalls', Hcalls, app_assoc.
  - by apply Forall_app.
Qed.

Lemma adds_forRange {A B : Type} (P : event -> Prop) (l : list A) (body : A -> B -> M B)
    (b : B) :
  (forall x b', adds P (body x b')) -> adds P (forRange l body b).
Proof.
  intros Hbody. revert b. induction l as [|x l IH]; intros b; cbn [forRange].
  - apply adds_ret.
  - apply adds_bind; [apply Hbody | intros b'; apply IH].
Qed.

Lemma adds_weaken {A : Type} (P Q : event -> Prop) (m : M A) :
  (forall e, P e -> Q e) -> adds P m -> adds Q m.
Proof.
  intros HPQ Hm p. destruct (Hm p) as (Hmap & es & Hcalls & Hes).
  split; [exact Hmap|]. exists es. split; [exact Hcalls|].
  eapply Forall_impl; [exact Hes | exact HPQ].
Qed.

Lemma adds_sliceAt {A : Type} (P : event -> Prop) (l : list A) (i : nat) :
  adds P (sliceAt l i).
Proof. unfold sliceAt. destruct (l !! i); [apply adds_ret | apply adds_panic]. Qed.

Lemma adds_assertString (P : event -> Prop) (v : option jsonValue) :
  adds P (assertString v).
Proof. destruct v as [[]|]; first [apply adds_ret | apply adds_panic]. Qed.

Lemma adds_assertFloat64 (P : event -> Prop) (v : option jsonValue) :
  adds P (assertFloat64 v).
Proof. destruct v as [[]|]; first [apply adds_ret | apply adds_panic]. Qed.

(** Following the structure of a composed call. *)
Ltac follow_adds :=
  repeat first
    [ apply adds_ret
    | apply adds_panic
    | apply adds_sliceAt
    | apply adds_assertString
    | apply adds_assertFloat64
    | apply adds_emit; exact I
    | apply adds_bind; [|intros ?]
    | apply adds_forRange; intros ? ?
    | match goal with
      | |- adds _ (match ?x with _ => _ end) => destruct x
      | |- adds _ ((match ?x with _ => _ end) _) => destruct x
      end ].

Lemma getESRequest_adds (lib : Lib) (input : list string) :
  adds isReport (getESRequest lib input).
Proof. unfold getESRequest. follow_adds. Qed.

Lemma resubmit_adds (lib : Lib) (req : list string) : adds notAck (resubmit lib req).
Proof.
  unfold resubmit. apply adds_bind.
  - eapply adds_weaken; [|apply getESRequest_adds]. by intros [].
  - intros [r|]; follow_adds.
Qed.

Lemma retryItem_adds (lib : Lib) (request : BulkableRequest) :
  adds notAck (retryItem lib request).
Proof.
  unfold retryItem. destruct (Source lib request); [follow_adds | apply resubmit_adds].
Qed.


(** *** Calls that never end the process *)

Lemma alive_ret {A : Type} (a : A) : alive (ret a).
Proof. intros p. discriminate. Qed.

Lemma alive_panic {A : Type} : alive (@panic A).
Proof. intros p. discriminate. Qed.

Lemma alive_emit (e : event) : alive (emit e).
Proof. intros p. discriminate. Qed.

Lemma alive_bind {A B : Type} (m : M A) (f : A -> M B) :
  alive m -> (forall a, alive (f a)) -> alive (bind m f).
Proof.
  intros Hm Hf p. specialize (Hm p). unfold bind.
  destruct (m p) as [[a| |] p']; cbn [fst] in *; [apply Hf | done | discriminate].
Qed.

Lemma alive_forRange {A B : Type} (l : list A) (body : A -> B -> M B) (b : B) :
  (forall x b', alive (body x b')) -> alive (forRange l body b).
Proof.
  intros Hbody. revert b. induction l as [|x l IH]; intros b; cbn [forRange].
  - apply alive_ret.
  - apply alive_bind; [apply Hbody | intros b'; apply IH].
Qed.

Lemma alive_sliceAt {A : Type} (l : list A) (i : nat) : alive (sliceAt l i).
Proof. unfold sliceAt. destruct (l !! i); [apply alive_ret | apply alive_panic]. Qed.

Lemma alive_assertString (v : option jsonValue) : alive (assertString v).
Proof. destruct v as [[]|]; first [apply alive_ret | apply alive_panic]. Qed.

Lemma alive_assertFloat64 (v : option jsonValue) : alive (assertFloat64 v).
Proof. destruct v as [[]|]; first [apply alive_ret | apply alive_panic]. Qed.

Ltac follow_alive :=
  repeat first
    [ apply alive_ret
    | apply alive_panic
    | apply alive_sliceAt
    | apply alive_assertString
    | apply alive_assertFloat64
    | apply alive_emit
    | apply alive_bind; [|intros ?]
    | apply alive_forRange; intros ? ?
    | match goal with
      | |- alive (match ?x with _ => _ end) => destruct x
      | |- alive ((match ?x with _ => _ end) _) => destruct x
      end ].

Lemma getESRequest_alive (lib : Lib) (input : list string) :
  alive (getESRequest lib input).
Proof. unfold getESRequest. follow_alive. Qed.

Lemma retryItem_alive (lib : Lib) (request : BulkableRequest) :
  alive (retryItem lib request).
Proof.
  unfold retryItem, resubmit. destruct (Source lib request); [follow_alive|].
  apply alive_bind; [apply getESRequest_alive | intros [r|]; follow_alive].
Qed.

Lemma acked_quiet (es : list event) : Forall notAck es -> acked es = [].
Proof.
  induction 1 as [|e es He _ IH]; [reflexivity|].
  unfold acked in *. cbn. destruct e; cbn in He; try contradiction; exact IH.
Qed.

(** X13.  Adding a message under a free key and acking that key once the
    bulk processor reports on it leaves the in-flight map exactly as it was
    before the [Add]: the request has been submitted once and the message
    acked once.  A further ack of the same key finds nothing and changes
    nothing, so a message is never acked twice through its key. *)
Theorem add_then_ack_restores_map (request : BulkableRequest) (key : string)
    (kafkaMsg : Message) (p : esProcessorImpl) :
  mapToKafkaMsg p !! key = None ->
  let p1 := snd (Add request key kafkaMsg p) in
  let p2 := snd (ackKafkaMsg key p1) in
  ackKafkaMsg key p1 =
    (Returned tt, {| mapToKafkaMsg := mapToKafkaMsg p;
                     calls := calls p ++ [ProcessorAdd request; Ack kafkaMsg] |})
  /\ ackKafkaMsg key p2 = (Returned tt, p2).
Proof.
  intros Hfree p1 p2. subst p2 p1.
  rewrite (Add_absent request key kafkaMsg p Hfree). cbn [snd].
  rewrite (ackKafkaMsg_message key kafkaMsg) by apply lookup_insert_eq.
  cbn [snd mapToKafkaMsg calls]. rewrite (delete_insert_id _ _ _ Hfree), <- app_assoc.
  split; [reflexivity|]. by apply ackKafkaMsg_absent.
Qed.

Lemma add_then_ack_restores_map_witness :
  ackKafkaMsg "runAClosed"
    (snd (Add (CallerRequest 1) "runAClosed" {| messageID := 2 |} sampleProcessor))
  = (Returned tt,
     {| mapToKafkaMsg := mapToKafkaMsg sampleProcessor;
        calls := [ProcessorAdd (CallerRequest 1); Ack {| messageID := 2 |}] |}).
Proof.
  apply (add_then_ack_restores_map (CallerRequest 1) "runAClosed" {| messageID := 2 |}
           sampleProcessor eq_refl).
Defined.

(** X14.  When the three document versions are pairwise different,
    [convertESVersionToVisibilityMsgType] maps each of them to the name of
    its own message type, maps every other version to the empty tag, and
    so never gives two of the three versions the same tag: the keys of the
    Open, Closed and Delete messages of one document differ. *)
Theorem version_tags_are_distinct (lib : Lib) :
  versionForOpen lib <> versionForClose lib ->
  versionForOpen lib <> versionForDelete lib ->
  versionForClose lib <> versionForDelete lib ->
  convertESVersionToVisibilityMsgType lib (versionForOpen lib) = "Open"
  /\ convertESVersionToVisibilityMsgType lib (versionForClose lib) = "Closed"
  /\ convertESVersionToVisibilityMsgType lib (versionForDelete lib) = "Delete"
  /\ (forall version,
         convertESVersionToVisibilityMsgType lib version = ""
         <-> version <> versionForOpen lib /\ version <> versionForClose lib
             /\ version <> versionForDelete lib)
  /\ (forall v1 v2,
         convertESVersionToVisibilityMsgType lib v1 <> "" ->
         convertESVersionToVisibilityMsgType lib v1
         = convertESVersionToVisibilityMsgType lib v2 ->
         v1 = v2).
Proof.
  intros Hoc Hod Hcd. unfold convertESVersionToVisibilityMsgType.
  split; [|split; [|split; [|split]]].
  - repeat case_decide; cbn; congruence.
  - repeat case_decide; cbn; congruence.
  - repeat case_decide; cbn; congruence.
  - intros version. split.
    + repeat case_decide; cbn; try discriminate; done.
    + intros (H1 & H2 & H3). repeat case_decide; cbn; congruence.
  - intros v1 v2. repeat case_decide; cbn; try discriminate; try congruence; done.
Qed.

Lemma version_tags_are_distinct_witness :
  convertESVersionToVisibilityMsgType sampleLib 20 = "Closed".
Proof.
  apply (version_tags_are_distinct sampleLib); discriminate.
Defined.

(** X15.  [getESRequest] only reads: on every input it leaves the in-flight
    map untouched and the only calls it makes are error logs and the
    corrupted-data counter; it acks nothing and submits nothing itself.  On
    an empty slice it panics; on a header line that does not decode it logs,
    counts the corrupted data and returns nil; on a decoded header entry
    without a string under [_index] it panics. *)
Theorem getESRequest_only_reports (lib : Lib) (input : list string) (p : esProcessorImpl) :
  (mapToKafkaMsg (snd (getESRequest lib input p)) = mapToKafkaMsg p
   /\ exists es, calls (snd (getESRequest lib input p)) = calls p ++ es
                 /\ Forall isReport es)
  /\ getESRequest lib [] p = (Panicked, p)
  /\ (forall line0 rest,
         input = line0 :: rest ->
         unmarshalRequestHead lib line0 = None ->
         getESRequest lib input p =
         (Returned None,
          {| mapToKafkaMsg := mapToKafkaMsg p;
             calls := calls p ++ [LogError "Unmarshal request err.";
                                  IncCounter ESProcessorCorruptedData] |}))
  /\ (forall line0 rest op m heads,
         input = line0 :: rest ->
         unmarshalRequestHead lib line0 = Some ((op, m) :: heads) ->
         (forall s, m !! "_index" <> Some (JString s)) ->
         getESRequest lib input p = (Panicked, p)).
Proof.
  split; [apply getESRequest_adds|]. split; [reflexivity|]. split.
  - intros line0 rest -> Hhead. unfold getESRequest, bind, sliceAt. cbn.
    rewrite Hhead. cbn. by rewrite <- app_assoc.
  - intros line0 rest op m heads -> Hhead Hindex. unfold getESRequest, bind, sliceAt. cbn.
    rewrite Hhead. cbn. unfold bind.
    destruct (m !! "_index") as [[s| | | |]|] eqn:Hlookup; try reflexivity.
    by destruct (Hindex s).
Qed.

Lemma getESRequest_only_reports_witness :
  getESRequest sampleLib ["not json"] sampleProcessor =
  (Returned None,
   {| mapToKafkaMsg := mapToKafkaMsg sampleProcessor;
      calls := [LogError "Unmarshal request err."; IncCounter ESProcessorCorruptedData] |}).
Proof.
  destruct (getESRequest_only_reports sampleLib ["not json"] sampleProcessor)
    as (_ & _ & Hcorrupt & _).
  exact (Hcorrupt "not json" [] eq_refl eq_refl).
Defined.

(** X16.  After a failed flush, [bulkAfterAction] never acks: whatever the
    requests are, and whether it returns or panics on a malformed one, the
    in-flight map is unchanged, and the calls it makes are the error log,
    the failure counter and the sleep of [ESProcessorRetryInterval],
    followed only by logs, counters and resubmissions. *)
Theorem failed_flush_acks_nothing (lib : Lib) (id : Z) (requests : list BulkableRequest)
    (response : list responseItem) (err : error) (p : esProcessorImpl) :
  let p' := snd (bulkAfterAction lib id requests response (Some err) p) in
  mapToKafkaMsg p' = mapToKafkaMsg p
  /\ fst (bulkAfterAction lib id requests response (Some err) p) <> Exited
  /\ exists es,
       calls p' = calls p
                  ++ [LogError "Error commit bulk request.";
                      IncCounter ESProcessorFailures;
                      Sleep (ESProcessorRetryInterval lib)] ++ es
       /\ Forall notAck es /\ acked es = [].
Proof.
  cbv zeta.
  assert (Hadds : adds notAck (bulkAfterAction lib id requests response (Some err))).
  { unfold bulkAfterAction. follow_adds. apply retryItem_adds. }
  assert (Halive : alive (bulkAfterAction lib id requests response (Some err))).
  { unfold bulkAfterAction. follow_alive. apply retryItem_alive. }
  split; [apply Hadds|]. split; [apply Halive|].
  unfold bulkAfterAction, bind, emit. cbn [snd fst mapToKafkaMsg calls].
  set (p0 := {| mapToKafkaMsg := mapToKafkaMsg p; calls := _ |}).
  assert (Hloop : adds notAck
                    (forRange requests (fun request (_ : unit) => retryItem lib request) tt)).
  { apply adds_forRange. intros. apply retryItem_adds. }
  destruct (Hloop p0) as (_ & es & Hcalls & Hes).
  exists es. split; [|split; [exact Hes | by apply acked_quiet]].
  rewrite Hcalls. subst p0. cbn [calls]. by rewrite <- !app_assoc.
Qed.


(** *** The in-flight map holds messages only *)

Lemma safe_ret {A : Type} (a : A) : safe (ret a).
Proof. intros p Hp. split; [exact Hp | discriminate]. Qed.

Lemma safe_bind {A B : Type} (m : M A) (f : A -> M B) :
  safe m -> (forall a, safe (f a)) -> safe (bind m f).
Proof.
  intros Hm Hf p Hp. destruct (Hm p Hp) as [Hp' Halive]. unfold bind.
  destruct (m p) as [[a| |] p']; cbn [fst snd] in *;
    [by apply Hf | done | split; [exact Hp' | discriminate]].
Qed.

Lemma safe_forRange {A B : Type} (l : list A) (body : A -> B -> M B) (b : B) :
  (forall x b', safe (body x b')) -> safe (forRange l body b).
Proof.
  intros Hbody. revert b. induction l as [|x l IH]; intros b; cbn [forRange].
  - apply safe_ret.
  - apply safe_bind; [apply Hbody | intros b'; apply IH].
Qed.

Lemma safe_adds {A : Type} (P : event -> Prop) (m : M A) : adds P m -> alive m -> safe m.
Proof.
  intros Hadds Halive p Hp. split; [|apply Halive].
  destruct (Hadds p) as [Hmap _]. intros key value. rewrite Hmap. apply Hp.
Qed.

Lemma safe_Add (request : BulkableRequest) (key : string) (kafkaMsg : Message) :
  safe (Add request key kafkaMsg).
Proof.
  intros p Hp. destruct (mapToKafkaMsg p !! key) as [value|] eqn:Hkey.
  - rewrite Add_present by (by eexists). split; [exact Hp | discriminate].
  - rewrite (Add_absent _ _ _ _ Hkey). split; [|discriminate].
    intros key' value'. cbn. rewrite lookup_insert.
    case_decide; [intros [= <-]; by eexists | apply Hp].
Qed.

Lemma safe_ackKafkaMsg (key : string) : safe (ackKafkaMsg key).
Proof.
  intros p Hp. destruct (mapToKafkaMsg p !! key) as [value|] eqn:Hkey.
  - destruct (Hp key value Hkey) as [kafkaMsg ->].
    rewrite (ackKafkaMsg_message _ _ _ Hkey). split; [|discriminate].
    intros key' value'. cbn. rewrite lookup_delete.
    case_decide; [discriminate | apply Hp].
  - rewrite (ackKafkaMsg_absent _ _ Hkey). split; [exact Hp | discriminate].
Qed.

Lemma safe_resubmit (lib : Lib) (req : list string) : safe (resubmit lib req).
Proof.
  apply (safe_adds notAck); [apply resubmit_adds|].
  unfold resubmit. apply alive_bind; [apply getESRequest_alive | intros [r|]; follow_alive].
Qed.

Lemma safe_reconcileItem (lib : Lib) (responseItems : list responseItem) (i : nat)
    (request : BulkableRequest) :
  safe (reconcileItem lib responseItems i request).
Proof.
  unfold reconcileItem.
  destruct (Source lib request) as [err|req].
  { apply (safe_adds isReport); [follow_adds | follow_alive]. }
  apply safe_bind; [apply (safe_adds isReport); [follow_adds | follow_alive]|].
  intros line0. destruct (unmarshalRequestHead lib line0) as [reqHead|].
  2: { apply (safe_adds isReport); [follow_adds | follow_alive]. }
  apply safe_bind; [apply (safe_adds isReport); [follow_adds | follow_alive]|].
  intros head.
  apply safe_bind; [apply (safe_adds isReport); [follow_adds | follow_alive]|].
  intros item. apply safe_forRange. intros [opName res] [].
  unfold reconcileResult.
  destruct ((200 <=? Status res) && (Status res <? 300)); [apply safe_ackKafkaMsg|].
  destruct (decide (Status res = 409)); [apply safe_ackKafkaMsg | apply safe_resubmit].
Qed.

Lemma safe_bulkAfterAction (lib : Lib) (id : Z) (requests : list BulkableRequest)
    (response : list responseItem) (err : option error) :
  safe (bulkAfterAction lib id requests response err).
Proof.
  destruct err as [err|].
  - apply (safe_adds notAck).
    + unfold bulkAfterAction. follow_adds. apply retryItem_adds.
    + unfold bulkAfterAction. follow_alive. apply retryItem_alive.
  - unfold bulkAfterAction. generalize 0%nat.
    induction requests as [|request requests IH]; intros i; cbn [reconcileFrom].
    + apply safe_ret.
    + apply safe_bind; [apply safe_reconcileItem | intros _; apply IH].
Qed.

(** X17.  The in-flight map only ever holds messages: if every stored value
    is a message, the same is true after [Add], after [ackKafkaMsg] and
    after [bulkAfterAction], whatever their arguments, and none of them ends
    the process; so the fatal log of [ackKafkaMsg] is not reachable on a
    processor that starts with an empty map.  It is reached exactly on a key
    whose stored value is not a message, and then nothing is acked or
    removed. *)
Theorem map_holds_messages_only (p : esProcessorImpl) :
  allMessages p ->
  (forall request key kafkaMsg,
      allMessages (snd (Add request key kafkaMsg p))
      /\ fst (Add request key kafkaMsg p) <> Exited)
  /\ (forall key,
         allMessages (snd (ackKafkaMsg key p)) /\ fst (ackKafkaMsg key p) <> Exited)
  /\ (forall lib id requests response err,
         allMessages (snd (bulkAfterAction lib id requests response err p))
         /\ fst (bulkAfterAction lib id requests response err p) <> Exited)
  /\ (forall key q,
         mapToKafkaMsg q !! key = Some NotMessage ->
         ackKafkaMsg key q =
         (Exited, {| mapToKafkaMsg := mapToKafkaMsg q;
                     calls := calls q ++ [LogFatal "Message is not kafka message."] |}))
  /\ allMessages {| mapToKafkaMsg := ∅; calls := [] |}.
Proof.
  intros Hp. split; [|split; [|split; [|split]]].
  - intros request key kafkaMsg. by apply safe_Add.
  - intros key. by apply safe_ackKafkaMsg.
  - intros lib id requests response err. by apply safe_bulkAfterAction.
  - intros key q Hkey. unfold ackKafkaMsg, bind, Get. by rewrite Hkey.
  - intros key value. cbn. by rewrite lookup_empty.
Qed.

Lemma map_holds_messages_only_witness :
  allMessages (snd (bulkAfterAction sampleLib 1 [CallerRequest 1]
                      [[("index", {| Id := "runA"; Status := 200 |})]] None
                      sampleProcessor))
  /\ fst (bulkAfterAction sampleLib 1 [CallerRequest 1]
            [[("index", {| Id := "runA"; Status := 200 |})]] None sampleProcessor)
     <> Exited.
Proof.
  assert (Hsample : allMessages sampleProcessor).
  { intros key value. unfold sampleProcessor. cbn.
    rewrite lookup_singleton. case_decide; [intros [= <-]; by eexists | discriminate]. }
  destruct (map_holds_messages_only sampleProcessor Hsample) as (_ & _ & Hbulk & _).
  apply Hbulk.
Defined.


(** *** A whole batch *)

Lemma withAdded_other (items : list inFlight) (m : gmap string mapValue) (key : string) :
  key ∉ if_key <$> items -> withAdded items m !! key = m !! key.
Proof.
  revert m. induction items as [|it items IH]; intros m Hkey; [reflexivity|].
  cbn in Hkey. apply not_elem_of_cons in Hkey as [Hne Hkey].
  unfold withAdded in *. cbn [foldl]. rewrite IH by exact Hkey.
  by rewrite lookup_insert_ne.
Qed.

Lemma withAdded_lookup (items : list inFlight) (m : gmap string mapValue) (it : inFlight) :
  NoDup (if_key <$> items) -> it ∈ items ->
  withAdded items m !! if_key it = Some (IsMessage (if_msg it)).
Proof.
  revert m. induction items as [|it' items IH]; intros m Hnodup Hin.
  - by apply elem_of_nil in Hin.
  - cbn in Hnodup. apply NoDup_cons in Hnodup as [Hfresh Hnodup].
    unfold withAdded in *. cbn [foldl].
    apply elem_of_cons in Hin as [->|Hin].
    + fold (withAdded items (<[if_key it' := IsMessage (if_msg it')]> m)).
      rewrite withAdded_other by exact Hfresh. apply lookup_insert_eq.
    + by apply IH.
Qed.

Lemma delete_withAdded (items : list inFlight) (m : gmap string mapValue) (key : string) :
  key ∉ if_key <$> items -> delete key (withAdded items m) = withAdded items (delete key m).
Proof.
  revert m. induction items as [|it items IH]; intros m Hkey; [reflexivity|].
  cbn in Hkey. apply not_elem_of_cons in Hkey as [Hne Hkey].
  unfold withAdded in *. cbn [foldl]. rewrite IH by exact Hkey.
  by rewrite delete_insert_ne.
Qed.

Lemma withRemoved_withAdded (items : list inFlight) (m : gmap string mapValue) :
  NoDup (if_key <$> items) ->
  (forall it, it ∈ items -> m !! if_key it = None) ->
  withRemoved items (withAdded items m) = m.
Proof.
  revert m. induction items as [|it items IH]; intros m Hnodup Hfree; [reflexivity|].
  cbn in Hnodup. apply NoDup_cons in Hnodup as [Hfresh Hnodup].
  unfold withRemoved, withAdded in *. cbn [foldl].
  fold (withAdded items (<[if_key it := IsMessage (if_msg it)]> m)).
  rewrite delete_withAdded by exact Hfresh.
  rewrite delete_insert_id by (apply Hfree; left).
  apply IH; [exact Hnodup|]. intros it' Hin. apply Hfree. by right.
Qed.

Lemma addAll_fresh (items : list inFlight) (p : esProcessorImpl) :
  NoDup (if_key <$> items) ->
  (forall it, it ∈ items -> mapToKafkaMsg p !! if_key it = None) ->
  addAll items p =
  (Returned tt, {| mapToKafkaMsg := withAdded items (mapToKafkaMsg p);
                   calls := calls p ++ (ProcessorAdd ∘ if_request <$> items) |}).
Proof.
  revert p. induction items as [|it items IH]; intros p Hnodup Hfree.
  - cbn. by rewrite app_nil_r, processor_eta.
  - cbn in Hnodup. apply NoDup_cons in Hnodup as [Hfresh Hnodup].
    unfold addAll in *. cbn [forRange]. unfold bind at 1.
    rewrite Add_absent by (apply Hfree; left).
    rewrite IH; [|exact Hnodup|].
    + cbn. by rewrite <- app_assoc.
    + intros it' Hin. cbn. rewrite lookup_insert_ne; [apply Hfree; by right|].
      intros Heq. apply Hfresh. rewrite Heq. by apply list_elem_of_fmap_2.
Qed.

Lemma reconcileResult_settled (lib : Lib) (req : list string) (head : string)
    (res : BulkResponseItem) (p : esProcessorImpl) :
  200 <= Status res < 300 \/ Status res = 409 ->
  reconcileResult lib req head res p = ackKafkaMsg (String.append (Id res) head) p.
Proof.
  intros [[Hlo Hhi]|H409]; unfold reconcileResult.
  - apply Z.leb_le in Hlo. apply Z.ltb_lt in Hhi. by rewrite Hlo, Hhi.
  - rewrite H409. reflexivity.
Qed.

Lemma reconcileFrom_settled (lib : Lib) (items : list inFlight) (pre : list responseItem)
    (p : esProcessorImpl) :
  NoDup (if_key <$> items) ->
  (forall it, it ∈ items ->
     settled lib it /\ mapToKafkaMsg p !! if_key it = Some (IsMessage (if_msg it))) ->
  reconcileFrom lib (pre ++ responseOf items) (length pre) (if_request <$> items) p =
  (Returned tt, {| mapToKafkaMsg := withRemoved items (mapToKafkaMsg p);
                   calls := calls p ++ (Ack ∘ if_msg <$> items) |}).
Proof.
  revert pre p. induction items as [|it items IH]; intros pre p Hnodup Hitems.
  - cbn. by rewrite app_nil_r, processor_eta.
  - cbn in Hnodup. apply NoDup_cons in Hnodup as [Hfresh Hnodup].
    destruct (Hitems it) as [Hsettled Hstored]; [left|].
    destruct Hsettled as (line0 & rest & op & m & version & Hsource & Hhead & Hversion
                          & Hkey & Hstatus).
    cbn [fmap list_fmap reconcileFrom]. unfold bind at 1.
    rewrite (reconcileItem_entry lib _ (length pre) (if_request it) line0 rest op m version
               (if_op it) (if_res it) p Hsource Hhead Hversion).
    2: { unfold responseOf. cbn [fmap list_fmap]. by apply list_lookup_middle. }
    rewrite (reconcileResult_settled _ _ _ _ _ Hstatus), Hkey.
    rewrite (ackKafkaMsg_message _ _ _ Hstored).
    replace (pre ++ responseOf (it :: items))
      with ((pre ++ [[(if_op it, if_res it)]]) ++ responseOf items)
      by (by rewrite <- app_assoc).
    replace (S (length pre)) with (length (pre ++ [[(if_op it, if_res it)]]))
      by (rewrite length_app; cbn; lia).
    rewrite IH; [|exact Hnodup|].
    + cbn. by rewrite <- app_assoc.
    + intros it' Hin. destruct (Hitems it') as [Hsettled' Hstored']; [by right|].
      split; [exact Hsettled'|]. cbn. rewrite lookup_delete_ne; [exact Hstored'|].
      intros Heq. apply Hfresh. rewrite Heq. by apply list_elem_of_fmap_2.
Qed.

(** X18.  A batch of messages added under distinct free keys and then
    committed with a success or a version conflict for every one of them is
    settled completely: every request was submitted once, in the order of
    the [Add] calls, every message is acked exactly once, in the order of
    the requests, and the in-flight map is back to what it was before the
    batch. *)
Theorem batch_added_then_committed (lib : Lib) (id : Z) (items : list inFlight)
    (p : esProcessorImpl) :
  NoDup (if_key <$> items) ->
  (forall it, it ∈ items -> settled lib it /\ mapToKafkaMsg p !! if_key it = None) ->
  (_ <- addAll items ;;
   bulkAfterAction lib id (if_request <$> items) (responseOf items) None) p
  = (Returned tt,
     {| mapToKafkaMsg := mapToKafkaMsg p;
        calls := calls p ++ (ProcessorAdd ∘ if_request <$> items)
                         ++ (Ack ∘ if_msg <$> items) |}).
Proof.
  intros Hnodup Hitems. unfold bind.
  rewrite addAll_fresh; [|exact Hnodup | intros it Hin; by apply Hitems].
  rewrite bulkAfterAction_committed.
  rewrite (reconcileFrom_settled lib items [] _ Hnodup).
  - cbn [mapToKafkaMsg calls].
    rewrite withRemoved_withAdded; [|exact Hnodup | intros it Hin; by apply Hitems].
    by rewrite <- app_assoc.
  - intros it Hin. split; [by apply Hitems|]. cbn. by apply withAdded_lookup.
Qed.


Lemma batch_added_then_committed_witness :
  (_ <- addAll [sampleInFlight] ;;
   bulkAfterAction sampleLib 7 [CallerRequest 1]
     [[("index", {| Id := "runA"; Status := 201 |})]] None) emptyProcessor
  = (Returned tt,
     {| mapToKafkaMsg := ∅;
        calls := [ProcessorAdd (CallerRequest 1); Ack {| messageID := 2 |}] |}).
Proof.
  apply (batch_added_then_committed sampleLib 7 [sampleInFlight] emptyProcessor).
  - apply NoDup_singleton.
  - intros it Hin. apply list_elem_of_singleton in Hin as ->. split; [|reflexivity].
    exists (headerLine "index" "10"), [docLine], "index",
      (headerFields "visibility" "runA" "_doc" 10 "external"), 10.
    repeat split; try reflexivity. left. cbn. lia.
Defined.

Lemma retryItem_outcome (lib : Lib) (request : BulkableRequest)
    (rebuilt : option BulkableRequest) (es : list event) (p : esProcessorImpl) :
  retryOutcome lib request rebuilt es ->
  retryItem lib request p =
  (Returned tt, {| mapToKafkaMsg := mapToKafkaMsg p; calls := calls p ++ es |})
  /\ submitted es = option_list rebuilt.
Proof.
  intros Hout. split; [|by destruct Hout].
  unfold retryItem, resubmit.
  destruct Hout as [r Hrebuilt | err Hsource | line0 rest Hsource Hhead
                   | line0 rest op m index id typ version versionType doc
                       Hsource Hhead Hop Hbody
                   | line0 rest op m index id typ version versionType
                       Hsource Hhead Hbody].
  - destruct Hrebuilt as (line0 & rest & m & index & id & typ & version & versionType
                          & doc & Hsource & Hhead & Hbody & ->).
    rewrite Hsource. unfold bind.
    rewrite (getESRequest_wellFormed lib line0 rest _ _ _ _ _ _ _ _ Hhead), Hbody.
    by rewrite decide_True.
  - rewrite Hsource. unfold bind, emit. cbn. by rewrite <- app_assoc.
  - rewrite Hsource. unfold bind, getESRequest, bind, sliceAt, emit. cbn.
    rewrite Hhead. cbn. by rewrite <- app_assoc.
  - rewrite Hsource. unfold bind.
    rewrite (getESRequest_wellFormed lib line0 rest _ _ _ _ _ _ _ _ Hhead), Hbody.
    rewrite decide_False by exact Hop. by rewrite app_nil_r, processor_eta.
  - rewrite Hsource. unfold bind.
    by rewrite (getESRequest_wellFormed lib line0 rest _ _ _ _ _ _ _ _ Hhead), Hbody.
Qed.

Lemma retry_loop (lib : Lib) (requests : list BulkableRequest)
    (outs : list (option BulkableRequest * list event)) (p : esProcessorImpl) :
  Forall2 (fun request out => retryOutcome lib request (fst out) (snd out)) requests outs ->
  forRange requests (fun request (_ : unit) => retryItem lib request) tt p =
  (Returned tt, {| mapToKafkaMsg := mapToKafkaMsg p;
                   calls := calls p ++ concat (snd <$> outs) |})
  /\ submitted (concat (snd <$> outs)) = omap fst outs.
Proof.
  intros Hall. revert p.
  induction Hall as [|request [rebuilt es] requests outs Hone _ IH]; intros p.
  - cbn. by rewrite app_nil_r, processor_eta.
  - cbn [fst snd] in Hone.
    destruct (retryItem_outcome lib request rebuilt es p Hone) as [Hitem Hsubmitted].
    destruct (IH {| mapToKafkaMsg := mapToKafkaMsg p; calls := calls p ++ es |})
      as [Hloop Hrest].
    split.
    + cbn [forRange]. unfold bind at 1. rewrite Hitem, Hloop. cbn.
      by rewrite <- app_assoc.
    + cbn [fmap list_fmap concat snd]. unfold submitted in *.
      rewrite omap_app, Hsubmitted, Hrest. by destruct rebuilt.
Qed.

(** X19.  After a failed flush, and after the error log, the failure
    counter and the sleep, the requests of the batch are gone through in
    order: every index request is rebuilt from its own header and body and
    handed to the bulk processor again; a request whose source cannot be
    produced, or whose header or body does not decode, is reported; a
    request whose header names another operation is passed over.  So the
    requests handed to the bulk processor are exactly the rebuilt index
    requests of the batch, in batch order, whatever else the batch holds;
    the in-flight map is unchanged. *)
Theorem failed_flush_resubmits_index_requests (lib : Lib) (id : Z)
    (requests : list BulkableRequest)
    (outs : list (option BulkableRequest * list event))
    (response : list responseItem) (err : error) (p : esProcessorImpl) :
  Forall2 (fun request out => retryOutcome lib request (fst out) (snd out)) requests outs ->
  bulkAfterAction lib id requests response (Some err) p =
  (Returned tt,
   {| mapToKafkaMsg := mapToKafkaMsg p;
      calls := calls p
               ++ [LogError "Error commit bulk request.";
                   IncCounter ESProcessorFailures;
                   Sleep (ESProcessorRetryInterval lib)]
               ++ concat (snd <$> outs) |})
  /\ submitted (concat (snd <$> outs)) = omap fst outs.
Proof.
  intros Hall. split; [|by apply (retry_loop lib requests outs p)].
  unfold bulkAfterAction, bind, emit. cbn [mapToKafkaMsg calls].
  destruct (retry_loop lib requests outs
              {| mapToKafkaMsg := mapToKafkaMsg p;
                 calls := ((calls p ++ [LogError "Error commit bulk request."])
                           ++ [IncCounter ESProcessorFailures])
                          ++ [Sleep (ESProcessorRetryInterval lib)] |} Hall)
    as [-> _].
  cbn [mapToKafkaMsg calls]. by rewrite <- !app_assoc.
Qed.

Lemma failed_flush_resubmits_index_requests_witness :
  let rebuiltB := BulkIndexRequest "visibility" "_doc" "runB" "external" 20 (docOf "runB") in
  let rebuiltA := BulkIndexRequest "visibility" "_doc" "runA" "external" 10 (docOf "runA") in
  bulkAfterAction batchLib 7
    [CallerRequest 4; CallerRequest 2; CallerRequest 1; CallerRequest 9] []
    (Some (OtherError "cluster down")) sampleProcessor
  = (Returned tt,
     {| mapToKafkaMsg := mapToKafkaMsg sampleProcessor;
        calls := [LogError "Error commit bulk request."; IncCounter ESProcessorFailures;
                  Sleep 1000;
                  ProcessorAdd rebuiltB; ProcessorAdd rebuiltA;
                  LogError "Get request source err.";
                  IncCounter ESProcessorCorruptedData] |}).
Proof.
  cbv zeta.
  apply (failed_flush_resubmits_index_requests batchLib 7
           [CallerRequest 4; CallerRequest 2; CallerRequest 1; CallerRequest 9]
           [(Some (BulkIndexRequest "visibility" "_doc" "runB" "external" 20 (docOf "runB")),
             [ProcessorAdd (BulkIndexRequest "visibility" "_doc" "runB" "external" 20
                              (docOf "runB"))]);
            (None, []);
            (Some (BulkIndexRequest "visibility" "_doc" "runA" "external" 10 (docOf "runA")),
             [ProcessorAdd (BulkIndexRequest "visibility" "_doc" "runA" "external" 10
                              (docOf "runA"))]);
            (None, [LogError "Get request source err.";
                    IncCounter ESProcessorCorruptedData])]
           [] (OtherError "cluster down") sampleProcessor).
  constructor; [|constructor; [|constructor; [|constructor; [|constructor]]]]; cbn [fst snd].
  - apply retry_rebuilt.
    exists (headerLineOf "index" "runB" "20"), [docLineOf "runB"],
      (headerFields "visibility" "runB" "_doc" 20 "external"),
      "visibility", "runB", "_doc", 20, "external", (docOf "runB").
    repeat split; reflexivity.
  - apply (retry_other_operation batchLib (CallerRequest 2)
             (headerLineOf "delete" "runA" "30") [] "delete"
             (headerFields "visibility" "runA" "_doc" 30 "external")
             "visibility" "runA" "_doc" 30 "external" emptyVisibilityMsg);
      [reflexivity | repeat split; reflexivity | discriminate | reflexivity].
  - apply retry_rebuilt.
    exists (headerLineOf "index" "runA" "10"), [docLineOf "runA"],
      (headerFields "visibility" "runA" "_doc" 10 "external"),
      "visibility", "runA", "_doc", 10, "external", (docOf "runA").
    repeat split; reflexivity.
  - by apply (retry_no_source batchLib (CallerRequest 9) (OtherError "no source")).
Defined.

(** *** One ack for every entry removed *)

Lemma acked_app (es1 es2 : list event) : acked (es1 ++ es2) = acked es1 ++ acked es2.
Proof. apply omap_app. Qed.

Lemma conserves_adds {A : Type} (m : M A) : adds notAck m -> conserves m.
Proof.
  intros Hm p. destruct (Hm p) as (Hmap & es & Hcalls & Hes).
  rewrite Hmap. split; [reflexivity|]. exists es. split; [exact Hcalls|].
  rewrite (acked_quiet _ Hes). cbn. lia.
Qed.

Lemma conserves_bind {A B : Type} (m : M A) (f : A -> M B) :
  conserves m -> (forall a, conserves (f a)) -> conserves (bind m f).
Proof.
  intros Hm Hf p. specialize (Hm p). unfold bind.
  destruct (m p) as [[a| |] p']; cbn [snd] in Hm; try exact Hm.
  destruct Hm as (Hsub & es & Hcalls & Hsize).
  destruct (Hf a p') as (Hsub' & es' & Hcalls' & Hsize').
  split; [by etrans|]. exists (es ++ es'). split.
  - by rewrite Hcalls', Hcalls, app_assoc.
  - rewrite acked_app, length_app. lia.
Qed.

Lemma conserves_forRange {A B : Type} (l : list A) (body : A -> B -> M B) (b : B) :
  (forall x b', conserves (body x b')) -> conserves (forRange l body b).
Proof.
  intros Hbody. revert b. induction l as [|x l IH]; intros b; cbn [forRange].
  - apply conserves_adds, adds_ret.
  - apply conserves_bind; [apply Hbody | intros b'; apply IH].
Qed.

Lemma conserves_ackKafkaMsg (key : string) : conserves (ackKafkaMsg key).
Proof.
  intros p. destruct (mapToKafkaMsg p !! key) as [[kafkaMsg|]|] eqn:Hkey.
  - rewrite (ackKafkaMsg_message _ _ _ Hkey). cbn [snd mapToKafkaMsg calls].
    split; [apply delete_subseteq|]. exists [Ack kafkaMsg]. split; [reflexivity|].
    rewrite <- (insert_delete_id (mapToKafkaMsg p) key _ Hkey) at 1.
    rewrite map_size_insert_None by apply lookup_delete_eq. cbn. lia.
  - unfold ackKafkaMsg, bind, Get. rewrite Hkey. cbn.
    split; [reflexivity|]. exists [LogFatal "Message is not kafka message."].
    split; [reflexivity | cbn; lia].
  - rewrite (ackKafkaMsg_absent _ _ Hkey). cbn [snd]. split; [reflexivity|].
    exists []. split; [by rewrite app_nil_r | cbn; lia].
Qed.

Lemma conserves_reconcileItem (lib : Lib) (responseItems : list responseItem) (i : nat)
    (request : BulkableRequest) :
  conserves (reconcileItem lib responseItems i request).
Proof.
  unfold reconcileItem.
  destruct (Source lib request) as [err|req]; [apply conserves_adds; follow_adds|].
  apply conserves_bind; [apply conserves_adds; follow_adds|].
  intros line0. destruct (unmarshalRequestHead lib line0) as [reqHead|];
    [|apply conserves_adds; follow_adds].
  apply conserves_bind; [apply conserves_adds; follow_adds|]. intros head.
  apply conserves_bind; [apply conserves_adds; follow_adds|]. intros item.
  apply conserves_forRange. intros [opName res] [].
  unfold reconcileResult.
  destruct ((200 <=? Status res) && (Status res <? 300)); [apply conserves_ackKafkaMsg|].
  destruct (decide (Status res = 409));
    [apply conserves_ackKafkaMsg | apply conserves_adds, resubmit_adds].
Qed.

(** X20.  [bulkAfterAction] never inserts into the in-flight map and acks
    exactly one message for every entry it removes: whatever the batch, the
    response and the flush error are, and whether the call returns or
    panics part-way, the map afterwards is included in the map before, and
    the number of entries before equals the number of entries afterwards
    plus the number of acks made by the call. *)
Theorem reconciliation_conserves_messages (lib : Lib) (id : Z)
    (requests : list BulkableRequest) (response : list responseItem)
    (err : option error) (p : esProcessorImpl) :
  let p' := snd (bulkAfterAction lib id requests response err p) in
  mapToKafkaMsg p' ⊆ mapToKafkaMsg p
  /\ exists es, calls p' = calls p ++ es
                /\ size (mapToKafkaMsg p)
                   = (size (mapToKafkaMsg p') + length (acked es))%nat.
Proof.
  cbv zeta. revert p. change (conserves (bulkAfterAction lib id requests response err)).
  destruct err as [err|].
  - apply conserves_adds. unfold bulkAfterAction. follow_adds. apply retryItem_adds.
  - unfold bulkAfterAction. generalize 0%nat.
    induction requests as [|request requests IH]; intros i; cbn [reconcileFrom].
    + apply conserves_adds, adds_ret.
    + apply conserves_bind; [apply conserves_reconcileItem | intros _; apply IH].
Qed.


(** X21.  What the reconciliation of item [i] does with a request it cannot
    use.  A request whose source cannot be produced, or whose header line
    does not decode, is logged, counted as corrupted data and skipped
    before the response is looked at, so it is skipped even when the
    response has no entry for it.  A request with a decodable header panics
    when its source has no lines or when the response is shorter than the
    batch, with the processor unchanged.  A response entry that is empty
    settles nothing: no ack and no resubmission. *)
Theorem unusable_item (lib : Lib) (responseItems : list responseItem) (i : nat)
    (request : BulkableRequest) (p : esProcessorImpl) :
  let corrupted message :=
    (Returned tt,
     {| mapToKafkaMsg := mapToKafkaMsg p;
        calls := calls p ++ [LogError message; IncCounter ESProcessorCorruptedData] |}) in
  (forall err, Source lib request = inl err ->
               reconcileItem lib responseItems i request p
               = corrupted "Get request source err.")
  /\ (forall line0 rest,
         Source lib request = inr (line0 :: rest) ->
         unmarshalRequestHead lib line0 = None ->
         reconcileItem lib responseItems i request p = corrupted "Unmarshal request err.")
  /\ (Source lib request = inr [] ->
      reconcileItem lib responseItems i request p = (Panicked, p))
  /\ (forall line0 rest op m version,
         Source lib request = inr (line0 :: rest) ->
         unmarshalRequestHead lib line0 = Some [(op, m)] ->
         m !! "version" = Some (JNumber version) ->
         (responseItems !! i = None ->
          reconcileItem lib responseItems i request p = (Panicked, p))
         /\ (responseItems !! i = Some [] ->
             reconcileItem lib responseItems i request p = (Returned tt, p))).
Proof.
  cbv zeta. split; [|split; [|split]].
  - intros err Hsource. unfold reconcileItem, bind, emit. rewrite Hsource. cbn.
    by rewrite <- app_assoc.
  - intros line0 rest Hsource Hhead. unfold reconcileItem, bind, emit, sliceAt.
    rewrite Hsource. cbn. rewrite Hhead. cbn. by rewrite <- app_assoc.
  - intros Hsource. unfold reconcileItem, bind, sliceAt. by rewrite Hsource.
  - intros line0 rest op m version Hsource Hhead Hversion.
    unfold reconcileItem, bind, sliceAt. rewrite Hsource. cbn. rewrite Hhead. cbn.
    rewrite Hversion. cbn. unfold responseItem in *.
    split; intros Hitem; by rewrite Hitem.
Qed.

Lemma unusable_item_witness :
  reconcileItem sampleLib [] 0 (CallerRequest 1) sampleProcessor
  = (Panicked, sampleProcessor).
Proof.
  destruct (unusable_item sampleLib [] 0 (CallerRequest 1) sampleProcessor)
    as (_ & _ & _ & Hshort).
  destruct (Hshort (headerLine "index" "10") [docLine] "index"
              (headerFields "visibility" "runA" "_doc" 10 "external") 10
              eq_refl eq_refl eq_refl) as (Hpanic & _).
  exact (Hpanic eq_refl).
Defined.

End IndexerBehaviour.
